(** * Jewelry workflow dashboard: derived fields, filters, histograms, intake

    A shallow embedding of the business logic of [jewelryapp.py] (the generic
    shop dashboard) and [app_rick.py] (the CAD + bench variant), and the
    properties their specification states about it.

    Modelling conventions.
    - Python floats are IEEE 754 binary64 values ([spec_float] with precision
      53 and maximal exponent 1024); a missing value is the float NaN, as in
      pandas.  Numeric cells of a frame are kept as binary64 floats.
    - Strings are sequences of ASCII characters; [strip] and [lower] act on
      the ASCII whitespace and letters.
    - A [DataFrame] is its list of column names and its list of rows, a row
      being a finite map from column names to cells.  Vectorised column
      expressions are given their elementwise meaning.
    - Raising is explicit: fallible code returns a [result].
    - What the code asks of its libraries and of the clock (parsing a number
      or a date out of a string, printing a float, regular-expression search,
      reading back a written CSV file, the current date) is collected in an
      [Env]. *)

From Stdlib Require Import ZArith String Ascii List Bool Lia DecimalString.
From Stdlib Require Import Floats.SpecFloat.
From stdpp Require Import gmap strings list fin_maps.

Local Open Scope string_scope.

(** ** Exceptions and results *)

Inductive exn :=
| ValueError | TypeError | KeyError | AttributeError | OverflowError | ReError.

Inductive result (A : Type) :=
| Ok (a : A)
| Raise (e : exn).
Arguments Ok {A} a.
Arguments Raise {A} e.

#[global] Instance result_ret : MRet result := fun A a => Ok a.

#[global] Instance result_bind : MBind result := fun A B k r =>
  match r with
  | Ok a => k a
  | Raise e => Raise e
  end.

#[global] Instance result_fmap : FMap result := fun A B f r =>
  match r with
  | Ok a => Ok (f a)
  | Raise e => Raise e
  end.

(** [try: body except Exception: handler]. *)
Definition try_except {A} (body : result A) (handler : exn -> result A) : result A :=
  match body with
  | Ok a => Ok a
  | Raise e => handler e
  end.

(** ** Floats *)

Abbreviation float := spec_float.

Module F64.
Definition prec : Z := 53.
Definition emax : Z := 1024.
Definition zero : float := S754_zero false.
Definition nan : float := S754_nan.
Definition sub : float -> float -> float := SFsub prec emax.
Definition eqb : float -> float -> bool := SFeqb.
Definition leb : float -> float -> bool := SFleb.
Definition is_nan (x : float) : bool :=
  match x with S754_nan => true | _ => false end.
Definition is_finite (x : float) : bool :=
  match x with S754_zero _ | S754_finite _ _ _ => true | _ => false end.
(** The float nearest to an integer (round to nearest even). *)
Definition of_Z (z : Z) : float := binary_normalize prec emax z 0 false.
End F64.

(** ** Strings *)

(** The ASCII characters for which [str.isspace] holds. *)
Definition is_space (a : ascii) : bool :=
  let n := nat_of_ascii a in
  (((9 <=? n) && (n <=? 13)) || ((28 <=? n) && (n <=? 32)))%nat.

Fixpoint lstrip_chars (l : list ascii) : list ascii :=
  match l with
  | [] => []
  | a :: l' => if is_space a then lstrip_chars l' else l
  end.

Definition rstrip_chars (l : list ascii) : list ascii :=
  rev (lstrip_chars (rev l)).

(** [s.strip()] *)
Definition strip (s : string) : string :=
  string_of_list_ascii (rstrip_chars (lstrip_chars (list_ascii_of_string s))).

Definition lower_char (a : ascii) : ascii :=
  let n := nat_of_ascii a in
  if ((65 <=? n) && (n <=? 90))%nat then ascii_of_nat (n + 32) else a.

(** [s.lower()] *)
Fixpoint lower (s : string) : string :=
  match s with
  | EmptyString => EmptyString
  | String a s' => String (lower_char a) (lower s')
  end.

(** Truth value of a string: non-empty. *)
Definition str_truthy (s : string) : bool := negb (String.eqb s "").

(** No whitespace at either end. *)
Definition trimmed (s : string) : bool :=
  match list_ascii_of_string s with
  | [] => true
  | a :: l => negb (is_space a) && negb (is_space (List.last l a))
  end.

(** [q in s] for strings: [q] occurs in [s] as a contiguous substring. *)
Fixpoint is_infix (q s : string) : bool :=
  String.prefix q s ||
  match s with
  | EmptyString => false
  | String _ s' => is_infix q s'
  end.

(** Characters with a special meaning in a regular expression. *)
Definition regex_meta : list ascii :=
  list_ascii_of_string ".^$*+?{}[]\|()".

Definition regex_literal (q : string) : bool :=
  forallb (fun a => negb (existsb (Ascii.eqb a) regex_meta)) (list_ascii_of_string q).

(** ** Calendar dates *)

Record date := mkDate { year : Z; month : Z; day : Z }.

(** [a < b] on [datetime.date]: lexicographic on year, month, day. *)
Definition date_ltb (a b : date) : bool :=
  (year a <? year b)%Z
  || ((year a =? year b)%Z
      && ((month a <? month b)%Z
          || ((month a =? month b)%Z && (day a <? day b)%Z))).

Definition digit (n : Z) : ascii := ascii_of_nat (48 + Z.to_nat (n mod 10)).

Definition pad2 (n : Z) : string :=
  String (digit (n / 10)) (String (digit n) "").

Definition pad4 (n : Z) : string :=
  String (digit (n / 1000)) (String (digit (n / 100)) (pad2 n)).

(** [d.isoformat()], for years 1 to 9999. *)
Definition isoformat (d : date) : string :=
  pad4 (year d) ++ "-" ++ pad2 (month d) ++ "-" ++ pad2 (day d).

(** ** Python values reaching [float(x)] and [parse_date] *)

Inductive pyval :=
| PyNone
| PyStr (s : string)
| PyFloat (f : float)
| PyInt (z : Z).

(** ** Cells, rows and frames *)

Inductive cell :=
| CStr (s : string)
| CNum (f : float).

Definition NaN : cell := CNum F64.nan.

#[global] Instance cell_inhabited : Inhabited cell := populate NaN.

Definition isna (c : cell) : bool :=
  match c with
  | CNum f => F64.is_nan f
  | CStr _ => false
  end.

Abbreviation row := (gmap string cell).

Record DataFrame := mkDF { columns : list string; rows : list row }.

(** [c in df.columns] *)
Definition has_col (df : DataFrame) (c : string) : bool :=
  bool_decide (c ∈ columns df).

(** Reading [df[c]] raises [KeyError] when the column is absent. *)
Definition require (df : DataFrame) (c : string) : result unit :=
  if has_col df c then Ok tt else Raise KeyError.

(** The column list once column [c] has been assigned: a new column comes
    last. *)
Definition with_col (cols : list string) (c : string) : list string :=
  if bool_decide (c ∈ cols) then cols else (cols ++ [c])%list.

(** [df[c] = e], [e] a column expression read row by row. *)
Definition assign (df : DataFrame) (c : string) (e : row -> cell) : DataFrame :=
  {| columns := with_col (columns df) c;
     rows := map (fun r => <[c := e r]> r) (rows df) |}.

(** [df[mask]], [mask] a boolean column expression. *)
Definition loc (df : DataFrame) (mask : row -> bool) : DataFrame :=
  {| columns := columns df; rows := List.filter mask (rows df) |}.

(** [r.get(c, default)] on a row. *)
Definition row_get (r : row) (c : string) (dflt : cell) : cell :=
  default dflt (r !! c).

(** [x == s] for a cell and a string literal. *)
Definition cell_eq_str (s : string) (c : cell) : bool :=
  match c with
  | CStr s' => String.eqb s' s
  | CNum _ => false
  end.

(** [Series.isin(values)], [values] a list of strings. *)
Definition isin (values : list string) (c : cell) : bool :=
  existsb (fun v => cell_eq_str v c) values.

(** [Series.fillna(0.0)] *)
Definition fillna0 (x : float) : float :=
  if F64.is_nan x then F64.zero else x.

(** [Series.clip(lower=lo)]: missing values stay missing, the others are
    raised to [lo]. *)
Definition clip_lower (lo x : float) : float :=
  if F64.is_nan x || F64.leb lo x then x else lo.

(** [a - b] on two cells of numeric columns; strings do not subtract. *)
Definition cell_sub (a b : cell) : result cell :=
  match a, b with
  | CNum x, CNum y => Ok (CNum (F64.sub x y))
  | _, _ => Raise TypeError
  end.

(** [.clip(lower=lo)] on a cell of a numeric column. *)
Definition cell_clip_lower (lo : float) (c : cell) : result cell :=
  match c with
  | CNum x => Ok (CNum (clip_lower lo x))
  | CStr _ => Raise TypeError
  end.

Definition pyval_of_cell (c : cell) : pyval :=
  match c with
  | CStr s => PyStr s
  | CNum f => PyFloat f
  end.

Fixpoint mapM_result {A B} (f : A -> result B) (l : list A) : result (list B) :=
  match l with
  | [] => Ok []
  | a :: l' => b ← f a; bs ← mapM_result f l'; Ok (b :: bs)
  end.

(** [df[c] = e] where evaluating [e] on a row may raise: rows are visited
    in order and the first exception aborts the assignment. *)
Definition assignM (df : DataFrame) (c : string) (e : row -> result cell)
  : result DataFrame :=
  rs ← mapM_result (fun r => v ← e r; Ok (<[c := v]> r)) (rows df);
  Ok {| columns := with_col (columns df) c; rows := rs |}.

(** The column [df[c]] as a list of cells. *)
Definition col (df : DataFrame) (c : string) : list cell :=
  map (fun r : row => r !!! c) (rows df).

(** A missing cell of row [r] among the columns [cols] is filled with NaN. *)
Definition fill_missing (cols : list string) (r : row) : row :=
  foldr (fun c acc => match acc !! c with
                      | Some _ => acc
                      | None => <[c := NaN]> acc
                      end) r cols.

(** [pd.concat([df, pd.DataFrame([new_row])], ignore_index=True)], the new
    row being a dict given by its items in order. *)
Definition concat_row (df : DataFrame) (new_row : list (string * cell)) : DataFrame :=
  let cols := (columns df ++
               List.filter (fun c => negb (has_col df c)) (map fst new_row))%list in
  {| columns := cols;
     rows := map (fill_missing cols) (rows df ++ [list_to_map new_row]) |}.

(** [df.columns = [f(c) for c in df.columns]] *)
Definition rename_columns (f : string -> string) (df : DataFrame) : DataFrame :=
  {| columns := map f (columns df);
     rows := map (fun r : row => kmap f r) (rows df) |}.

(** Equality of the values counted by [value_counts]. *)
Definition cell_eqb (a b : cell) : bool :=
  match a, b with
  | CStr x, CStr y => String.eqb x y
  | CNum x, CNum y => F64.eqb x y
  | _, _ => false
  end.

Fixpoint vc_incr (c : cell) (acc : list (cell * nat)) : list (cell * nat) :=
  match acc with
  | [] => [(c, 1)]
  | (k, n) :: acc' =>
      if cell_eqb k c then (k, S n) :: acc' else (k, n) :: vc_incr c acc'
  end.

(** [Series.value_counts()]: one entry per distinct value, missing values
    dropped.  The entries are kept in order of first occurrence; pandas sorts
    them by count, which [reindex] does not depend on. *)
Definition value_counts (s : list cell) : list (cell * nat) :=
  fold_left (fun acc c => if isna c then acc else vc_incr c acc) s [].

Fixpoint vc_lookup (c : cell) (vc : list (cell * nat)) : option nat :=
  match vc with
  | [] => None
  | (k, n) :: vc' => if cell_eqb k c then Some n else vc_lookup c vc'
  end.

(** [.reindex(labels, fill_value=0)] *)
Definition reindex (labels : list string) (vc : list (cell * nat))
  : list (string * nat) :=
  map (fun l => (l, default 0 (vc_lookup (CStr l) vc))) labels.

(** [int(mask.sum())]: the number of records a boolean column expression
    holds for. *)
Definition count_where (df : DataFrame) (mask : row -> bool) : nat :=
  length (List.filter mask (rows df)).

(** [df.empty]: no record, or no column. *)
Definition is_empty (df : DataFrame) : bool :=
  match rows df, columns df with
  | [], _ | _, [] => true
  | _, _ => false
  end.

(** [df[cols]], [cols] a list of column names: [KeyError] when one of them is
    absent; the records keep the cells of these columns only. *)
Definition select_cols (df : DataFrame) (cols : list string) : result DataFrame :=
  _ ← mapM_result (require df) cols;
  Ok {| columns := cols;
        rows := map (fun r : row =>
                       filter (fun kv : string * cell => kv.1 ∈ cols) r)
                    (rows df) |}.


(** [for c in cols: if c not in df.columns: df[c] = ""] *)
Definition ensure_cols (df : DataFrame) (cols : list string) : DataFrame :=
  fold_left (fun d c => if has_col d c then d else assign d c (fun _ => CStr ""))
            cols df.

(** ** Libraries and clock *)

Record Env := mkEnv {
  (** [date.today()] *)
  today : date;
  (** [float(s)] on a string; [None] when it raises [ValueError] *)
  py_float_of_str : string -> option float;
  (** parsing of one string by [pd.to_numeric]; [None] when it cannot *)
  pd_numeric_of_str : string -> option float;
  (** [pd.to_datetime(s).date()]: a calendar date, or an exception (a
      result that is not a date, pandas' NaT, is outside the model) *)
  pd_to_datetime : string -> result date;
  (** [str(x)] on a float *)
  py_str_of_float : float -> string;
  (** [re.compile(pat)] followed by [search]; [None] when the pattern does
      not compile *)
  re_search : string -> option (string -> bool);
  (** the frame that [pd.read_csv] finds in the text written by
      [df.to_csv(index=False)] *)
  csv_roundtrip : DataFrame -> DataFrame
}.


Section Pandas.
Variable E : Env.

(** [str(x)] on a cell *)
Definition str_of_cell (c : cell) : string :=
  match c with
  | CStr s => s
  | CNum f => py_str_of_float E f
  end.

(** [pd.to_numeric(., errors="coerce")] on one cell. *)
Definition to_numeric (c : cell) : float :=
  match c with
  | CNum f => f
  | CStr s => default F64.nan (pd_numeric_of_str E s)
  end.

(** [pd.to_numeric(df[c], errors="coerce").fillna(0.0)] on one row. *)
Definition coerce (c : string) (r : row) : cell :=
  CNum (fillna0 (to_numeric (r !!! c))).

(** [float(x)] *)
Definition py_float (x : pyval) : result float :=
  match x with
  | PyFloat f => Ok f
  | PyInt z =>
      let f := F64.of_Z z in
      if F64.is_finite f then Ok f else Raise OverflowError
  | PyStr s =>
      match py_float_of_str E s with
      | Some f => Ok f
      | None => Raise ValueError
      end
  | PyNone => Raise TypeError
  end.

(** [df[c].astype(str).str.lower().str.contains(q)] on one row, the
    pattern being compiled to the matcher [m]. *)
Definition contains (m : string -> bool) (c : string) (r : row) : bool :=
  m (lower (str_of_cell (r !!! c))).
End Pandas.

(** ** Compiled search pattern *)

Definition compile (E : Env) (q : string) : result (string -> bool) :=
  match re_search E q with
  | Some m => Ok m
  | None => Raise ReError
  end.

(** ** What a handler shows to the user *)

Inductive notice :=
| st_error (text : string)
| st_success (text : string).

(** The session's frame of one job category, and its CSV file, given by the
    frame that [pd.read_csv] finds in it ([None]: the file does not exist). *)
Record store := mkStore { session_df : DataFrame; csv_file : option DataFrame }.

(** * app_rick.py *)

Module Rick.

Definition CAD_TEAM : list string := ["CAD-1"; "CAD-2"; "CAD-3"].
Definition BENCH_TEAM : list string := ["Bench-1"; "Bench-2"; "Bench-3"; "Bench-4"].
Definition FRONT_DESK : list string := ["Front Desk"].
Definition ALL_ASSIGNEES : list string := (CAD_TEAM ++ BENCH_TEAM ++ FRONT_DESK)%list.

Definition CUSTOM_STATUSES : list string :=
  ["Consultation"; "Design Sketch"; "CAD Modeling"; "3D Approval"; "Casting";
   "Stone Setting"; "Final Polish"; "Ready for Pickup"; "Completed"].

Definition REPAIR_STATUSES : list string :=
  ["Intake"; "Waiting for Parts"; "In Progress"; "Quality Check";
   "Ready for Pickup"; "Completed"].

Definition COMPLEXITY : list string := ["S (Simple)"; "M (Medium)"; "L (Complex)"].

Section WithEnv.
Variable E : Env.

Definition today_iso : string := isoformat (today E).

Definition to_float (x : pyval) : result float :=
  try_except (py_float E x) (fun _ => Ok F64.zero).

Definition compute_remaining (total deposit : float) : float :=
  let rem := F64.sub total deposit in
  if F64.leb F64.zero rem then rem else F64.zero.

Definition parse_date (s : pyval) : result (option date) :=
  try_except
    (match s with
     | PyStr s' =>
         if str_truthy (strip s')
         then d ← pd_to_datetime E s'; Ok (Some d)
         else Ok None
     | _ => Ok None
     end)
    (fun _ => Ok None).

Definition is_overdue (due_str status : string) : result string :=
  if String.eqb status "Completed" then Ok "No"
  else
    d ← parse_date (PyStr due_str);
    match d with
    | Some d' => if date_ltb d' (today E) then Ok "Yes" else Ok "No"
    | None => Ok "No"
    end.

(** [lambda x: "Yes" if float(x) == 0 else "No"] *)
Definition paid_of (x : cell) : result cell :=
  f ← py_float E (pyval_of_cell x);
  Ok (CStr (if F64.eqb f F64.zero then "Yes" else "No")).

(** [lambda r: is_overdue(str(r.get(date_col, "")), str(r.get("Status", "")))] *)
Definition overdue_of (date_col : string) (r : row) : result cell :=
  s ← is_overdue (str_of_cell E (row_get r date_col (CStr "")))
                 (str_of_cell E (row_get r "Status" (CStr "")));
  Ok (CStr s).

(** The three derived columns, from the coerced price and deposit. *)
Definition derive (date_col : string) (df : DataFrame) : result DataFrame :=
  _ ← require df "Total_Price";
  _ ← require df "Deposit_Paid";
  df ← assignM df "Remaining_Balance"
         (fun r => d ← cell_sub (r !!! "Total_Price") (r !!! "Deposit_Paid");
                   cell_clip_lower F64.zero d);
  df ← assignM df "Paid" (fun r => paid_of (r !!! "Remaining_Balance"));
  assignM df "Overdue" (overdue_of date_col).

(** The recomputation after an insert and when an edit is saved
    ([date_col] is ["Due_Date"] for custom jobs, ["Promised_Date"] for
    repairs). *)
Definition recompute (date_col : string) (df : DataFrame) : result DataFrame :=
  _ ← require df "Total_Price";
  df ← assignM df "Total_Price" (fun r => Ok (coerce E "Total_Price" r));
  _ ← require df "Deposit_Paid";
  df ← assignM df "Deposit_Paid" (fun r => Ok (coerce E "Deposit_Paid" r));
  derive date_col df.

(** [pd.to_numeric(df.get(c, 0), errors="coerce").fillna(0.0)]: without the
    column, [to_numeric] returns the number 0, which has no [fillna]. *)
Definition coerce_get (df : DataFrame) (c : string) : result DataFrame :=
  if has_col df c then assignM df c (fun r => Ok (coerce E c r))
  else Raise AttributeError.

(** The recomputation at the head of a tab's view. *)
Definition recompute_view (date_col : string) (df : DataFrame) : result DataFrame :=
  df ← coerce_get df "Total_Price";
  df ← coerce_get df "Deposit_Paid";
  derive date_col df.

(** Sidebar filters of a tab. *)
Record filter_spec := mkFilter {
  f_status : list string;
  f_owner : list string;
  f_overdue : string;
  f_search : string
}.

Definition filter_overdue (F : filter_spec) (df_f : DataFrame) : result DataFrame :=
  if String.eqb (f_overdue F) "Only overdue" then
    _ ← require df_f "Overdue";
    Ok (loc df_f (fun r => cell_eq_str "Yes" (r !!! "Overdue")))
  else if String.eqb (f_overdue F) "Not overdue" then
    _ ← require df_f "Overdue";
    Ok (loc df_f (fun r => cell_eq_str "No" (r !!! "Overdue")))
  else Ok df_f.

(** The text search over the columns [cs] (the first one is read before the
    pattern is compiled). *)
Definition filter_search (cs : list string) (F : filter_spec) (df_f : DataFrame)
  : result DataFrame :=
  if str_truthy (strip (f_search F)) then
    let q := lower (strip (f_search F)) in
    _ ← mapM_result (require df_f) (take 1 cs);
    m ← compile E q;
    _ ← mapM_result (require df_f) (drop 1 cs);
    Ok (loc df_f (fun r => existsb (fun c => contains E m c r) cs))
  else Ok df_f.

Definition custom_filter (F : filter_spec) (df : DataFrame) : result DataFrame :=
  _ ← require df "Status";
  let df_f := loc df (fun r => isin (f_status F) (r !!! "Status")) in
  _ ← require df_f "Phase_Owner";
  let df_f := loc df_f (fun r => isin (f_owner F) (r !!! "Phase_Owner")) in
  df_f ← filter_overdue F df_f;
  filter_search ["Job_ID"; "Client"; "Item"] F df_f.

Definition repair_filter (F : filter_spec) (df : DataFrame) : result DataFrame :=
  _ ← require df "Status";
  let df_f := loc df (fun r => isin (f_status F) (r !!! "Status")) in
  _ ← require df_f "Assigned_To";
  let df_f := loc df_f (fun r => isin (f_owner F) (r !!! "Assigned_To")) in
  df_f ← filter_overdue F df_f;
  filter_search ["Job_ID"; "Client"; "Item"; "Repair_Type"] F df_f.

(** [df["Status"].value_counts().reindex(stages, fill_value=0)] *)
Definition stage_counts (stages : list string) (df : DataFrame)
  : result (list (string * nat)) :=
  _ ← require df "Status";
  Ok (reindex stages (value_counts (col df "Status"))).

(** Repair load by bench. *)
Definition bench_load (df : DataFrame) : result (list (string * nat)) :=
  _ ← require df "Status";
  let load := loc df (fun r => negb (cell_eq_str "Completed" (r !!! "Status"))) in
  _ ← require load "Assigned_To";
  Ok (reindex BENCH_TEAM (value_counts (col load "Assigned_To"))).

Definition custom_seed : DataFrame :=
  let items :=
    [("Job_ID", CStr "C-RT-1001"); ("Client", CStr "Example Client");
     ("Item", CStr "Custom engagement ring"); ("Phase_Owner", CStr "CAD-1");
     ("Complexity", CStr "M (Medium)"); ("Status", CStr "CAD Modeling");
     ("Intake_Date", CStr today_iso); ("Due_Date", CStr (isoformat (today E)));
     ("Total_Price", CNum (F64.of_Z 2500)); ("Deposit_Paid", CNum (F64.of_Z 500));
     ("Remaining_Balance", CNum (F64.of_Z 2000)); ("Paid", CStr "No");
     ("Overdue", CStr "No"); ("Notes", CStr "Demo record")] in
  {| columns := map fst items; rows := [list_to_map items] |}.

Definition repair_seed : DataFrame :=
  let items :=
    [("Job_ID", CStr "R-RT-2001"); ("Client", CStr "Example Client");
     ("Item", CStr "Ring"); ("Repair_Type", CStr "Resizing");
     ("Assigned_To", CStr "Bench-1"); ("Complexity", CStr "S (Simple)");
     ("Status", CStr "Intake"); ("Intake_Date", CStr today_iso);
     ("Promised_Date", CStr ""); ("Total_Price", CNum (F64.of_Z 150));
     ("Deposit_Paid", CNum F64.zero); ("Remaining_Balance", CNum (F64.of_Z 150));
     ("Paid", CStr "No"); ("Overdue", CStr "No"); ("Notes", CStr "Demo record")] in
  {| columns := map fst items; rows := [list_to_map items] |}.

(** [kind] is ["custom"] or anything else (repair).  The frame returned and
    the file afterwards. *)
Definition load_or_init (file : option DataFrame) (kind : string)
  : DataFrame * option DataFrame :=
  match file with
  | Some found => (rename_columns strip found, file)
  | None =>
      let df := if String.eqb kind "custom" then custom_seed else repair_seed in
      (df, Some (csv_roundtrip E df))
  end.

Definition save_df (df : DataFrame) : option DataFrame := Some (csv_roundtrip E df).

(** The fields of the "Add custom job" form. *)
Record custom_form := mkCustomForm {
  job_id : string;
  client : string;
  item : string;
  complexity : string;
  status : string;
  phase_owner : string;
  intake_date : date;
  due_date : option date;
  total_price : float;
  deposit_paid : float;
  notes : string
}.

Definition custom_new_row (f : custom_form) : result (list (string * cell)) :=
  total ← to_float (PyFloat (total_price f));
  dep ← to_float (PyFloat (deposit_paid f));
  let rem := compute_remaining total dep in
  let paid := if F64.eqb rem F64.zero then "Yes" else "No" in
  let due_str := match due_date f with Some d => isoformat d | None => "" end in
  overdue ← is_overdue due_str (status f);
  Ok [("Job_ID", CStr (strip (job_id f))); ("Client", CStr (strip (client f)));
      ("Item", CStr (strip (item f))); ("Phase_Owner", CStr (phase_owner f));
      ("Complexity", CStr (complexity f)); ("Status", CStr (status f));
      ("Intake_Date", CStr (isoformat (intake_date f)));
      ("Due_Date", CStr due_str);
      ("Total_Price", CNum total); ("Deposit_Paid", CNum dep);
      ("Remaining_Balance", CNum rem); ("Paid", CStr paid);
      ("Overdue", CStr overdue); ("Notes", CStr (strip (notes f)))].

(** The handler of the "Add" button of the custom tab. *)
Definition add_custom (f : custom_form) (st : store) : result (store * list notice) :=
  if negb (str_truthy (strip (job_id f))) || negb (str_truthy (strip (client f)))
  then Ok (st, [st_error "Job ID and Client are required."])
  else
    new_row ← custom_new_row f;
    let df := concat_row (session_df st) new_row in
    df ← recompute "Due_Date" df;
    Ok ({| session_df := df; csv_file := save_df df |},
        [st_success "Custom job added."]).

(** Saving the frame returned by the editable table. *)
Definition save_edit (date_col : string) (edited : DataFrame) (st : store)
  : result store :=
  df2 ← recompute date_col edited;
  Ok {| session_df := df2; csv_file := save_df df2 |}.

(** The fields of the "Add repair job" form. *)
Record repair_form := mkRepairForm {
  rep_job_id : string;
  rep_client : string;
  rep_item : string;
  rep_repair_type : string;
  rep_assigned : string;
  rep_complexity : string;
  rep_status : string;
  rep_intake_date : date;
  rep_promised : option date;
  rep_total_price : float;
  rep_deposit_paid : float;
  rep_notes : string
}.

Definition repair_new_row (f : repair_form) : result (list (string * cell)) :=
  total ← to_float (PyFloat (rep_total_price f));
  dep ← to_float (PyFloat (rep_deposit_paid f));
  let rem := compute_remaining total dep in
  let paid := if F64.eqb rem F64.zero then "Yes" else "No" in
  let prom_str := match rep_promised f with Some d => isoformat d | None => "" end in
  overdue ← is_overdue prom_str (rep_status f);
  Ok [("Job_ID", CStr (strip (rep_job_id f)));
      ("Client", CStr (strip (rep_client f)));
      ("Item", CStr (strip (rep_item f)));
      ("Repair_Type", CStr (strip (rep_repair_type f)));
      ("Assigned_To", CStr (rep_assigned f));
      ("Complexity", CStr (rep_complexity f));
      ("Status", CStr (rep_status f));
      ("Intake_Date", CStr (isoformat (rep_intake_date f)));
      ("Promised_Date", CStr prom_str);
      ("Total_Price", CNum total); ("Deposit_Paid", CNum dep);
      ("Remaining_Balance", CNum rem); ("Paid", CStr paid);
      ("Overdue", CStr overdue); ("Notes", CStr (strip (rep_notes f)))].

(** The handler of the "Add" button of the repair tab. *)
Definition add_repair (f : repair_form) (st : store) : result (store * list notice) :=
  if negb (str_truthy (strip (rep_job_id f)))
     || negb (str_truthy (strip (rep_client f)))
  then Ok (st, [st_error "Job ID and Client are required."])
  else
    new_row ← repair_new_row f;
    let df := concat_row (session_df st) new_row in
    df ← recompute "Promised_Date" df;
    Ok ({| session_df := df; csv_file := save_df df |},
        [st_success "Repair job added."]).

(** The first two metrics of a tab, on the filtered frame. *)
Definition open_count (df_f : DataFrame) : result nat :=
  _ ← require df_f "Status";
  Ok (count_where df_f (fun r => negb (cell_eq_str "Completed" (r !!! "Status")))).

Definition overdue_count (df_f : DataFrame) : result nat :=
  _ ← require df_f "Overdue";
  Ok (count_where df_f (fun r => cell_eq_str "Yes" (r !!! "Overdue"))).

(** What the right-hand side of a tab shows: the filtered frame of the
    recomputed copy of the session's frame, with the "Open" and "Overdue"
    metrics. *)
Definition custom_view (F : filter_spec) (session : DataFrame)
  : result (DataFrame * nat * nat) :=
  df ← recompute_view "Due_Date" session;
  df_f ← custom_filter F df;
  n_open ← open_count df_f;
  n_overdue ← overdue_count df_f;
  Ok (df_f, n_open, n_overdue).

Definition repair_view (F : filter_spec) (session : DataFrame)
  : result (DataFrame * nat * nat) :=
  df ← recompute_view "Promised_Date" session;
  df_f ← repair_filter F df;
  n_open ← open_count df_f;
  n_overdue ← overdue_count df_f;
  Ok (df_f, n_open, n_overdue).

(** The "Reset" button: the file is removed if it exists, then loaded. *)
Definition reset (kind : string) (st : store) : store :=
  let file := match csv_file st with Some _ => None | None => None end in
  let '(df, file') := load_or_init file kind in
  {| session_df := df; csv_file := file' |}.





Definition shown (df : DataFrame) (cols : list string) : result (option DataFrame) :=
  if is_empty df then Ok None
  else t ← select_cols df cols; Ok (Some t).


(** The columns of the editable table of each tab. *)
Definition custom_cols : list string :=
  ["Job_ID"; "Client"; "Item"; "Complexity"; "Phase_Owner"; "Status";
   "Intake_Date"; "Due_Date"; "Total_Price"; "Deposit_Paid";
   "Remaining_Balance"; "Paid"; "Overdue"; "Notes"].

Definition repair_cols : list string :=
  ["Job_ID"; "Client"; "Item"; "Repair_Type"; "Assigned_To"; "Complexity";
   "Status"; "Intake_Date"; "Promised_Date"; "Total_Price"; "Deposit_Paid";
   "Remaining_Balance"; "Paid"; "Overdue"; "Notes"].

(** The editable table of a tab and the save that follows it, on the
    recomputed copy [df] of the session frame.  [edit] is what the user does
    in the table: [st.data_editor] returns the frame it is given, edited. *)
Definition edit_table (date_col : string) (cols : list string)
           (edit : DataFrame -> DataFrame) (df : DataFrame) (st : store)
  : result store :=
  let df := ensure_cols df cols in
  shown ← select_cols df cols;
  save_edit date_col (edit shown) st.

(** The right-hand side of the custom tab, top to bottom: the recomputed
    copy, the filtered frame and its metrics, the editable table and the
    save, the pipeline view of the session frame. *)
Definition custom_tab (F : filter_spec) (edit : DataFrame -> DataFrame) (st : store)
  : result (store * (DataFrame * nat * nat) * list (string * nat)) :=
  df ← recompute_view "Due_Date" (session_df st);
  df_f ← custom_filter F df;
  n_open ← open_count df_f;
  n_overdue ← overdue_count df_f;
  st' ← edit_table "Due_Date" custom_cols edit df st;
  hist ← stage_counts CUSTOM_STATUSES (session_df st');
  Ok (st', (df_f, n_open, n_overdue), hist).

(** The right-hand side of the repair tab; it ends with the repair load by
    bench. *)
Definition repair_tab (F : filter_spec) (edit : DataFrame -> DataFrame) (st : store)
  : result (store * (DataFrame * nat * nat) * list (string * nat)) :=
  df ← recompute_view "Promised_Date" (session_df st);
  df_f ← repair_filter F df;
  n_open ← open_count df_f;
  n_overdue ← overdue_count df_f;
  st' ← edit_table "Promised_Date" repair_cols edit df st;
  load ← bench_load (session_df st');
  Ok (st', (df_f, n_open, n_overdue), load).

End WithEnv.
End Rick.

(** * jewelryapp.py *)

Module Jewelry.

Definition CUSTOM_STATUSES : list string :=
  ["Consultation"; "Design Sketch"; "CAD Modeling"; "3D Approval"; "Casting";
   "Stone Setting"; "Final Polish"; "Ready for Pickup"; "Completed"].

Definition REPAIR_STATUSES : list string :=
  ["Intake"; "Waiting for Parts"; "In Progress"; "Quality Check";
   "Ready for Pickup"; "Completed"].

Section WithEnv.
Variable E : Env.

Definition today_str : string := isoformat (today E).

Definition safe_float (x : pyval) : result float :=
  try_except (py_float E x) (fun _ => Ok F64.zero).

Definition compute_remaining (total deposit : float) : float :=
  let rem := F64.sub total deposit in
  if F64.leb F64.zero rem then rem else F64.zero.

(** [lambda x: "Yes" if float(x) == 0 else "No"] *)
Definition paid_of (x : cell) : result cell :=
  f ← py_float E (pyval_of_cell x);
  Ok (CStr (if F64.eqb f F64.zero then "Yes" else "No")).

(** Remaining balance and paid flag, from the coerced price and deposit. *)
Definition derive (df : DataFrame) : result DataFrame :=
  _ ← require df "Total_Price";
  _ ← require df "Deposit_Paid";
  df ← assignM df "Remaining_Balance"
         (fun r => d ← cell_sub (r !!! "Total_Price") (r !!! "Deposit_Paid");
                   cell_clip_lower F64.zero d);
  assignM df "Paid" (fun r => paid_of (r !!! "Remaining_Balance")).

(** [if col in df.columns: df[col] = pd.to_numeric(df[col], ...).fillna(0.0)] *)
Definition normalize_col (df : DataFrame) (c : string) : DataFrame :=
  if has_col df c then assign df c (coerce E c) else df.

(** The recomputation at the head of a tab's view. *)
Definition recompute_view (df : DataFrame) : result DataFrame :=
  let df := fold_left normalize_col
              ["Total_Price"; "Deposit_Paid"; "Remaining_Balance"] df in
  derive df.

(** The recomputation when an edit is saved. *)
Definition recompute (df_all : DataFrame) : result DataFrame :=
  _ ← require df_all "Total_Price";
  df_all ← assignM df_all "Total_Price" (fun r => Ok (coerce E "Total_Price" r));
  _ ← require df_all "Deposit_Paid";
  df_all ← assignM df_all "Deposit_Paid" (fun r => Ok (coerce E "Deposit_Paid" r));
  derive df_all.

(** Sidebar filters of a tab. *)
Record filter_spec := mkFilter {
  f_status : list string;
  f_paid : string;
  f_search : string
}.

Definition filter_paid (F : filter_spec) (df : DataFrame) : result DataFrame :=
  if String.eqb (f_paid F) "Paid" then
    _ ← require df "Paid";
    Ok (loc df (fun r => cell_eq_str "Yes" (r !!! "Paid")))
  else if String.eqb (f_paid F) "Unpaid" then
    _ ← require df "Paid";
    Ok (loc df (fun r => cell_eq_str "No" (r !!! "Paid")))
  else Ok df.

(** The text search over the columns [cs] (the first one is read before the
    pattern is compiled). *)
Definition filter_search (cs : list string) (F : filter_spec) (df : DataFrame)
  : result DataFrame :=
  if str_truthy (strip (f_search F)) then
    let q := lower (strip (f_search F)) in
    _ ← mapM_result (require df) (take 1 cs);
    m ← compile E q;
    _ ← mapM_result (require df) (drop 1 cs);
    Ok (loc df (fun r => existsb (fun c => contains E m c r) cs))
  else Ok df.

Definition custom_filter (F : filter_spec) (df : DataFrame) : result DataFrame :=
  _ ← require df "Status";
  let df := loc df (fun r => isin (f_status F) (r !!! "Status")) in
  df ← filter_paid F df;
  filter_search ["Job_ID"; "Client"; "Item"] F df.

(** [df["Status"].value_counts().reindex(stages, fill_value=0)] *)
Definition stage_counts (stages : list string) (df : DataFrame)
  : result (list (string * nat)) :=
  _ ← require df "Status";
  Ok (reindex stages (value_counts (col df "Status"))).

Definition custom_seed : DataFrame :=
  let items :=
    [("Job_ID", CStr "C-1001"); ("Client", CStr "Example Client");
     ("Item", CStr "Engagement ring"); ("Assigned_To", CStr "CAD Team");
     ("Status", CStr "Consultation"); ("Intake_Date", CStr today_str);
     ("Due_Date", CStr ""); ("Total_Price", CNum (F64.of_Z 1200));
     ("Deposit_Paid", CNum (F64.of_Z 200));
     ("Remaining_Balance", CNum (F64.of_Z 1000)); ("Paid", CStr "No");
     ("Notes", CStr "Demo record")] in
  {| columns := map fst items; rows := [list_to_map items] |}.

Definition repair_seed : DataFrame :=
  let items :=
    [("Job_ID", CStr "R-2001"); ("Client", CStr "Example Client");
     ("Item", CStr "Ring"); ("Repair_Type", CStr "Resizing");
     ("Assigned_To", CStr "Bench"); ("Status", CStr "Intake");
     ("Intake_Date", CStr today_str); ("Est_Completion", CStr "");
     ("Total_Price", CNum (F64.of_Z 120)); ("Deposit_Paid", CNum F64.zero);
     ("Remaining_Balance", CNum (F64.of_Z 120)); ("Paid", CStr "No");
     ("Notes", CStr "Demo record")] in
  {| columns := map fst items; rows := [list_to_map items] |}.

(** [kind] is ["custom"] or anything else (repair).  The frame returned and
    the file afterwards. *)
Definition load_or_init_csv (file : option DataFrame) (kind : string)
  : DataFrame * option DataFrame :=
  match file with
  | Some found => (rename_columns strip found, file)
  | None =>
      let df := if String.eqb kind "custom" then custom_seed else repair_seed in
      (df, Some (csv_roundtrip E df))
  end.

Definition save_csv (df : DataFrame) : option DataFrame := Some (csv_roundtrip E df).

(** The fields of the "Add new custom job" form. *)
Record custom_form := mkCustomForm {
  job_id : string;
  client : string;
  item : string;
  assigned : string;
  status : string;
  intake_date : date;
  due_date : option date;
  total_price : float;
  deposit_paid : float;
  notes : string
}.

Definition custom_new_row (f : custom_form) : result (list (string * cell)) :=
  total ← safe_float (PyFloat (total_price f));
  dep ← safe_float (PyFloat (deposit_paid f));
  let remaining := compute_remaining total dep in
  let paid := if F64.eqb remaining F64.zero then "Yes" else "No" in
  Ok [("Job_ID", CStr (strip (job_id f))); ("Client", CStr (strip (client f)));
      ("Item", CStr (strip (item f))); ("Assigned_To", CStr (strip (assigned f)));
      ("Status", CStr (status f));
      ("Intake_Date", CStr (isoformat (intake_date f)));
      ("Due_Date", CStr (match due_date f with
                         | Some d => isoformat d
                         | None => ""
                         end));
      ("Total_Price", CNum total); ("Deposit_Paid", CNum dep);
      ("Remaining_Balance", CNum remaining); ("Paid", CStr paid);
      ("Notes", CStr (strip (notes f)))].

(** The handler of the "Add job" button of the custom tab. *)
Definition add_custom (f : custom_form) (st : store) : result (store * list notice) :=
  if negb (str_truthy (strip (job_id f)))
  then Ok (st, [st_error "Job ID is required."])
  else if negb (str_truthy (strip (client f)))
  then Ok (st, [st_error "Client is required."])
  else
    new_row ← custom_new_row f;
    let df := concat_row (session_df st) new_row in
    Ok ({| session_df := df; csv_file := save_csv df |},
        [st_success "Custom job added."]).

(** Saving the frame returned by the editable table. *)
Definition save_edit (edited : DataFrame) (st : store) : result store :=
  df_all ← recompute edited;
  Ok {| session_df := df_all; csv_file := save_csv df_all |}.

(** The fields of the "Add new repair job" form. *)
Record repair_form := mkRepairForm {
  rep_job_id : string;
  rep_client : string;
  rep_item : string;
  rep_repair_type : string;
  rep_assigned : string;
  rep_status : string;
  rep_intake_date : date;
  rep_est_completion : option date;
  rep_total_price : float;
  rep_deposit_paid : float;
  rep_notes : string
}.

Definition repair_new_row (f : repair_form) : result (list (string * cell)) :=
  total ← safe_float (PyFloat (rep_total_price f));
  dep ← safe_float (PyFloat (rep_deposit_paid f));
  let remaining := compute_remaining total dep in
  let paid := if F64.eqb remaining F64.zero then "Yes" else "No" in
  Ok [("Job_ID", CStr (strip (rep_job_id f)));
      ("Client", CStr (strip (rep_client f)));
      ("Item", CStr (strip (rep_item f)));
      ("Repair_Type", CStr (strip (rep_repair_type f)));
      ("Assigned_To", CStr (strip (rep_assigned f)));
      ("Status", CStr (rep_status f));
      ("Intake_Date", CStr (isoformat (rep_intake_date f)));
      ("Est_Completion", CStr (match rep_est_completion f with
                               | Some d => isoformat d
                               | None => ""
                               end));
      ("Total_Price", CNum total); ("Deposit_Paid", CNum dep);
      ("Remaining_Balance", CNum remaining); ("Paid", CStr paid);
      ("Notes", CStr (strip (rep_notes f)))].

(** The handler of the "Add repair job" button. *)
Definition add_repair (f : repair_form) (st : store) : result (store * list notice) :=
  if negb (str_truthy (strip (rep_job_id f)))
  then Ok (st, [st_error "Job ID is required."])
  else if negb (str_truthy (strip (rep_client f)))
  then Ok (st, [st_error "Client is required."])
  else
    new_row ← repair_new_row f;
    let df := concat_row (session_df st) new_row in
    Ok ({| session_df := df; csv_file := save_csv df |},
        [st_success "Repair job added."]).

Definition repair_filter (F : filter_spec) (df : DataFrame) : result DataFrame :=
  _ ← require df "Status";
  let df_f := loc df (fun r => isin (f_status F) (r !!! "Status")) in
  df_f ← filter_paid F df_f;
  filter_search ["Job_ID"; "Client"; "Item"; "Repair_Type"] F df_f.

(** The first two metrics of a tab, on the filtered frame. *)
Definition open_count (df : DataFrame) : result nat :=
  _ ← require df "Status";
  Ok (count_where df (fun r => negb (cell_eq_str "Completed" (r !!! "Status")))).

Definition completed_count (df : DataFrame) : result nat :=
  _ ← require df "Status";
  Ok (count_where df (fun r => cell_eq_str "Completed" (r !!! "Status"))).

(** What the right-hand side of a tab shows: the filtered frame of the
    recomputed copy of the session's frame, with the "Open" and "Completed"
    metrics. *)
Definition custom_view (F : filter_spec) (session : DataFrame)
  : result (DataFrame * nat * nat) :=
  df ← recompute_view session;
  df ← custom_filter F df;
  n_open ← open_count df;
  n_completed ← completed_count df;
  Ok (df, n_open, n_completed).

Definition repair_view (F : filter_spec) (session : DataFrame)
  : result (DataFrame * nat * nat) :=
  df ← recompute_view session;
  df_f ← repair_filter F df;
  n_open ← open_count df_f;
  n_completed ← completed_count df_f;
  Ok (df_f, n_open, n_completed).

(** The "Reset demo data" button: the file is removed if it exists, then
    loaded. *)
Definition reset (kind : string) (st : store) : store :=
  let file := match csv_file st with Some _ => None | None => None end in
  let '(df, file') := load_or_init_csv file kind in
  {| session_df := df; csv_file := file' |}.

(** Analytics tab: the numeric clean-up and the remaining balance of one
    frame. *)
Definition analytics_frame (df : DataFrame) : result DataFrame :=
  let df := fold_left normalize_col
              ["Total_Price"; "Deposit_Paid"; "Remaining_Balance"] df in
  _ ← require df "Total_Price";
  _ ← require df "Deposit_Paid";
  assignM df "Remaining_Balance"
    (fun r => d ← cell_sub (r !!! "Total_Price") (r !!! "Deposit_Paid");
              cell_clip_lower F64.zero d).

(** The two pipeline snapshots of the Analytics tab. *)
Definition pipeline_snapshot (custom repair : DataFrame)
  : result (list (string * nat) * list (string * nat)) :=
  custom ← analytics_frame custom;
  repair ← analytics_frame repair;
  c_stage ← stage_counts CUSTOM_STATUSES custom;
  r_stage ← stage_counts REPAIR_STATUSES repair;
  Ok (c_stage, r_stage).

(** The columns of the editable table of each tab. *)
Definition custom_editable_cols : list string :=
  ["Job_ID"; "Client"; "Item"; "Assigned_To"; "Status"; "Intake_Date";
   "Due_Date"; "Total_Price"; "Deposit_Paid"; "Remaining_Balance"; "Paid";
   "Notes"].

Definition repair_editable_cols : list string :=
  ["Job_ID"; "Client"; "Item"; "Repair_Type"; "Assigned_To"; "Status";
   "Intake_Date"; "Est_Completion"; "Total_Price"; "Deposit_Paid";
   "Remaining_Balance"; "Paid"; "Notes"].

(** The editable table of a tab and the save that follows it: the missing
    columns are added to the session frame itself, which is shown in the
    table.  [edit] is what the user does in the table: [st.data_editor]
    returns the frame it is given, edited. *)
Definition edit_table (cols : list string) (edit : DataFrame -> DataFrame)
           (st : store) : result store :=
  let session := ensure_cols (session_df st) cols in
  let st := {| session_df := session; csv_file := csv_file st |} in
  shown ← select_cols session cols;
  save_edit (edit shown) st.

(** The right-hand side of the custom tab, top to bottom: the recomputed
    copy filtered and its metrics, the editable table and the save, the
    stage view of the session frame. *)
Definition custom_tab (F : filter_spec) (edit : DataFrame -> DataFrame) (st : store)
  : result (store * (DataFrame * nat * nat) * list (string * nat)) :=
  df ← recompute_view (session_df st);
  df ← custom_filter F df;
  n_open ← open_count df;
  n_completed ← completed_count df;
  st' ← edit_table custom_editable_cols edit st;
  hist ← stage_counts CUSTOM_STATUSES (session_df st');
  Ok (st', (df, n_open, n_completed), hist).

Definition repair_tab (F : filter_spec) (edit : DataFrame -> DataFrame) (st : store)
  : result (store * (DataFrame * nat * nat) * list (string * nat)) :=
  df ← recompute_view (session_df st);
  df_f ← repair_filter F df;
  n_open ← open_count df_f;
  n_completed ← completed_count df_f;
  st' ← edit_table repair_editable_cols edit st;
  hist ← stage_counts REPAIR_STATUSES (session_df st');
  Ok (st', (df_f, n_open, n_completed), hist).

End WithEnv.
End Jewelry.

(** * An environment for the examples

    It reads unsigned decimal integers, the words [inf] and [nan] and ISO
    dates, searches patterns without metacharacters, and reads empty text
    cells back as missing. *)

Module Sample.

Definition digit_value (a : ascii) : option Z :=
  let n := nat_of_ascii a in
  if ((48 <=? n) && (n <=? 57))%nat then Some (Z.of_nat (n - 48)) else None.

Fixpoint digits_value (acc : Z) (s : string) : option Z :=
  match s with
  | EmptyString => Some acc
  | String a s' =>
      match digit_value a with
      | Some d => digits_value (10 * acc + d) s'
      | None => None
      end
  end.

Definition number_of_str (s : string) : option float :=
  let s := strip s in
  if String.eqb s "inf" then Some (S754_infinity false)
  else if String.eqb s "nan" then Some F64.nan
  else if String.eqb s "" then None
  else option_map F64.of_Z (digits_value 0 s).

Definition leap (y : Z) : bool :=
  ((y mod 4 =? 0) && (negb (y mod 100 =? 0) || (y mod 400 =? 0)))%Z.

Definition days_in_month (y m : Z) : Z :=
  if (m =? 2)%Z then (if leap y then 29 else 28)
  else if ((m =? 4) || (m =? 6) || (m =? 9) || (m =? 11))%Z then 30 else 31.

Definition valid_date (d : date) : bool :=
  ((1 <=? year d) && (year d <=? 9999) && (1 <=? month d) && (month d <=? 12)
   && (1 <=? day d) && (day d <=? days_in_month (year d) (month d)))%Z.

(** Dates written [YYYY-MM-DD]. *)
Definition date_of_str (s : string) : result date :=
  match strip s with
  | String y1 (String y2 (String y3 (String y4 (String "-"
      (String m1 (String m2 (String "-" (String d1 (String d2 EmptyString))))))))) =>
      match digits_value 0 (String y1 (String y2 (String y3 (String y4 ""))))%string,
            digits_value 0 (String m1 (String m2 ""))%string,
            digits_value 0 (String d1 (String d2 ""))%string with
      | Some y, Some m, Some d =>
          let dt := mkDate y m d in
          if valid_date dt then Ok dt else Raise ValueError
      | _, _, _ => Raise ValueError
      end
  | _ => Raise ValueError
  end.

(** The integer a finite float is equal to, if any. *)
Definition integral (m : positive) (e : Z) : option N :=
  match e with
  | Z0 => Some (Npos m)
  | Zpos k => Some (N.shiftl (Npos m) (Npos k))
  | Zneg k =>
      if N.eqb (N.land (Npos m) (N.ones (Npos k))) 0
      then Some (N.shiftr (Npos m) (Npos k)) else None
  end.

(** Exact on NaN, the infinities, the zeros and the integers up to sixteen
    digits; the other floats are printed through their integer part. *)
Definition str_of_float (f : float) : string :=
  match f with
  | S754_nan => "nan"
  | S754_infinity false => "inf"
  | S754_infinity true => "-inf"
  | S754_zero false => "0.0"
  | S754_zero true => "-0.0"
  | S754_finite s m e =>
      let n := match integral m e with
               | Some n => n
               | None => N.shiftr (Npos m) (Z.to_N (- e))
               end in
      (if s then "-" else "") ++ NilZero.string_of_uint (N.to_uint n) ++ ".0"
  end.

Definition search (q : string) : option (string -> bool) :=
  if regex_literal q then Some (is_infix q) else None.

Definition blank_to_nan (c : cell) : cell :=
  match c with
  | CStr "" => NaN
  | _ => c
  end.

Definition roundtrip (df : DataFrame) : DataFrame :=
  {| columns := columns df;
     rows := map (fun r : row => blank_to_nan <$> r) (rows df) |}.

Definition env (now : date) : Env :=
  {| today := now;
     py_float_of_str := number_of_str;
     pd_numeric_of_str := number_of_str;
     pd_to_datetime := date_of_str;
     py_str_of_float := str_of_float;
     re_search := search;
     csv_roundtrip := roundtrip |}.

End Sample.

(** * Row-wise reading of the recomputation *)


(** The overdue rule in the words of the specification: not overdue when
    completed; else overdue exactly when the date text is not blank, parses,
    and the date is strictly before today. *)
Definition overdue_spec (E : Env) (due_str status : string) : string :=
  if String.eqb status "Completed" then "No"
  else if str_truthy (strip due_str) then
    match pd_to_datetime E due_str with
    | Ok d => if date_ltb d (today E) then "Yes" else "No"
    | Raise _ => "No"
    end
  else "No".

Definition price_of (E : Env) (r : row) : float :=
  fillna0 (to_numeric E (r !!! "Total_Price")).

Definition deposit_of (E : Env) (r : row) : float :=
  fillna0 (to_numeric E (r !!! "Deposit_Paid")).

Definition remaining_of (E : Env) (r : row) : float :=
  clip_lower F64.zero (F64.sub (price_of E r) (deposit_of E r)).

Definition paid_label (rem : float) : string :=
  if F64.eqb rem F64.zero then "Yes" else "No".

(** A row after the two coercions: floats in the price and deposit
    columns. *)
Definition coerced_row (E : Env) (r : row) : row :=
  <["Deposit_Paid" := CNum (deposit_of E r)]>
    (<["Total_Price" := CNum (price_of E r)]> r).

(** Price, deposit, remaining balance and paid flag of a row, rewritten. *)
Definition balance_row (E : Env) (r : row) : row :=
  <["Paid" := CStr (paid_label (remaining_of E r))]>
    (<["Remaining_Balance" := CNum (remaining_of E r)]>
       (<["Deposit_Paid" := CNum (deposit_of E r)]>
          (<["Total_Price" := CNum (price_of E r)]> r))).

(** A row after the recomputation of app_rick.py. *)
Definition derived_row (E : Env) (date_col : string) (r : row) : row :=
  let r4 := balance_row E r in
  <["Overdue" := CStr (overdue_spec E
                         (str_of_cell E (row_get r4 date_col (CStr "")))
                         (str_of_cell E (row_get r4 "Status" (CStr ""))))]> r4.

Definition derived_cols (cols : list string) : list string :=
  with_col (with_col (with_col cols "Remaining_Balance") "Paid") "Overdue".

Definition balance_cols (cols : list string) : list string :=
  with_col (with_col cols "Remaining_Balance") "Paid".

(** The columns a recomputation may write. *)
Definition written : list string :=
  ["Total_Price"; "Deposit_Paid"; "Remaining_Balance"; "Paid"; "Overdue"].




(** * Frames of the examples *)

Definition day0 : date := mkDate 2026 3 10.

Definition env0 : Env := Sample.env day0.





(** The date and status texts that the overdue rule reads in a row. *)
Definition due_text (E : Env) (date_col : string) (r : row) : string :=
  str_of_cell E (row_get r date_col (CStr "")).

Definition status_text (E : Env) (r : row) : string :=
  str_of_cell E (row_get r "Status" (CStr "")).

(** Yesterday's promised date on a repair in progress. *)
Definition late_row : row :=
  list_to_map
    [("Job_ID", CStr "R-9"); ("Client", CStr "Jane"); ("Item", CStr "Chain");
     ("Repair_Type", CStr "Solder"); ("Assigned_To", CStr "Bench-2");
     ("Status", CStr "In Progress"); ("Promised_Date", CStr "2026-03-09");
     ("Total_Price", CNum (F64.of_Z 100)); ("Deposit_Paid", CNum (F64.of_Z 100))].

Definition late_frame : DataFrame :=
  {| columns := ["Job_ID"; "Client"; "Item"; "Repair_Type"; "Assigned_To";
                 "Status"; "Promised_Date"; "Total_Price"; "Deposit_Paid"];
     rows := [late_row] |}.


(** Number of cells of a column equal to the label [l]. *)
Definition count_label (l : string) (s : list cell) : nat :=
  length (List.filter (cell_eq_str l) s).

(** Number of records of [df] whose status is the stage [s]. *)
Definition records_at (s : string) (df : DataFrame) : nat :=
  length (List.filter (fun r : row => cell_eq_str s (r !!! "Status")) (rows df)).

(** Number of records of [df] whose status is one of [stages]. *)
Definition records_in (stages : list string) (df : DataFrame) : nat :=
  length (List.filter (fun r : row => isin stages (r !!! "Status")) (rows df)).

(** Number of records of [df] that are not completed and are assigned to the
    bench member [b]. *)
Definition open_load (b : string) (df : DataFrame) : nat :=
  length (List.filter
            (fun r : row => negb (cell_eq_str "Completed" (r !!! "Status"))
                            && cell_eq_str b (r !!! "Assigned_To"))
            (rows df)).

(** One record, put on hold by hand in the CSV file. *)
Definition hold_frame : DataFrame :=
  {| columns := ["Job_ID"; "Client"; "Status"];
     rows := [list_to_map [("Job_ID", CStr "C-3"); ("Client", CStr "Ann");
                           ("Status", CStr "On Hold")]] |}.

(** * Row-wise reading of the filters *)

(** The overdue selector: "Only overdue", "Not overdue", anything else (All)
    matches every record. *)
Definition overdue_selected (sel : string) (r : row) : bool :=
  if String.eqb sel "Only overdue" then cell_eq_str "Yes" (r !!! "Overdue")
  else if String.eqb sel "Not overdue" then cell_eq_str "No" (r !!! "Overdue")
  else true.

(** The paid selector of the generic variant. *)
Definition paid_selected (sel : string) (r : row) : bool :=
  if String.eqb sel "Paid" then cell_eq_str "Yes" (r !!! "Paid")
  else if String.eqb sel "Unpaid" then cell_eq_str "No" (r !!! "Paid")
  else true.

(** The text searched for: the query, trimmed and lower-cased. *)
Definition query_of (search : string) : string := lower (strip search).

(** The mask of the text search over the columns [cs]: every record when the
    query is blank; else the records in which the compiled query is found in
    the lower-cased text of one of the columns. *)
Definition search_mask (E : Env) (cs : list string) (search : string)
  : result (row -> bool) :=
  if str_truthy (strip search) then
    m ← compile E (query_of search);
    Ok (fun r => existsb (fun c => contains E m c r) cs)
  else Ok (fun _ => true).


(** The record kept by the filters of a tab of app_rick.py. *)
Definition rick_keeps (F : Rick.filter_spec) (owner_col : string)
           (mask : row -> bool) (r : row) : bool :=
  isin (Rick.f_status F) (r !!! "Status")
  && isin (Rick.f_owner F) (r !!! owner_col)
  && overdue_selected (Rick.f_overdue F) r
  && mask r.





Definition searching (text : string) : Rick.filter_spec :=
  {| Rick.f_status := Rick.CUSTOM_STATUSES;
     Rick.f_owner := Rick.ALL_ASSIGNEES;
     Rick.f_overdue := "All";
     Rick.f_search := text |}.


(** A filter step: on frames with given columns it either always raises the
    same exception, or keeps the records satisfying one fixed test, whatever
    the records are. *)
Definition row_filter (g : DataFrame -> result DataFrame) : Prop :=
  forall cols,
    (exists e, forall l, g {| columns := cols; rows := l |} = Raise e)
    \/ (exists p, forall l, g {| columns := cols; rows := l |}
                           = Ok {| columns := cols; rows := List.filter p l |}).

(** * Row-wise reading of the intake *)





(** * Consistency of a stored record *)

(** Remaining balance and paid flag of the record are the ones the
    recomputation gives from the record's own price and deposit. *)
Definition balance_consistent (r : row) : Prop :=
  exists t d,
    r !! "Total_Price" = Some (CNum t)
    /\ r !! "Deposit_Paid" = Some (CNum d)
    /\ r !! "Remaining_Balance" = Some (CNum (clip_lower F64.zero (F64.sub t d)))
    /\ r !! "Paid" = Some (CStr (paid_label (clip_lower F64.zero (F64.sub t d)))).

(** The same, and the overdue flag is the one the overdue rule gives from the
    record's own date field and status. *)
Definition derived_consistent (E : Env) (date_col : string) (r : row) : Prop :=
  balance_consistent r
  /\ r !! "Overdue"
     = Some (CStr (overdue_spec E (due_text E date_col r) (status_text E r))).

(** Two records that differ at most in the columns [cs]. *)
Definition same_outside (cs : list string) (r1 r2 : row) : Prop :=
  forall c, c ∉ cs -> r1 !! c = r2 !! c.





(** Submissions: a job id left empty, and a complete one. *)
Definition rick_form (id : string) : Rick.custom_form :=
  {| Rick.job_id := id; Rick.client := "Jane"; Rick.item := " Ring ";
     Rick.complexity := "M (Medium)"; Rick.status := "Casting";
     Rick.phase_owner := "CAD-1"; Rick.intake_date := day0;
     Rick.due_date := None; Rick.total_price := F64.of_Z 100;
     Rick.deposit_paid := F64.of_Z 100; Rick.notes := "" |}.

Definition jewelry_form (id : string) : Jewelry.custom_form :=
  {| Jewelry.job_id := id; Jewelry.client := "Jane"; Jewelry.item := " Ring ";
     Jewelry.assigned := "CAD Team"; Jewelry.status := "Consultation";
     Jewelry.intake_date := day0; Jewelry.due_date := None;
     Jewelry.total_price := F64.of_Z 100; Jewelry.deposit_paid := F64.of_Z 100;
     Jewelry.notes := "" |}.

(** Three custom jobs for the scenarios of the specification. *)
Definition job (id item status : string) : row :=
  list_to_map
    [("Job_ID", CStr id); ("Client", CStr "Jane"); ("Item", CStr item);
     ("Phase_Owner", CStr "CAD-1"); ("Status", CStr status);
     ("Due_Date", CStr "2026-03-09"); ("Total_Price", CStr "100");
     ("Deposit_Paid", CStr "n/a"); ("Overdue", CStr "No")].

Definition three_jobs : DataFrame :=
  {| columns := ["Job_ID"; "Client"; "Item"; "Phase_Owner"; "Status";
                 "Due_Date"; "Total_Price"; "Deposit_Paid"; "Overdue"];
     rows := [job "C-1" "Engagement ring" "Consultation";
              job "C-2" "Chain" "Completed";
              job "C-3" "Bracelet" "Completed"] |}.

Definition empty_store : store :=
  {| session_df := {| columns := []; rows := [] |}; csv_file := None |}.






(** The record kept by the filters of a tab of jewelryapp.py. *)
Definition jewelry_keeps (F : Jewelry.filter_spec) (mask : row -> bool) (r : row) : bool :=
  isin (Jewelry.f_status F) (r !!! "Status")
  && paid_selected (Jewelry.f_paid F) r
  && mask r.



Definition with_overdue (F : Rick.filter_spec) (sel : string) : Rick.filter_spec :=
  {| Rick.f_status := Rick.f_status F;
     Rick.f_owner := Rick.f_owner F;
     Rick.f_overdue := sel;
     Rick.f_search := Rick.f_search F |}.


(** Two repairs, the second one paid in full. *)
Definition repair_job (id status : string) (deposit : Z) : row :=
  list_to_map
    [("Job_ID", CStr id); ("Client", CStr "Jane"); ("Item", CStr "Chain");
     ("Repair_Type", CStr "Solder"); ("Assigned_To", CStr "Bench-2");
     ("Status", CStr status); ("Promised_Date", CStr "2026-03-09");
     ("Total_Price", CNum (F64.of_Z 100)); ("Deposit_Paid", CNum (F64.of_Z deposit))].

Definition two_repairs : DataFrame :=
  {| columns := ["Job_ID"; "Client"; "Item"; "Repair_Type"; "Assigned_To";
                 "Status"; "Promised_Date"; "Total_Price"; "Deposit_Paid"];
     rows := [repair_job "R-1" "In Progress" 40; repair_job "R-2" "Completed" 100] |}.



(** The sidebar of the repair tab of app_rick.py as it opens. *)
Definition all_repairs : Rick.filter_spec :=
  {| Rick.f_status := Rick.REPAIR_STATUSES;
     Rick.f_owner := Rick.BENCH_TEAM;
     Rick.f_overdue := "All";
     Rick.f_search := "" |}.

(** * Row-wise reading of the front desk tab *)




(** The environment [E] on the day [now]: the same libraries, another
    current date. *)
Definition at_day (E : Env) (now : date) : Env :=
  {| today := now;
     py_float_of_str := py_float_of_str E;
     pd_numeric_of_str := pd_numeric_of_str E;
     pd_to_datetime := pd_to_datetime E;
     py_str_of_float := py_str_of_float E;
     re_search := re_search E;
     csv_roundtrip := csv_roundtrip E |}.

(** Record [r2] is record [r1] except perhaps for its overdue flag, which is
    still "Yes" if it was. *)
Definition overdue_kept (r1 r2 : row) : Prop :=
  same_outside ["Overdue"] r1 r2
  /\ (r1 !! "Overdue" = Some (CStr "Yes") -> r2 !! "Overdue" = Some (CStr "Yes")).

(** * When a filter raises *)

(** The step [g] succeeds, keeping the columns, exactly on the frames whose
    columns satisfy [P]; on the others it raises an exception in [bad]. *)
Definition guarded (g : DataFrame -> result DataFrame) (P : list string -> Prop)
           (bad : exn -> Prop) : Prop :=
  forall d, match g d with
            | Ok out => columns out = columns d /\ P (columns d)
            | Raise e => ~ P (columns d) /\ bad e
            end.

(** A selector reads its column only when a choice other than All is made. *)
Definition selector_needs (sel a b c : string) (cols : list string) : Prop :=
  sel = a \/ sel = b -> c ∈ cols.

(** A query that is not blank needs the searched columns and must compile. *)
Definition search_needs (E : Env) (cs : list string) (search : string)
           (cols : list string) : Prop :=
  str_truthy (strip search) = true ->
  (forall c, c ∈ cs -> c ∈ cols) /\ re_search E (query_of search) <> None.

(** The exceptions of a filter: a missing column, or a query that is not
    blank and does not compile. *)
Definition filter_error (E : Env) (search : string) (e : exn) : Prop :=
  e = KeyError
  \/ (e = ReError /\ str_truthy (strip search) = true
      /\ re_search E (query_of search) = None).

(** * Row-wise reading of the editable table *)

(** The cells of a record in the columns [cols]. *)
Definition restrict (cols : list string) (r : row) : row :=
  filter (fun kv : string * cell => kv.1 ∈ cols) r.

(** Record by record, frame [df'] holds in the columns of [cols] that no
    recomputation writes what frame [df] holds there, and the empty text
    where [df] has no such column. *)
Definition table_kept (cols : list string) (df df' : DataFrame) : Prop :=
  length (rows df') = length (rows df)
  /\ forall i (r : row), rows df !! i = Some r ->
       exists r' : row, rows df' !! i = Some r'
         /\ forall c, c ∈ cols -> c ∉ written ->
              r' !! c = if bool_decide (c ∈ columns df) then r !! c
                        else Some (CStr "").

(** The query of the search box is blank or compiles as a regular
    expression. *)
Definition compiles (E : Env) (search : string) : Prop :=
  str_truthy (strip search) = true -> re_search E (query_of search) <> None.

(** * Lemmas on results and frames *)

Lemma bind_ok {A B} (a : A) (k : A -> result B) : (Ok a ≫= k) = k a.
Proof. reflexivity. Qed.

Lemma mapM_result_ok {A B} (f : A -> result B) (g : A -> B) (l : list A) :
  (forall a, a ∈ l -> f a = Ok (g a)) -> mapM_result f l = Ok (map g l).
Proof.
  induction l as [|a l IH]; intros Hf; [reflexivity|].
  simpl. rewrite (Hf a) by left. rewrite bind_ok.
  rewrite IH; [reflexivity|]. intros b Hb. apply Hf. by right.
Qed.

Lemma assignM_map (cols : list string) (l : list row) (f : row -> row)
      (c : string) (e : row -> result cell) (g : row -> cell) :
  (forall r0, r0 ∈ l -> e (f r0) = Ok (g r0)) ->
  assignM {| columns := cols; rows := map f l |} c e
  = Ok {| columns := with_col cols c;
          rows := map (fun r0 => <[c := g r0]> (f r0)) l |}.
Proof.
  intros He. unfold assignM. simpl.
  rewrite (mapM_result_ok _ (fun r => <[c := default NaN (match e r with Ok v => Some v | Raise _ => None end)]> r)).
  - rewrite bind_ok. f_equal. f_equal. rewrite map_map.
    apply map_ext_in. intros r0 Hr0. apply list_elem_of_In in Hr0.
    by rewrite (He r0 Hr0).
  - intros r Hr. apply list_elem_of_fmap in Hr as (r0 & -> & Hr0).
    by rewrite (He r0 Hr0).
Qed.

Lemma require_ok (df : DataFrame) (c : string) :
  c ∈ columns df -> require df c = Ok tt.
Proof. intros H. unfold require, has_col. by rewrite bool_decide_eq_true_2. Qed.

Lemma require_raise (df : DataFrame) (c : string) :
  c ∉ columns df -> require df c = Raise KeyError.
Proof. intros H. unfold require, has_col. by rewrite bool_decide_eq_false_2. Qed.

Lemma with_col_in (cols : list string) (c : string) :
  c ∈ cols -> with_col cols c = cols.
Proof. intros H. unfold with_col. by rewrite bool_decide_eq_true_2. Qed.

Lemma elem_of_with_col (cols : list string) (c c' : string) :
  c' ∈ with_col cols c <-> c' ∈ cols \/ c' = c.
Proof.
  unfold with_col. case_bool_decide as Hc.
  - split; [by left|]. intros [?| ->]; done.
  - rewrite elem_of_app, list_elem_of_singleton. tauto.
Qed.

Lemma is_overdue_spec (E : Env) (due_str status : string) :
  Rick.is_overdue E due_str status = Ok (overdue_spec E due_str status).
Proof.
  unfold Rick.is_overdue, overdue_spec, Rick.parse_date.
  destruct (String.eqb status "Completed"); [reflexivity|].
  destruct (str_truthy (strip due_str)); [|reflexivity].
  destruct (pd_to_datetime E due_str) as [d|e]; simpl; [|reflexivity].
  by destruct (date_ltb d (today E)).
Qed.

Lemma coerced_is_num (E : Env) (r : row) :
  coerced_row E r !!! "Total_Price" = CNum (price_of E r)
  /\ coerced_row E r !!! "Deposit_Paid" = CNum (deposit_of E r).
Proof.
  unfold coerced_row. split.
  - rewrite lookup_total_insert_ne by done. by rewrite lookup_total_insert_eq.
  - by rewrite lookup_total_insert_eq.
Qed.

Lemma coerce_after_price (E : Env) (r : row) (v : cell) :
  coerce E "Deposit_Paid" (<["Total_Price" := v]> r) = CNum (deposit_of E r).
Proof.
  unfold coerce, deposit_of. by rewrite lookup_total_insert_ne.
Qed.

Lemma rick_derive_rows (E : Env) (date_col : string) (cols : list string) (l : list row) :
  "Total_Price" ∈ cols -> "Deposit_Paid" ∈ cols ->
  Rick.derive E date_col {| columns := cols; rows := map (coerced_row E) l |}
  = Ok {| columns := derived_cols cols; rows := map (derived_row E date_col) l |}.
Proof.
  intros Ht Hd. unfold Rick.derive.
  rewrite !require_ok by done. rewrite !bind_ok.
  rewrite (assignM_map _ _ _ _ _ (fun r0 => CNum (remaining_of E r0))).
  2:{ intros r0 _. destruct (coerced_is_num E r0) as [-> ->]. reflexivity. }
  rewrite bind_ok.
  rewrite (assignM_map _ _ _ _ _ (fun r0 => CStr (paid_label (remaining_of E r0)))).
  2:{ intros r0 _. by rewrite lookup_total_insert_eq. }
  rewrite bind_ok.
  rewrite (assignM_map _ _ _ _ _
             (fun r0 => CStr (overdue_spec E
                (str_of_cell E (row_get (balance_row E r0) date_col (CStr "")))
                (str_of_cell E (row_get (balance_row E r0) "Status" (CStr "")))))).
  2:{ intros r0 _. unfold Rick.overdue_of. by rewrite is_overdue_spec. }
  reflexivity.
Qed.

Lemma rick_recompute_rows (E : Env) (date_col : string) (df : DataFrame) :
  "Total_Price" ∈ columns df -> "Deposit_Paid" ∈ columns df ->
  Rick.recompute E date_col df
  = Ok {| columns := derived_cols (columns df);
          rows := map (derived_row E date_col) (rows df) |}.
Proof.
  intros Ht Hd. destruct df as [cols l]. simpl in *. unfold Rick.recompute.
  rewrite require_ok by done. rewrite bind_ok.
  rewrite <- (map_id l) at 1.
  rewrite (assignM_map _ _ _ _ _ (fun r0 => CNum (price_of E r0))) by done.
  rewrite bind_ok, (with_col_in _ _ Ht).
  rewrite require_ok by done. rewrite bind_ok.
  rewrite (assignM_map _ _ _ _ _ (fun r0 => CNum (deposit_of E r0))).
  2:{ intros r0 _. simpl. by rewrite coerce_after_price. }
  rewrite bind_ok, (with_col_in _ _ Hd).
  by apply rick_derive_rows.
Qed.

Lemma rick_recompute_view_rows (E : Env) (date_col : string) (df : DataFrame) :
  "Total_Price" ∈ columns df -> "Deposit_Paid" ∈ columns df ->
  Rick.recompute_view E date_col df
  = Ok {| columns := derived_cols (columns df);
          rows := map (derived_row E date_col) (rows df) |}.
Proof.
  intros Ht Hd. destruct df as [cols l]. simpl in *.
  unfold Rick.recompute_view, Rick.coerce_get, has_col. simpl.
  rewrite bool_decide_eq_true_2 by done.
  rewrite <- (map_id l) at 1.
  rewrite (assignM_map _ _ _ _ _ (fun r0 => CNum (price_of E r0))) by done.
  rewrite bind_ok, (with_col_in _ _ Ht). simpl.
  rewrite bool_decide_eq_true_2 by done.
  rewrite (assignM_map _ _ _ _ _ (fun r0 => CNum (deposit_of E r0))).
  2:{ intros r0 _. simpl. by rewrite coerce_after_price. }
  rewrite bind_ok, (with_col_in _ _ Hd).
  by apply rick_derive_rows.
Qed.

Lemma jewelry_derive_rows (E : Env) (cols : list string) (l : list row)
      (f : row -> row) :
  "Total_Price" ∈ cols -> "Deposit_Paid" ∈ cols ->
  (forall r0, f r0 !!! "Total_Price" = CNum (price_of E r0)
              /\ f r0 !!! "Deposit_Paid" = CNum (deposit_of E r0)) ->
  Jewelry.derive E {| columns := cols; rows := map f l |}
  = Ok {| columns := balance_cols cols;
          rows := map (fun r0 =>
                    <["Paid" := CStr (paid_label (remaining_of E r0))]>
                      (<["Remaining_Balance" := CNum (remaining_of E r0)]> (f r0))) l |}.
Proof.
  intros Ht Hd Hf. unfold Jewelry.derive.
  rewrite !require_ok by done. rewrite !bind_ok.
  rewrite (assignM_map _ _ _ _ _ (fun r0 => CNum (remaining_of E r0))).
  2:{ intros r0 _. destruct (Hf r0) as [-> ->]. reflexivity. }
  rewrite bind_ok.
  rewrite (assignM_map _ _ _ _ _ (fun r0 => CStr (paid_label (remaining_of E r0)))).
  2:{ intros r0 _. by rewrite lookup_total_insert_eq. }
  reflexivity.
Qed.

Lemma jewelry_recompute_rows (E : Env) (df : DataFrame) :
  "Total_Price" ∈ columns df -> "Deposit_Paid" ∈ columns df ->
  Jewelry.recompute E df
  = Ok {| columns := balance_cols (columns df);
          rows := map (balance_row E) (rows df) |}.
Proof.
  intros Ht Hd. destruct df as [cols l]. simpl in *. unfold Jewelry.recompute.
  rewrite require_ok by done. rewrite bind_ok.
  rewrite <- (map_id l) at 1.
  rewrite (assignM_map _ _ _ _ _ (fun r0 => CNum (price_of E r0))) by done.
  rewrite bind_ok, (with_col_in _ _ Ht).
  rewrite require_ok by done. rewrite bind_ok.
  rewrite (assignM_map _ _ _ _ _ (fun r0 => CNum (deposit_of E r0))).
  2:{ intros r0 _. simpl. by rewrite coerce_after_price. }
  rewrite bind_ok, (with_col_in _ _ Hd).
  exact (jewelry_derive_rows E cols l (coerced_row E) Ht Hd (coerced_is_num E)).
Qed.

Lemma jewelry_recompute_view_rows (E : Env) (df : DataFrame) :
  "Total_Price" ∈ columns df -> "Deposit_Paid" ∈ columns df ->
  Jewelry.recompute_view E df
  = Ok {| columns := balance_cols (columns df);
          rows := map (balance_row E) (rows df) |}.
Proof.
  intros Ht Hd. destruct df as [cols l]. simpl in *.
  unfold Jewelry.recompute_view. simpl.
  unfold Jewelry.normalize_col at 3. unfold has_col. simpl.
  rewrite bool_decide_eq_true_2 by done.
  unfold Jewelry.normalize_col at 2. unfold has_col, assign. simpl.
  rewrite (with_col_in _ _ Ht), bool_decide_eq_true_2 by done.
  rewrite (with_col_in _ _ Hd), map_map.
  unfold Jewelry.normalize_col, has_col, assign. simpl.
  case_bool_decide as Hr.
  - rewrite (with_col_in _ _ Hr), map_map.
    rewrite (jewelry_derive_rows E cols l _ Ht Hd).
    + f_equal. f_equal. apply map_ext. intros r0.
      by rewrite insert_insert_eq, coerce_after_price.
    + intros r0. rewrite coerce_after_price.
      rewrite !(lookup_total_insert_ne (M:=gmap string) _ "Remaining_Balance") by done.
      apply (coerced_is_num E r0).
  - rewrite (jewelry_derive_rows E cols l _ Ht Hd).
    + f_equal. f_equal. apply map_ext. intros r0. by rewrite coerce_after_price.
    + intros r0. rewrite coerce_after_price. apply (coerced_is_num E r0).
Qed.

(** ** Floats: the difference of two numbers *)

Lemma shr_1_nonneg (mrs : shr_record) :
  (0 <= shr_m mrs)%Z -> (0 <= shr_m (shr_1 mrs))%Z.
Proof.
  destruct mrs as [m r s]. simpl. intros Hm.
  destruct m as [|p|p]; simpl; [lia| |lia].
  destruct p; simpl; lia.
Qed.

Lemma iter_pos_shr_1_nonneg (p : positive) (mrs : shr_record) :
  (0 <= shr_m mrs)%Z -> (0 <= shr_m (SpecFloat.iter_pos shr_1 p mrs))%Z.
Proof.
  revert mrs. induction p as [p IH|p IH|]; intros mrs Hm; simpl.
  - apply IH, IH. by apply shr_1_nonneg.
  - by apply IH, IH.
  - by apply shr_1_nonneg.
Qed.

Lemma shr_fexp_nonneg (prec emax m e : Z) (l : location) :
  (0 <= m)%Z -> (0 <= shr_m (fst (shr_fexp prec emax m e l)))%Z.
Proof.
  intros Hm. unfold shr_fexp, shr.
  assert (H0 : (0 <= shr_m (shr_record_of_loc m l))%Z).
  { destruct l as [|[]]; simpl; lia. }
  destruct (fexp prec emax (Zdigits2 m + e) - e)%Z; simpl; try done.
  by apply iter_pos_shr_1_nonneg.
Qed.

Lemma round_nearest_even_nonneg (m : Z) (l : location) :
  (0 <= m)%Z -> (0 <= round_nearest_even m l)%Z.
Proof.
  intros Hm. destruct l as [|[]]; simpl; try lia.
  destruct (Z.even m); lia.
Qed.

Lemma binary_round_aux_not_nan (prec emax : Z) (sx : bool) (mx ex : Z) (lx : location) :
  (0 <= mx)%Z -> binary_round_aux prec emax sx mx ex lx <> S754_nan.
Proof.
  intros Hm. unfold binary_round_aux.
  pose proof (shr_fexp_nonneg prec emax mx ex lx Hm) as H1.
  destruct (shr_fexp prec emax mx ex lx) as [mrs' e']. simpl in H1.
  pose proof (shr_fexp_nonneg prec emax _ e' loc_Exact
                (round_nearest_even_nonneg _ (loc_of_shr_record mrs') H1)) as H2.
  destruct (shr_fexp prec emax _ e' loc_Exact) as [mrs'' e'']. simpl in H2.
  destruct (shr_m mrs''); [done| |lia].
  by destruct (e'' <=? emax - prec)%Z.
Qed.

Lemma binary_normalize_not_nan (prec emax m e : Z) (s : bool) :
  binary_normalize prec emax m e s <> S754_nan.
Proof.
  unfold binary_normalize, binary_round.
  destruct m as [|p|p]; [done| |].
  - destruct (shl_align p e _) as [mz ez]. by apply binary_round_aux_not_nan.
  - destruct (shl_align p e _) as [mz ez]. by apply binary_round_aux_not_nan.
Qed.

Lemma sub_nan_iff (x y : float) :
  F64.is_nan x = false -> F64.is_nan y = false ->
  F64.is_nan (F64.sub x y) = true
  <-> exists s, x = S754_infinity s /\ y = S754_infinity s.
Proof.
  intros Hx Hy. split.
  - destruct x as [sx|sx| |sx mx ex], y as [sy|sy| |sy my ey]; try done.
    + by destruct sx, sy.
    + destruct sx, sy; try done; intros _; eexists; done.
    + unfold F64.sub, SFsub. intros H.
      by destruct (binary_normalize_not_nan F64.prec F64.emax
                     (cond_Zopp sx (Z.pos (fst (shl_align mx ex (Z.min ex ey))))
                      - cond_Zopp sy (Z.pos (fst (shl_align my ey (Z.min ex ey)))))
                     (Z.min ex ey) false);
        destruct (binary_normalize _ _ _ _ _).
  - intros (s & -> & ->). by destruct s.
Qed.

Lemma fillna0_not_nan (x : float) : F64.is_nan (fillna0 x) = false.
Proof. by destruct x. Qed.







(** Membership in a list of string literals, by evaluation. *)
Ltac in_cols := apply (bool_decide_unpack _); vm_compute; exact I.

(** Case analysis on [H : c ∈ [c1; ...; cn]]. *)
Ltac list_cases H :=
  repeat (apply elem_of_cons in H as [-> | H]); [.. | by apply elem_of_nil in H].






(** ** Overdue rule *)







(** ** Coercions *)


(** ** Frame of the recomputation *)

Lemma balance_row_other (E : Env) (r : row) (c : string) :
  c ∉ written -> balance_row E r !! c = r !! c.
Proof.
  intros Hc. unfold balance_row.
  rewrite !lookup_insert_ne; [done|intros <-; apply Hc; in_cols..].
Qed.

Lemma derived_row_other (E : Env) (date_col : string) (r : row) (c : string) :
  c ∉ written -> derived_row E date_col r !! c = r !! c.
Proof.
  intros Hc. unfold derived_row.
  rewrite lookup_insert_ne by (intros <-; apply Hc; in_cols).
  by apply balance_row_other.
Qed.

Lemma with_col_prefix (cols : list string) (c : string) :
  cols `prefix_of` with_col cols c.
Proof.
  unfold with_col. case_bool_decide; [done|]. by apply prefix_app_r.
Qed.


Lemma derived_cols_frame (cols : list string) :
  cols `prefix_of` derived_cols cols
  /\ forall c, c ∈ derived_cols cols -> c ∈ cols \/ c ∈ written.
Proof.
  unfold derived_cols. split.
  - etrans; [|apply with_col_prefix]. etrans; [|apply with_col_prefix].
    apply with_col_prefix.
  - intros c. rewrite !elem_of_with_col.
    intros [[[?| ->]| ->]| ->]; [by left|right; in_cols..].
Qed.

Lemma balance_cols_frame (cols : list string) :
  cols `prefix_of` balance_cols cols
  /\ forall c, c ∈ balance_cols cols -> c ∈ cols \/ c ∈ written.
Proof.
  unfold balance_cols. split.
  - etrans; [|apply with_col_prefix]. apply with_col_prefix.
  - intros c. rewrite !elem_of_with_col.
    intros [[?| ->]| ->]; [by left|right; in_cols..].
Qed.

Lemma assignM_coerce (E : Env) (df : DataFrame) (c : string) :
  exists df', assignM df c (fun r => Ok (coerce E c r)) = Ok df'
              /\ columns df' = with_col (columns df) c.
Proof.
  destruct df as [cols l]. rewrite <- (map_id l).
  rewrite (assignM_map _ _ _ _ _ (coerce E c)) by done.
  eexists. split; [reflexivity|]. reflexivity.
Qed.

Lemma rick_recompute_missing (E : Env) (date_col : string) (df : DataFrame) :
  "Total_Price" ∉ columns df \/ "Deposit_Paid" ∉ columns df ->
  Rick.recompute E date_col df = Raise KeyError.
Proof.
  intros H. unfold Rick.recompute.
  destruct (decide ("Total_Price" ∈ columns df)) as [Ht | Ht].
  2:{ by rewrite require_raise. }
  destruct H as [H | H]; [done|].
  rewrite require_ok by done. rewrite bind_ok.
  destruct (assignM_coerce E df "Total_Price") as (df' & -> & Hcols).
  rewrite bind_ok. rewrite require_raise; [done|].
  rewrite Hcols, with_col_in by done. done.
Qed.

Lemma jewelry_recompute_missing (E : Env) (df : DataFrame) :
  "Total_Price" ∉ columns df \/ "Deposit_Paid" ∉ columns df ->
  Jewelry.recompute E df = Raise KeyError.
Proof.
  intros H. unfold Jewelry.recompute.
  destruct (decide ("Total_Price" ∈ columns df)) as [Ht | Ht].
  2:{ by rewrite require_raise. }
  destruct H as [H | H]; [done|].
  rewrite require_ok by done. rewrite bind_ok.
  destruct (assignM_coerce E df "Total_Price") as (df' & -> & Hcols).
  rewrite bind_ok. rewrite require_raise; [done|].
  rewrite Hcols, with_col_in by done. done.
Qed.

Lemma rick_recompute_view_missing (E : Env) (date_col : string) (df : DataFrame) :
  "Total_Price" ∉ columns df \/ "Deposit_Paid" ∉ columns df ->
  Rick.recompute_view E date_col df = Raise AttributeError.
Proof.
  intros H. unfold Rick.recompute_view, Rick.coerce_get, has_col.
  destruct (decide ("Total_Price" ∈ columns df)) as [Ht | Ht].
  2:{ by rewrite bool_decide_eq_false_2. }
  destruct H as [H | H]; [done|].
  rewrite bool_decide_eq_true_2 by done.
  destruct df as [cols l]. simpl in *. rewrite <- (map_id l).
  rewrite (assignM_map _ _ _ _ _ (coerce E "Total_Price")) by done.
  rewrite bind_ok. simpl. rewrite with_col_in by done.
  by rewrite bool_decide_eq_false_2.
Qed.

Lemma normalize_col_columns (E : Env) (df : DataFrame) (c : string) :
  columns (Jewelry.normalize_col E df c) = columns df.
Proof.
  unfold Jewelry.normalize_col, has_col. case_bool_decide as Hc; [|done].
  simpl. by apply with_col_in.
Qed.

Lemma jewelry_recompute_view_missing (E : Env) (df : DataFrame) :
  "Total_Price" ∉ columns df \/ "Deposit_Paid" ∉ columns df ->
  Jewelry.recompute_view E df = Raise KeyError.
Proof.
  intros H. unfold Jewelry.recompute_view, Jewelry.derive. simpl.
  set (df3 := Jewelry.normalize_col E _ "Remaining_Balance").
  assert (Hcols : columns df3 = columns df).
  { unfold df3. by rewrite !normalize_col_columns. }
  destruct (decide ("Total_Price" ∈ columns df)) as [Ht | Ht].
  2:{ rewrite (require_raise df3 "Total_Price"); [done|by rewrite Hcols]. }
  destruct H as [H | H]; [exfalso; by apply H|].
  rewrite (require_ok df3 "Total_Price") by (by rewrite Hcols). rewrite bind_ok.
  rewrite (require_raise df3 "Deposit_Paid"); [done|by rewrite Hcols].
Qed.



(** ** Histograms *)

Lemma cell_eqb_str (k : cell) (l : string) :
  cell_eqb k (CStr l) = true <-> k = CStr l.
Proof.
  destruct k as [s|f]; simpl; [|done].
  rewrite String.eqb_eq. split; congruence.
Qed.

Lemma cell_eq_str_true (l : string) (c : cell) :
  cell_eq_str l c = true <-> c = CStr l.
Proof.
  destruct c as [s|f]; simpl; [|done].
  rewrite String.eqb_eq. split; congruence.
Qed.

Lemma vc_lookup_incr (l : string) (c : cell) (acc : list (cell * nat)) :
  default 0 (vc_lookup (CStr l) (vc_incr c acc))
  = default 0 (vc_lookup (CStr l) acc) + (if cell_eq_str l c then 1 else 0).
Proof.
  induction acc as [|[k n] acc IH]; simpl.
  - destruct (cell_eqb c (CStr l)) eqn:Hc.
    + apply cell_eqb_str in Hc as ->. simpl. by rewrite String.eqb_refl.
    + destruct (cell_eq_str l c) eqn:Hl; [|done].
      apply cell_eq_str_true in Hl as ->. simpl in Hc.
      by rewrite String.eqb_refl in Hc.
  - destruct (cell_eqb k c) eqn:Hkc; simpl;
      destruct (cell_eqb k (CStr l)) eqn:Hkl; simpl.
    + apply cell_eqb_str in Hkl as ->.
      destruct c as [s|f]; simpl in *; [|done].
      rewrite String.eqb_sym, Hkc. lia.
    + destruct (cell_eq_str l c) eqn:Hl; [|lia].
      apply cell_eq_str_true in Hl as ->. congruence.
    + apply cell_eqb_str in Hkl as ->.
      destruct c as [s|f]; simpl in *; [|lia].
      rewrite String.eqb_sym, Hkc. lia.
    + apply IH.
Qed.

Lemma value_counts_lookup (l : string) (s : list cell) :
  default 0 (vc_lookup (CStr l) (value_counts s)) = count_label l s.
Proof.
  unfold value_counts, count_label.
  change (length (List.filter (cell_eq_str l) s))
    with (default 0 (vc_lookup (CStr l) []) + length (List.filter (cell_eq_str l) s)).
  generalize (@nil (cell * nat)) as acc.
  induction s as [|c s IH]; intros acc; simpl; [lia|].
  rewrite IH. destruct (isna c) eqn:Hna.
  - destruct c as [x|f]; [done|]. simpl. lia.
  - rewrite vc_lookup_incr. destruct (cell_eq_str l c); simpl; lia.
Qed.

Lemma reindex_value_counts (labels : list string) (s : list cell) :
  reindex labels (value_counts s) = map (fun l => (l, count_label l s)) labels.
Proof.
  unfold reindex. apply map_ext. intros l. by rewrite value_counts_lookup.
Qed.

Lemma filter_cons_if {A} (p : A -> bool) (a : A) (l : list A) :
  List.filter p (a :: l) = if p a then a :: List.filter p l else List.filter p l.
Proof. reflexivity. Qed.

Lemma isin_cons (l : string) (ls : list string) (c : cell) :
  isin (l :: ls) c = cell_eq_str l c || isin ls c.
Proof. reflexivity. Qed.

Lemma isin_true (ls : list string) (c : cell) :
  isin ls c = true <-> exists l, l ∈ ls /\ c = CStr l.
Proof.
  unfold isin. rewrite existsb_exists. split.
  - intros (l & Hl & Hc). exists l. split; [by apply list_elem_of_In|].
    by apply cell_eq_str_true.
  - intros (l & Hl & ->). exists l. split; [by apply list_elem_of_In|].
    by apply cell_eq_str_true.
Qed.

Lemma count_isin_cons (l : string) (ls : list string) (s : list cell) :
  l ∉ ls ->
  length (List.filter (isin (l :: ls)) s)
  = count_label l s + length (List.filter (isin ls) s).
Proof.
  intros Hl. unfold count_label. induction s as [|c s IH]; [done|].
  rewrite !filter_cons_if, isin_cons.
  destruct (cell_eq_str l c) eqn:Hc; destruct (isin ls c) eqn:Hi; simpl; try lia.
  apply cell_eq_str_true in Hc as ->.
  apply isin_true in Hi as (l' & Hl' & [= ->]). done.
Qed.

Lemma sum_counts (labels : list string) (s : list cell) :
  NoDup labels ->
  list_sum (map snd (map (fun l => (l, count_label l s)) labels))
  = length (List.filter (isin labels) s).
Proof.
  induction 1 as [|l ls Hl Hnd IH]; simpl.
  - induction s; simpl; done.
  - rewrite IH. symmetry. by apply count_isin_cons.
Qed.

Lemma filter_col (df : DataFrame) (c : string) (p : cell -> bool) :
  List.filter p (col df c) = map (fun r : row => r !!! c)
                               (List.filter (fun r : row => p (r !!! c)) (rows df)).
Proof.
  unfold col. induction (rows df) as [|r l IH]; [done|].
  simpl. destruct (p (r !!! c)); simpl; by rewrite IH.
Qed.

Lemma count_label_col (df : DataFrame) (c l : string) :
  count_label l (col df c)
  = length (List.filter (fun r : row => cell_eq_str l (r !!! c)) (rows df)).
Proof. unfold count_label. by rewrite filter_col, length_map. Qed.

Lemma stage_counts_spec (stages : list string) (df : DataFrame) :
  "Status" ∈ columns df ->
  Rick.stage_counts stages df = Ok (map (fun s => (s, records_at s df)) stages)
  /\ Jewelry.stage_counts stages df = Rick.stage_counts stages df.
Proof.
  intros Hs. split; [|reflexivity]. unfold Rick.stage_counts.
  rewrite require_ok by done. rewrite bind_ok, reindex_value_counts.
  f_equal. apply map_ext. intros s. unfold records_at.
  by rewrite count_label_col.
Qed.

Lemma sum_stage_counts (stages : list string) (df : DataFrame) :
  NoDup stages ->
  list_sum (map snd (map (fun s => (s, records_at s df)) stages))
  = records_in stages df.
Proof.
  intros Hnd. unfold records_in, records_at.
  rewrite <- (length_map (fun r : row => r !!! "Status")), <- filter_col.
  rewrite <- (sum_counts stages (col df "Status") Hnd).
  f_equal. rewrite !map_map. apply map_ext. intros s. simpl.
  by rewrite count_label_col.
Qed.

Lemma filter_filter_and {A} (p q : A -> bool) (l : list A) :
  List.filter q (List.filter p l) = List.filter (fun x => p x && q x) l.
Proof.
  induction l as [|a l IH]; [done|]. simpl.
  destruct (p a); simpl; [destruct (q a)|]; by rewrite IH.
Qed.

Lemma filter_all {A} (p : A -> bool) (l : list A) :
  (forall a, a ∈ l -> p a = true) -> List.filter p l = l.
Proof.
  induction l as [|a l IH]; intros H; [done|]. simpl.
  rewrite (H a) by left. f_equal. apply IH. intros b Hb. apply H. by right.
Qed.

Lemma filter_length_le {A} (p : A -> bool) (l : list A) :
  length (List.filter p l) <= length l.
Proof. induction l as [|a l IH]; simpl; [lia|]. destruct (p a); simpl; lia. Qed.

Lemma stage_lists_nodup :
  NoDup Rick.CUSTOM_STATUSES /\ NoDup Rick.REPAIR_STATUSES
  /\ NoDup Rick.BENCH_TEAM
  /\ Jewelry.CUSTOM_STATUSES = Rick.CUSTOM_STATUSES
  /\ Jewelry.REPAIR_STATUSES = Rick.REPAIR_STATUSES.
Proof.
  repeat split; apply (bool_decide_unpack _); vm_compute; exact I.
Qed.

(** C4 (as amended).  On a frame with a Status column, the stage histogram
    of either variant lists every stage of the category's fixed list, in
    pipeline order, each with the number of records at that stage (zero if
    none); its counts sum to the number of records whose status is one of
    the stages, hence to the number of records when every record's status
    is in the stage list. *)
Theorem stage_histogram (df : DataFrame) (stages : list string) :
  "Status" ∈ columns df ->
  stages = Rick.CUSTOM_STATUSES \/ stages = Rick.REPAIR_STATUSES ->
  exists hist,
    Rick.stage_counts stages df = Ok hist
    /\ Jewelry.stage_counts stages df = Ok hist
    /\ hist = map (fun s => (s, records_at s df)) stages
    /\ map fst hist = stages
    /\ list_sum (map snd hist) = records_in stages df
    /\ records_in stages df <= length (rows df)
    /\ ((forall r : row, r ∈ rows df -> isin stages (r !!! "Status") = true) ->
        list_sum (map snd hist) = length (rows df)).
Proof.
  intros Hs Hst.
  assert (Hnd : NoDup stages).
  { destruct stage_lists_nodup as (H1 & H2 & _). by destruct Hst as [-> | ->]. }
  destruct (stage_counts_spec stages df Hs) as [HR HJ].
  exists (map (fun s => (s, records_at s df)) stages).
  split; [done|]. split; [by rewrite HJ|]. split; [done|].
  split; [rewrite map_map; simpl; apply map_id|].
  split; [by apply sum_stage_counts|].
  split; [apply filter_length_le|].
  intros Hall. rewrite sum_stage_counts by done. unfold records_in.
  by rewrite filter_all.
Qed.

Lemma stage_histogram_witness :
  "Status" ∈ columns late_frame
  /\ (Rick.REPAIR_STATUSES = Rick.CUSTOM_STATUSES
      \/ Rick.REPAIR_STATUSES = Rick.REPAIR_STATUSES)
  /\ (forall r : row, r ∈ rows late_frame ->
        isin Rick.REPAIR_STATUSES (r !!! "Status") = true)
  /\ exists hist, Rick.stage_counts Rick.REPAIR_STATUSES late_frame = Ok hist
                  /\ list_sum (map snd hist) = length (rows late_frame).
Proof.
  assert (Hs : "Status" ∈ columns late_frame) by in_cols.
  assert (Hst : Rick.REPAIR_STATUSES = Rick.CUSTOM_STATUSES
                \/ Rick.REPAIR_STATUSES = Rick.REPAIR_STATUSES) by (right; reflexivity).
  assert (Hall : forall r : row, r ∈ rows late_frame ->
                   isin Rick.REPAIR_STATUSES (r !!! "Status") = true).
  { intros r Hr. apply list_elem_of_singleton in Hr. rewrite Hr. reflexivity. }
  split; [exact Hs|]. split; [exact Hst|]. split; [exact Hall|].
  destruct (stage_histogram late_frame Rick.REPAIR_STATUSES Hs Hst)
    as (hist & HR & _ & _ & _ & _ & _ & Hsum).
  exists hist. split; [exact HR | exact (Hsum Hall)].
Defined.

(** C4 (as stated) fails: a record whose status is not in the stage list is
    counted in no bar, so the histogram sums to 0 for a collection of one
    record. *)
Lemma stage_histogram_sum_short :
  exists hist,
    Rick.stage_counts Rick.CUSTOM_STATUSES hold_frame = Ok hist
    /\ Jewelry.stage_counts Jewelry.CUSTOM_STATUSES hold_frame = Ok hist
    /\ list_sum (map snd hist) = 0
    /\ length (rows hold_frame) = 1
    /\ list_sum (map snd hist) <> length (rows hold_frame).
Proof.
  eexists. split; [reflexivity|]. split; [reflexivity|].
  split; [reflexivity|]. split; [reflexivity|]. discriminate.
Qed.

(** C10.  On a repair frame with the Status and Assigned_To columns, the
    repair load by bench lists every member of the bench roster, in roster
    order, with the number of records assigned to that member whose status
    is not "Completed" (zero if none); a completed repair adds to no
    member's count. *)
Theorem bench_load_counts (df : DataFrame) :
  "Status" ∈ columns df -> "Assigned_To" ∈ columns df ->
  Rick.bench_load df = Ok (map (fun b => (b, open_load b df)) Rick.BENCH_TEAM)
  /\ (forall (r : row) b,
        cell_eq_str "Completed" (r !!! "Status") = true ->
        open_load b {| columns := columns df; rows := r :: rows df |}
        = open_load b df)
  /\ ((forall r : row, r ∈ rows df ->
         cell_eq_str "Completed" (r !!! "Status") = true) ->
      Rick.bench_load df = Ok (map (fun b => (b, 0)) Rick.BENCH_TEAM)).
Proof.
  intros Hs Ha.
  assert (Hload : Rick.bench_load df
                  = Ok (map (fun b => (b, open_load b df)) Rick.BENCH_TEAM)).
  { unfold Rick.bench_load. rewrite require_ok by done. rewrite bind_ok.
    rewrite require_ok by done. rewrite bind_ok, reindex_value_counts.
    f_equal. apply map_ext. intros b. unfold open_load.
    rewrite count_label_col. simpl. by rewrite filter_filter_and. }
  split; [exact Hload|]. split.
  - intros r b Hr. unfold open_load. simpl. by rewrite Hr.
  - intros Hall. rewrite Hload. f_equal. apply map_ext. intros b.
    f_equal. unfold open_load.
    induction (rows df) as [|r l IH]; [done|]. simpl.
    rewrite (Hall r) by left. simpl. apply IH. intros r' Hr'. apply Hall. by right.
Qed.

Lemma bench_load_counts_witness :
  "Status" ∈ columns late_frame /\ "Assigned_To" ∈ columns late_frame
  /\ Rick.bench_load late_frame
     = Ok [("Bench-1", 0); ("Bench-2", 1); ("Bench-3", 0); ("Bench-4", 0)].
Proof.
  assert (Hs : "Status" ∈ columns late_frame) by in_cols.
  assert (Ha : "Assigned_To" ∈ columns late_frame) by in_cols.
  split; [exact Hs|]. split; [exact Ha|].
  destruct (bench_load_counts late_frame Hs Ha) as [H _].
  rewrite H. reflexivity.
Defined.

(** ** Filters *)

Lemma loc_loc (df : DataFrame) (p q : row -> bool) :
  loc (loc df p) q = loc df (fun r => p r && q r).
Proof. unfold loc. simpl. by rewrite filter_filter_and. Qed.

Lemma loc_ext (df : DataFrame) (p q : row -> bool) :
  (forall r, p r = q r) -> loc df p = loc df q.
Proof. intros H. unfold loc. f_equal. by apply filter_ext. Qed.

Lemma loc_true (df : DataFrame) : loc df (fun _ => true) = df.
Proof.
  destruct df as [cols l]. unfold loc. simpl. f_equal.
  by apply filter_all.
Qed.


Lemma mapM_require_ok (df : DataFrame) (cs : list string) :
  (forall c, c ∈ cs -> c ∈ columns df) ->
  mapM_result (require df) cs = Ok (map (fun _ => tt) cs).
Proof.
  intros H. apply mapM_result_ok. intros c Hc. apply require_ok. by apply H.
Qed.

Lemma rick_filter_overdue_spec (F : Rick.filter_spec) (df : DataFrame) :
  "Overdue" ∈ columns df ->
  Rick.filter_overdue F df = Ok (loc df (overdue_selected (Rick.f_overdue F))).
Proof.
  intros Ho. unfold Rick.filter_overdue, overdue_selected.
  destruct (String.eqb (Rick.f_overdue F) "Only overdue").
  { by rewrite require_ok. }
  destruct (String.eqb (Rick.f_overdue F) "Not overdue").
  { by rewrite require_ok. }
  by rewrite loc_true.
Qed.

Lemma rick_filter_search_spec (E : Env) (cs : list string)
      (F : Rick.filter_spec) (df : DataFrame) :
  (forall c, c ∈ cs -> c ∈ columns df) ->
  Rick.filter_search E cs F df
  = mask ← search_mask E cs (Rick.f_search F); Ok (loc df mask).
Proof.
  intros Hcs. unfold Rick.filter_search, search_mask, query_of.
  destruct (str_truthy (strip (Rick.f_search F))).
  2:{ rewrite bind_ok. by rewrite loc_true. }
  rewrite (mapM_require_ok df (take 1 cs)).
  2:{ intros c Hc. apply Hcs. by apply (subseteq_take 1 cs). }
  rewrite (mapM_require_ok df (drop 1 cs)).
  2:{ intros c Hc. apply Hcs. by apply (subseteq_drop 1 cs). }
  rewrite bind_ok.
  by destruct (compile E (lower (strip (Rick.f_search F)))) as [m|e].
Qed.

Lemma rick_filter_spec (E : Env) (F : Rick.filter_spec) (df : DataFrame)
      (owner_col : string) (cs : list string) :
  "Status" ∈ columns df -> owner_col ∈ columns df -> "Overdue" ∈ columns df ->
  (forall c, c ∈ cs -> c ∈ columns df) ->
  (_ ← require df "Status";
   let df_f := loc df (fun r => isin (Rick.f_status F) (r !!! "Status")) in
   _ ← require df_f owner_col;
   let df_f := loc df_f (fun r => isin (Rick.f_owner F) (r !!! owner_col)) in
   df_f ← Rick.filter_overdue F df_f;
   Rick.filter_search E cs F df_f)
  = mask ← search_mask E cs (Rick.f_search F);
    Ok (loc df (rick_keeps F owner_col mask)).
Proof.
  intros Hs Ho Hv Hcs.
  rewrite require_ok by done. rewrite bind_ok. cbv zeta.
  rewrite require_ok by done. rewrite bind_ok.
  rewrite rick_filter_overdue_spec by done. rewrite bind_ok.
  rewrite rick_filter_search_spec by done.
  destruct (search_mask E cs (Rick.f_search F)) as [mask|e]; [|done].
  rewrite !bind_ok, !loc_loc. f_equal. apply loc_ext. intros r.
  unfold rick_keeps. by rewrite !andb_assoc.
Qed.








(** ** Idempotence of the filters *)

Lemma list_filter_idemp {A} (p : A -> bool) (l : list A) :
  List.filter p (List.filter p l) = List.filter p l.
Proof.
  rewrite filter_filter_and. apply filter_ext. intros a. by destruct (p a).
Qed.

Lemma row_filter_idemp (g : DataFrame -> result DataFrame) (df : DataFrame) :
  row_filter g -> (g df ≫= g) = g df.
Proof.
  intros Hg. destruct df as [cols l].
  destruct (Hg cols) as [[e He] | [p Hp]].
  - by rewrite He.
  - rewrite Hp, bind_ok, Hp. by rewrite list_filter_idemp.
Qed.

Lemma row_filter_select (c : string) (p : row -> bool) :
  row_filter (fun df => _ ← require df c; Ok (loc df p)).
Proof.
  intros cols. destruct (decide (c ∈ cols)) as [Hc | Hc].
  - right. exists p. intros l. by rewrite require_ok.
  - left. exists KeyError. intros l. by rewrite require_raise.
Qed.

Lemma row_filter_ok : row_filter Ok.
Proof.
  intros cols. right. exists (fun _ => true). intros l.
  by rewrite filter_all.
Qed.

Lemma row_filter_comp (g1 g2 : DataFrame -> result DataFrame) :
  row_filter g1 -> row_filter g2 -> row_filter (fun df => df' ← g1 df; g2 df').
Proof.
  intros H1 H2 cols. destruct (H1 cols) as [[e He] | [p Hp]].
  - left. exists e. intros l. by rewrite He.
  - destruct (H2 cols) as [[e He] | [q Hq]].
    + left. exists e. intros l. by rewrite Hp, bind_ok, He.
    + right. exists (fun r => p r && q r). intros l.
      by rewrite Hp, bind_ok, Hq, filter_filter_and.
Qed.

Lemma row_filter_ext (g1 g2 : DataFrame -> result DataFrame) :
  (forall df, g1 df = g2 df) -> row_filter g1 -> row_filter g2.
Proof.
  intros Heq H1 cols. destruct (H1 cols) as [[e He] | [p Hp]].
  - left. exists e. intros l. by rewrite <- Heq.
  - right. exists p. intros l. by rewrite <- Heq.
Qed.

Lemma row_filter_search (E : Env) (cs : list string) (search : string) :
  row_filter (fun df =>
    if str_truthy (strip search) then
      _ ← mapM_result (require df) (take 1 cs);
      m ← compile E (lower (strip search));
      _ ← mapM_result (require df) (drop 1 cs);
      Ok (loc df (fun r => existsb (fun c => contains E m c r) cs))
    else Ok df).
Proof.
  destruct (str_truthy (strip search)); [|apply row_filter_ok].
  intros cols.
  destruct (mapM_result (require {| columns := cols; rows := [] |}) (take 1 cs))
    as [u1|e1] eqn:H1.
  2:{ left. exists e1. intros l.
      change (mapM_result (require {| columns := cols; rows := l |}) (take 1 cs))
        with (mapM_result (require {| columns := cols; rows := [] |}) (take 1 cs)).
      by rewrite H1. }
  destruct (compile E (lower (strip search))) as [m|e2].
  2:{ left. exists e2. intros l.
      change (mapM_result (require {| columns := cols; rows := l |}) (take 1 cs))
        with (mapM_result (require {| columns := cols; rows := [] |}) (take 1 cs)).
      by rewrite H1. }
  destruct (mapM_result (require {| columns := cols; rows := [] |}) (drop 1 cs))
    as [u3|e3] eqn:H3.
  - right. exists (fun r => existsb (fun c => contains E m c r) cs). intros l.
    change (mapM_result (require {| columns := cols; rows := l |}))
      with (mapM_result (require {| columns := cols; rows := [] |})).
    by rewrite H1, H3.
  - left. exists e3. intros l.
    change (mapM_result (require {| columns := cols; rows := l |}))
      with (mapM_result (require {| columns := cols; rows := [] |})).
    by rewrite H1, H3.
Qed.

Lemma row_filter_selector (sel a b c : string) :
  row_filter (fun df =>
    if String.eqb sel a then
      _ ← require df c; Ok (loc df (fun r => cell_eq_str "Yes" (r !!! c)))
    else if String.eqb sel b then
      _ ← require df c; Ok (loc df (fun r => cell_eq_str "No" (r !!! c)))
    else Ok df).
Proof.
  destruct (String.eqb sel a); [apply row_filter_select|].
  destruct (String.eqb sel b); [apply row_filter_select | apply row_filter_ok].
Qed.

Lemma rick_custom_filter_rows (E : Env) (F : Rick.filter_spec) :
  row_filter (Rick.custom_filter E F).
Proof.
  eapply row_filter_ext;
    [| exact (row_filter_comp _ _
                (row_filter_select "Status"
                   (fun r => isin (Rick.f_status F) (r !!! "Status")))
                (row_filter_comp _ _
                   (row_filter_select "Phase_Owner"
                      (fun r => isin (Rick.f_owner F) (r !!! "Phase_Owner")))
                   (row_filter_comp _ _
                      (row_filter_selector (Rick.f_overdue F) "Only overdue"
                         "Not overdue" "Overdue")
                      (row_filter_search E ["Job_ID"; "Client"; "Item"]
                         (Rick.f_search F)))))].
  intros df. unfold Rick.custom_filter.
  destruct (require df "Status"); [|done]. rewrite !bind_ok. cbv zeta.
  destruct (require _ "Phase_Owner"); [|done]. by rewrite !bind_ok.
Qed.

Lemma rick_repair_filter_rows (E : Env) (F : Rick.filter_spec) :
  row_filter (Rick.repair_filter E F).
Proof.
  eapply row_filter_ext;
    [| exact (row_filter_comp _ _
                (row_filter_select "Status"
                   (fun r => isin (Rick.f_status F) (r !!! "Status")))
                (row_filter_comp _ _
                   (row_filter_select "Assigned_To"
                      (fun r => isin (Rick.f_owner F) (r !!! "Assigned_To")))
                   (row_filter_comp _ _
                      (row_filter_selector (Rick.f_overdue F) "Only overdue"
                         "Not overdue" "Overdue")
                      (row_filter_search E ["Job_ID"; "Client"; "Item"; "Repair_Type"]
                         (Rick.f_search F)))))].
  intros df. unfold Rick.repair_filter.
  destruct (require df "Status"); [|done]. rewrite !bind_ok. cbv zeta.
  destruct (require _ "Assigned_To"); [|done]. by rewrite !bind_ok.
Qed.

Lemma jewelry_custom_filter_rows (E : Env) (F : Jewelry.filter_spec) :
  row_filter (Jewelry.custom_filter E F).
Proof.
  eapply row_filter_ext;
    [| exact (row_filter_comp _ _
                (row_filter_select "Status"
                   (fun r => isin (Jewelry.f_status F) (r !!! "Status")))
                (row_filter_comp _ _
                   (row_filter_selector (Jewelry.f_paid F) "Paid" "Unpaid" "Paid")
                   (row_filter_search E ["Job_ID"; "Client"; "Item"]
                      (Jewelry.f_search F))))].
  intros df. unfold Jewelry.custom_filter.
  destruct (require df "Status"); [|done]. by rewrite !bind_ok.
Qed.

(** C8.  The filters are idempotent: for every frame and every filter
    specification, filtering the output of a filter again with the same
    specification gives the same output (and a filter that raises has no
    output to filter again). *)
Theorem filter_idempotent (E : Env) (df : DataFrame) :
  (forall F : Rick.filter_spec,
     (Rick.custom_filter E F df ≫= Rick.custom_filter E F)
     = Rick.custom_filter E F df
     /\ (Rick.repair_filter E F df ≫= Rick.repair_filter E F)
        = Rick.repair_filter E F df)
  /\ (forall F : Jewelry.filter_spec,
        (Jewelry.custom_filter E F df ≫= Jewelry.custom_filter E F)
        = Jewelry.custom_filter E F df)
  /\ (forall (F : Rick.filter_spec) out,
        Rick.custom_filter E F df = Ok out ->
        Rick.custom_filter E F out = Ok out)
  /\ (forall (F : Rick.filter_spec) out,
        Rick.repair_filter E F df = Ok out ->
        Rick.repair_filter E F out = Ok out)
  /\ (forall (F : Jewelry.filter_spec) out,
        Jewelry.custom_filter E F df = Ok out ->
        Jewelry.custom_filter E F out = Ok out).
Proof.
  assert (Hok : forall g out, row_filter g -> g df = Ok out -> g out = Ok out).
  { intros g out Hg Hout. pose proof (row_filter_idemp g df Hg) as H.
    by rewrite Hout, bind_ok in H. }
  split; [intros F; split; apply row_filter_idemp|].
  { apply rick_custom_filter_rows. }
  { apply rick_repair_filter_rows. }
  split; [intros F; apply row_filter_idemp, jewelry_custom_filter_rows|].
  split; [intros F out; apply Hok, rick_custom_filter_rows|].
  split; [intros F out; apply Hok, rick_repair_filter_rows|].
  intros F out; apply Hok, jewelry_custom_filter_rows.
Qed.

Lemma filter_idempotent_witness :
  Rick.custom_filter env0 (searching "RING") three_jobs
  = Ok (loc three_jobs (fun r => cell_eq_str "C-1" (r !!! "Job_ID")))
  /\ Rick.custom_filter env0 (searching "RING")
       (loc three_jobs (fun r => cell_eq_str "C-1" (r !!! "Job_ID")))
     = Ok (loc three_jobs (fun r => cell_eq_str "C-1" (r !!! "Job_ID"))).
Proof.
  assert (H : Rick.custom_filter env0 (searching "RING") three_jobs
              = Ok (loc three_jobs (fun r => cell_eq_str "C-1" (r !!! "Job_ID"))))
    by reflexivity.
  split; [exact H|].
  destruct (filter_idempotent env0 three_jobs) as (_ & _ & Hc & _).
  exact (Hc (searching "RING") _ H).
Defined.

(** ** Trimming *)







(** ** Appending a record *)

Lemma fill_missing_lookup (cols : list string) (r : row) (c : string) :
  fill_missing cols r !! c
  = match r !! c with
    | Some v => Some v
    | None => if bool_decide (c ∈ cols) then Some NaN else None
    end.
Proof.
  revert c. induction cols as [|c' cols IH]; intros c; simpl.
  - by destruct (r !! c).
  - assert (Hin : bool_decide (c ∈ c' :: cols)
                  = bool_decide (c = c') || bool_decide (c ∈ cols)).
    { apply eq_true_iff_eq. rewrite orb_true_iff, !bool_decide_eq_true.
      apply elem_of_cons. }
    rewrite Hin. clear Hin.
    destruct (decide (c = c')) as [-> | Hne].
    + rewrite bool_decide_eq_true_2 by done. simpl.
      destruct (fill_missing cols r !! c') as [v'|] eqn:Hc'.
      * rewrite Hc'. rewrite IH in Hc'. destruct (r !! c'); [congruence|].
        destruct (bool_decide (c' ∈ cols)); congruence.
      * rewrite lookup_insert_eq. rewrite IH in Hc'. by destruct (r !! c').
    + rewrite bool_decide_eq_false_2 by done. simpl.
      destruct (fill_missing cols r !! c') as [v'|]; [apply IH|].
      rewrite lookup_insert_ne by done. apply IH.
Qed.

Lemma fill_missing_some (cols : list string) (r : row) (c : string) (v : cell) :
  r !! c = Some v -> fill_missing cols r !! c = Some v.
Proof. intros H. by rewrite fill_missing_lookup, H. Qed.

Lemma concat_row_rows (df : DataFrame) (new_row : list (string * cell)) :
  rows (concat_row df new_row)
  = (map (fill_missing (columns (concat_row df new_row))) (rows df)
     ++ [fill_missing (columns (concat_row df new_row)) (list_to_map new_row)])%list.
Proof. unfold concat_row. simpl. by rewrite map_app. Qed.


(** ** Intake *)

(** A column name outside a list of column names, by evaluation. *)
Ltac not_in_cols := apply (bool_decide_unpack _); vm_compute; exact I.







(** Reading a literal column in a record given by its items. *)
Ltac lookup_items :=
  rewrite ?list_to_map_cons; simpl fst; simpl snd;
  repeat (rewrite lookup_insert_ne by done);
  apply lookup_insert_eq.



Lemma choices_trimmed :
  forallb trimmed (Rick.CUSTOM_STATUSES ++ Rick.REPAIR_STATUSES
                   ++ Rick.ALL_ASSIGNEES ++ Rick.COMPLEXITY
                   ++ Jewelry.CUSTOM_STATUSES ++ Jewelry.REPAIR_STATUSES)%list
  = true.
Proof. reflexivity. Qed.



(** ** The stored collection after an insert, an edit, a load *)

Lemma balance_row_consistent (E : Env) (r : row) :
  balance_consistent (balance_row E r).
Proof.
  exists (price_of E r), (deposit_of E r). unfold balance_row.
  split; [by simplify_map_eq|]. split; [by simplify_map_eq|].
  split; by simplify_map_eq.
Qed.

Lemma derived_row_consistent (E : Env) (date_col : string) (r : row) :
  date_col ∈ ["Due_Date"; "Promised_Date"] ->
  derived_consistent E date_col (derived_row E date_col r).
Proof.
  intros Hdc. split.
  - destruct (balance_row_consistent E r) as (t & d & Ht & Hd & Hr & Hp).
    exists t, d. unfold derived_row. by rewrite !lookup_insert_ne.
  - unfold derived_row at 1. rewrite lookup_insert_eq. do 3 f_equal.
    + unfold due_text, row_get, derived_row. f_equal.
      rewrite lookup_insert_ne; [done|by list_cases Hdc].
    + unfold status_text, row_get, derived_row. by rewrite lookup_insert_ne.
Qed.











Lemma elem_of_map_row (f : row -> row) (l : list row) (r' : row) :
  r' ∈ map f l -> exists r, r' = f r /\ r ∈ l.
Proof. apply list_elem_of_fmap. Qed.




(** * The scenarios of the specification, evaluated *)

(** A rejected submission leaves the store as it is. *)
Example scenario_rejected :
  Rick.add_custom env0 (rick_form "") empty_store
  = Ok (empty_store, [st_error "Job ID and Client are required."])
  /\ Jewelry.add_custom env0 (jewelry_form "") empty_store
     = Ok (empty_store, [st_error "Job ID is required."]).
Proof. split; reflexivity. Qed.

(** Price 100 and deposit 100: admitted with nothing remaining, paid. *)
Example scenario_paid_in_full :
  exists st' r',
    Rick.add_custom env0 (rick_form "C-9") empty_store
    = Ok (st', [st_success "Custom job added."])
    /\ rows (session_df st') = [r']
    /\ r' !! "Job_ID" = Some (CStr "C-9")
    /\ r' !! "Item" = Some (CStr "Ring")
    /\ r' !! "Remaining_Balance" = Some (CNum F64.zero)
    /\ r' !! "Paid" = Some (CStr "Yes")
    /\ r' !! "Overdue" = Some (CStr "No").
Proof. eexists. eexists. repeat split; reflexivity. Qed.

(** Promised yesterday: overdue while in progress, not once completed; a
    date equal to today, a blank date and an unreadable date are not
    overdue. *)
Example scenario_overdue :
  Rick.is_overdue env0 "2026-03-09" "In Progress" = Ok "Yes"
  /\ Rick.is_overdue env0 "2026-03-09" "Completed" = Ok "No"
  /\ Rick.is_overdue env0 "2026-03-10" "In Progress" = Ok "No"
  /\ Rick.is_overdue env0 "   " "In Progress" = Ok "No"
  /\ Rick.is_overdue env0 "next week" "In Progress" = Ok "No".
Proof. repeat split; reflexivity. Qed.

(** One consultation and two completed jobs. *)
Example scenario_histogram :
  Rick.stage_counts Rick.CUSTOM_STATUSES three_jobs
  = Ok [("Consultation", 1); ("Design Sketch", 0); ("CAD Modeling", 0);
        ("3D Approval", 0); ("Casting", 0); ("Stone Setting", 0);
        ("Final Polish", 0); ("Ready for Pickup", 0); ("Completed", 2)].
Proof. reflexivity. Qed.

(** The query "RING" keeps the engagement ring only. *)
Example scenario_search :
  (rows <$> Rick.custom_filter env0 (searching "RING") three_jobs)
  = Ok [job "C-1" "Engagement ring" "Consultation"].
Proof. reflexivity. Qed.

(** The view of the three jobs: price text read as a number, deposit text
    that is not a number read as 0.0, all overdue but the completed ones. *)
Example scenario_view :
  (map (fun r : row => (r !! "Total_Price", r !! "Deposit_Paid",
                        r !! "Remaining_Balance", r !! "Paid", r !! "Overdue"))
     <$> (rows <$> Rick.recompute_view env0 "Due_Date" three_jobs))
  = Ok [(Some (CNum (F64.of_Z 100)), Some (CNum F64.zero),
         Some (CNum (F64.of_Z 100)), Some (CStr "No"), Some (CStr "Yes"));
        (Some (CNum (F64.of_Z 100)), Some (CNum F64.zero),
         Some (CNum (F64.of_Z 100)), Some (CStr "No"), Some (CStr "No"));
        (Some (CNum (F64.of_Z 100)), Some (CNum F64.zero),
         Some (CNum (F64.of_Z 100)), Some (CStr "No"), Some (CStr "No"))].
Proof. reflexivity. Qed.

(** 100 - 30 leaves 70; a deposit above the price leaves 0. *)
Example scenario_remaining :
  Jewelry.compute_remaining (F64.of_Z 100) (F64.of_Z 30) = F64.of_Z 70
  /\ Jewelry.compute_remaining (F64.of_Z 30) (F64.of_Z 100) = F64.zero.
Proof. split; reflexivity. Qed.

(** * Further properties of the code *)

(** ** Recomputing twice *)

Lemma price_of_coerced (E : Env) (r : row) (t : float) :
  r !! "Total_Price" = Some (CNum t) -> F64.is_nan t = false -> price_of E r = t.
Proof.
  intros Hr Ht. unfold price_of. rewrite (lookup_total_correct _ _ _ Hr).
  simpl. unfold fillna0. by rewrite Ht.
Qed.

Lemma deposit_of_coerced (E : Env) (r : row) (d : float) :
  r !! "Deposit_Paid" = Some (CNum d) -> F64.is_nan d = false -> deposit_of E r = d.
Proof.
  intros Hr Hd. unfold deposit_of. rewrite (lookup_total_correct _ _ _ Hr).
  simpl. unfold fillna0. by rewrite Hd.
Qed.

Lemma balance_row_lookup (E : Env) (r : row) :
  balance_row E r !! "Total_Price" = Some (CNum (price_of E r))
  /\ balance_row E r !! "Deposit_Paid" = Some (CNum (deposit_of E r)).
Proof. unfold balance_row. split; by simplify_map_eq. Qed.

Lemma balance_row_idemp (E : Env) (r : row) :
  balance_row E (balance_row E r) = balance_row E r.
Proof.
  destruct (balance_row_lookup E r) as [Ht Hd].
  assert (H1 : price_of E (balance_row E r) = price_of E r).
  { apply price_of_coerced; [done|apply fillna0_not_nan]. }
  assert (H2 : deposit_of E (balance_row E r) = deposit_of E r).
  { apply deposit_of_coerced; [done|apply fillna0_not_nan]. }
  unfold balance_row at 1. unfold remaining_of. rewrite H1, H2.
  fold (remaining_of E r).
  apply map_eq. intros c. unfold balance_row. rewrite !lookup_insert.
  repeat (case_decide; [done|]). done.
Qed.

Lemma balance_row_fixed (E : Env) (r : row) :
  (forall c, c ∈ ["Total_Price"; "Deposit_Paid"; "Remaining_Balance"; "Paid"] ->
             r !! c = balance_row E r !! c) ->
  balance_row E r = r.
Proof.
  intros H. apply map_eq. intros c.
  destruct (decide (c ∈ ["Total_Price"; "Deposit_Paid"; "Remaining_Balance"; "Paid"]))
    as [Hc | Hc]; [by rewrite <- H|].
  unfold balance_row. rewrite !lookup_insert_ne; [done|intros <-; apply Hc; in_cols..].
Qed.

Lemma derived_row_idemp (E : Env) (date_col : string) (r : row) :
  date_col <> "Overdue" ->
  derived_row E date_col (derived_row E date_col r) = derived_row E date_col r.
Proof.
  intros Hdc.
  assert (Hb : balance_row E (derived_row E date_col r)
               = <["Overdue" := CStr (overdue_spec E
                      (str_of_cell E (row_get (balance_row E r) date_col (CStr "")))
                      (str_of_cell E (row_get (balance_row E r) "Status" (CStr ""))))]>
                   (balance_row E r)).
  { destruct (balance_row_lookup E r) as [Ht Hd].
    assert (H1 : price_of E (derived_row E date_col r) = price_of E r).
    { apply price_of_coerced; [|apply fillna0_not_nan].
      unfold derived_row. by rewrite lookup_insert_ne. }
    assert (H2 : deposit_of E (derived_row E date_col r) = deposit_of E r).
    { apply deposit_of_coerced; [|apply fillna0_not_nan].
      unfold derived_row. by rewrite lookup_insert_ne. }
    unfold balance_row at 1. unfold remaining_of. rewrite H1, H2.
    fold (remaining_of E r). unfold derived_row. cbv zeta.
    apply map_eq. intros c. unfold balance_row. rewrite !lookup_insert.
    repeat (case_decide; [subst; done|]). done. }
  unfold derived_row at 1. cbv zeta. rewrite Hb. unfold row_get.
  rewrite !(lookup_insert_ne _ "Overdue") by done.
  fold (row_get (balance_row E r) date_col (CStr "")).
  fold (row_get (balance_row E r) "Status" (CStr "")).
  unfold derived_row. cbv zeta. by rewrite insert_insert_eq.
Qed.

Lemma with_col_idemp (cols : list string) (c : string) :
  with_col (with_col cols c) c = with_col cols c.
Proof. apply with_col_in. apply elem_of_with_col. by right. Qed.

Lemma derived_cols_in (cols : list string) (c : string) :
  c ∈ cols \/ c ∈ ["Remaining_Balance"; "Paid"; "Overdue"] -> c ∈ derived_cols cols.
Proof.
  unfold derived_cols. rewrite !elem_of_with_col.
  intros [H | H]; [tauto|]. list_cases H; tauto.
Qed.

Lemma balance_cols_in (cols : list string) (c : string) :
  c ∈ cols \/ c ∈ ["Remaining_Balance"; "Paid"] -> c ∈ balance_cols cols.
Proof.
  unfold balance_cols. rewrite !elem_of_with_col.
  intros [H | H]; [tauto|]. list_cases H; tauto.
Qed.

Lemma derived_cols_idemp (cols : list string) :
  derived_cols (derived_cols cols) = derived_cols cols.
Proof.
  assert (H : forall c, c ∈ ["Remaining_Balance"; "Paid"; "Overdue"] ->
                        with_col (derived_cols cols) c = derived_cols cols).
  { intros c Hc. apply with_col_in, derived_cols_in. by right. }
  unfold derived_cols at 1.
  rewrite (H "Remaining_Balance") by in_cols.
  rewrite (H "Paid") by in_cols.
  apply H. in_cols.
Qed.

Lemma balance_cols_idemp (cols : list string) :
  balance_cols (balance_cols cols) = balance_cols cols.
Proof.
  assert (H : forall c, c ∈ ["Remaining_Balance"; "Paid"] ->
                        with_col (balance_cols cols) c = balance_cols cols).
  { intros c Hc. apply with_col_in, balance_cols_in. by right. }
  unfold balance_cols at 1.
  rewrite (H "Remaining_Balance") by in_cols.
  apply H. in_cols.
Qed.

Lemma rick_pass_twice (E : Env) (date_col : string) (df : DataFrame)
      (pass1 pass2 : DataFrame -> result DataFrame) :
  date_col <> "Overdue" ->
  (pass1 = Rick.recompute E date_col \/ pass1 = Rick.recompute_view E date_col) ->
  (pass2 = Rick.recompute E date_col \/ pass2 = Rick.recompute_view E date_col) ->
  (pass1 df ≫= pass2) = pass1 df.
Proof.
  intros Hdc H1 H2.
  destruct (decide ("Total_Price" ∈ columns df /\ "Deposit_Paid" ∈ columns df))
    as [[Ht Hd] | Hm].
  - assert (Hp : forall p d, "Total_Price" ∈ columns d -> "Deposit_Paid" ∈ columns d ->
               p = Rick.recompute E date_col \/ p = Rick.recompute_view E date_col ->
               p d = Ok {| columns := derived_cols (columns d);
                           rows := map (derived_row E date_col) (rows d) |}).
    { intros p d ? ? [-> | ->];
        [by apply rick_recompute_rows | by apply rick_recompute_view_rows]. }
    rewrite (Hp pass1 df Ht Hd H1), bind_ok.
    rewrite (Hp pass2) by (done || (simpl; apply derived_cols_in; by left)).
    simpl. rewrite derived_cols_idemp, map_map. do 2 f_equal.
    apply map_ext. intros r. by apply derived_row_idemp.
  - assert (Hm' : "Total_Price" ∉ columns df \/ "Deposit_Paid" ∉ columns df).
    { destruct (decide ("Total_Price" ∈ columns df)); [right|left]; tauto. }
    destruct H1 as [-> | ->].
    + by rewrite (rick_recompute_missing E date_col df).
    + by rewrite (rick_recompute_view_missing E date_col df).
Qed.

Lemma jewelry_pass_twice (E : Env) (df : DataFrame)
      (pass1 pass2 : DataFrame -> result DataFrame) :
  (pass1 = Jewelry.recompute E \/ pass1 = Jewelry.recompute_view E) ->
  (pass2 = Jewelry.recompute E \/ pass2 = Jewelry.recompute_view E) ->
  (pass1 df ≫= pass2) = pass1 df.
Proof.
  intros H1 H2.
  destruct (decide ("Total_Price" ∈ columns df /\ "Deposit_Paid" ∈ columns df))
    as [[Ht Hd] | Hm].
  - assert (Hp : forall p d, "Total_Price" ∈ columns d -> "Deposit_Paid" ∈ columns d ->
               p = Jewelry.recompute E \/ p = Jewelry.recompute_view E ->
               p d = Ok {| columns := balance_cols (columns d);
                           rows := map (balance_row E) (rows d) |}).
    { intros p d ? ? [-> | ->];
        [by apply jewelry_recompute_rows | by apply jewelry_recompute_view_rows]. }
    rewrite (Hp pass1 df Ht Hd H1), bind_ok.
    rewrite (Hp pass2) by (done || (simpl; apply balance_cols_in; by left)).
    simpl. rewrite balance_cols_idemp, map_map. do 2 f_equal.
    apply map_ext. intros r. by apply balance_row_idemp.
  - assert (Hm' : "Total_Price" ∉ columns df \/ "Deposit_Paid" ∉ columns df).
    { destruct (decide ("Total_Price" ∈ columns df)); [right|left]; tauto. }
    destruct H1 as [-> | ->].
    + by rewrite (jewelry_recompute_missing E df).
    + by rewrite (jewelry_recompute_view_missing E df).
Qed.

(** X1.  Recomputing is idempotent.  In both variants a recomputation pass
    (the one of the save path or the one at the head of a view) applied to
    the output of a recomputation pass returns that output unchanged: once a
    collection has been saved, the recomputation at the head of the next view
    and any further save leave every cell and every column as they are.  A
    pass that raises has no output to recompute. *)
Theorem recompute_idempotent (E : Env) (df : DataFrame) :
  (forall date_col pass1 pass2,
     date_col ∈ ["Due_Date"; "Promised_Date"] ->
     pass1 ∈ [Rick.recompute E date_col; Rick.recompute_view E date_col] ->
     pass2 ∈ [Rick.recompute E date_col; Rick.recompute_view E date_col] ->
     (pass1 df ≫= pass2) = pass1 df)
  /\ (forall pass1 pass2,
        pass1 ∈ [Jewelry.recompute E; Jewelry.recompute_view E] ->
        pass2 ∈ [Jewelry.recompute E; Jewelry.recompute_view E] ->
        (pass1 df ≫= pass2) = pass1 df).
Proof.
  split.
  - intros date_col pass1 pass2 Hdc H1 H2.
    apply (rick_pass_twice E date_col).
    + by list_cases Hdc.
    + list_cases H1; tauto.
    + list_cases H2; tauto.
  - intros pass1 pass2 H1 H2. apply (jewelry_pass_twice E).
    + list_cases H1; tauto.
    + list_cases H2; tauto.
Qed.

Lemma recompute_idempotent_witness :
  (Rick.recompute env0 "Due_Date" late_frame ≫= Rick.recompute_view env0 "Due_Date")
  = Rick.recompute env0 "Due_Date" late_frame.
Proof.
  apply (proj1 (recompute_idempotent env0 late_frame) "Due_Date"
           (Rick.recompute env0 "Due_Date") (Rick.recompute_view env0 "Due_Date")).
  - in_cols.
  - apply list_elem_of_here.
  - apply list_elem_of_further, list_elem_of_here.
Defined.


(** ** Values computed at insert time *)

Lemma with_col_fixed (cols : list string) (c : string) :
  with_col cols c = cols <-> c ∈ cols.
Proof.
  split; [|apply with_col_in].
  unfold with_col. case_bool_decide as Hc; [done|].
  intros H. apply (f_equal length) in H. rewrite length_app in H. simpl in H. lia.
Qed.

Lemma balance_cols_fixed (cols : list string) :
  balance_cols cols = cols <-> "Remaining_Balance" ∈ cols /\ "Paid" ∈ cols.
Proof.
  split.
  - intros H. split; rewrite <- H; apply balance_cols_in; right; in_cols.
  - intros [Hr Hp]. unfold balance_cols.
    rewrite (with_col_in cols "Remaining_Balance") by done. by apply with_col_in.
Qed.

Lemma derived_cols_fixed (cols : list string) :
  derived_cols cols = cols
  <-> "Remaining_Balance" ∈ cols /\ "Paid" ∈ cols /\ "Overdue" ∈ cols.
Proof.
  split.
  - intros H. repeat split; rewrite <- H; apply derived_cols_in; right; in_cols.
  - intros (Hr & Hp & Ho). unfold derived_cols.
    rewrite (with_col_in cols "Remaining_Balance") by done.
    rewrite (with_col_in cols "Paid") by done. by apply with_col_in.
Qed.

Lemma map_fixed {A} (f : A -> A) (l : list A) :
  map f l = l <-> forall x, x ∈ l -> f x = x.
Proof.
  induction l as [|a l IH]; simpl.
  - split; [intros _ x Hx; by apply elem_of_nil in Hx|done].
  - split.
    + intros [= Ha Hl] x Hx. apply elem_of_cons in Hx as [-> | Hx]; [done|].
      by apply IH.
    + intros H. f_equal; [apply H; left|apply IH; intros x Hx; apply H; by right].
Qed.

Lemma jewelry_recompute_fixed (E : Env) (df : DataFrame) :
  Jewelry.recompute E df = Ok df
  <-> (forall c, c ∈ ["Total_Price"; "Deposit_Paid"; "Remaining_Balance"; "Paid"] ->
                 c ∈ columns df)
      /\ forall r, r ∈ rows df -> balance_row E r = r.
Proof.
  destruct (decide ("Total_Price" ∈ columns df /\ "Deposit_Paid" ∈ columns df))
    as [[Ht Hd] | Hm].
  - rewrite jewelry_recompute_rows by done. destruct df as [cols l]. simpl in *.
    split.
    + intros [= Hc Hl].
      apply balance_cols_fixed in Hc as [Hr Hp].
      split; [|exact (proj1 (map_fixed _ _) Hl)]. intros c Hc. by list_cases Hc.
    + intros [Hc Hl]. f_equal. f_equal.
      * apply balance_cols_fixed. split; apply Hc; in_cols.
      * by apply map_fixed.
  - assert (Hm' : "Total_Price" ∉ columns df \/ "Deposit_Paid" ∉ columns df).
    { destruct (decide ("Total_Price" ∈ columns df)); [right|left]; tauto. }
    rewrite (jewelry_recompute_missing E df) by done. split; [done|].
    intros [Hc _]. exfalso. apply Hm. split; apply Hc; in_cols.
Qed.

Lemma finite_not_nan (x : float) : F64.is_finite x = true -> F64.is_nan x = false.
Proof. by destruct x. Qed.

Lemma sub_finite_not_nan (x y : float) :
  F64.is_finite x = true -> F64.is_finite y = true ->
  F64.is_nan (F64.sub x y) = false.
Proof.
  intros Hx Hy. destruct (F64.is_nan (F64.sub x y)) eqn:Hn; [|done].
  apply sub_nan_iff in Hn as (s & -> & _); [done|by apply finite_not_nan..].
Qed.

Lemma compute_remaining_clip (t d : float) :
  F64.is_nan (F64.sub t d) = false ->
  Jewelry.compute_remaining t d = clip_lower F64.zero (F64.sub t d).
Proof.
  intros Hn. unfold Jewelry.compute_remaining, clip_lower. cbv zeta.
  by rewrite Hn.
Qed.

(** A record that holds two finite amounts, and the remaining balance and
    paid flag the insert handlers compute from them, is left as it is by the
    recomputation of the balance. *)
Lemma balance_row_new (E : Env) (r : row) (t d : float) :
  F64.is_finite t = true -> F64.is_finite d = true ->
  r !! "Total_Price" = Some (CNum t) ->
  r !! "Deposit_Paid" = Some (CNum d) ->
  r !! "Remaining_Balance" = Some (CNum (Jewelry.compute_remaining t d)) ->
  r !! "Paid" = Some (CStr (if F64.eqb (Jewelry.compute_remaining t d) F64.zero
                            then "Yes" else "No")) ->
  balance_row E r = r.
Proof.
  intros Ht Hd Hrt Hrd Hrr Hrp.
  assert (Hp : price_of E r = t).
  { by apply price_of_coerced; [|apply finite_not_nan]. }
  assert (Hq : deposit_of E r = d).
  { by apply deposit_of_coerced; [|apply finite_not_nan]. }
  assert (Hrem : remaining_of E r = Jewelry.compute_remaining t d).
  { unfold remaining_of. rewrite Hp, Hq.
    symmetry. by apply compute_remaining_clip, sub_finite_not_nan. }
  apply balance_row_fixed. intros c Hc.
  unfold balance_row. rewrite Hrem, Hp, Hq. unfold paid_label.
  list_cases Hc; by simplify_map_eq.
Qed.

Lemma balance_row_fill (E : Env) (cols : list string) (r : row) :
  balance_row E r = r -> balance_row E (fill_missing cols r) = fill_missing cols r.
Proof.
  intros H. destruct (balance_row_lookup E r) as [Ht Hd]. rewrite H in Ht, Hd.
  assert (Hp : price_of E (fill_missing cols r) = price_of E r).
  { unfold price_of.
    by rewrite (lookup_total_correct _ _ _ (fill_missing_some cols r _ _ Ht)),
               (lookup_total_correct _ _ _ Ht). }
  assert (Hq : deposit_of E (fill_missing cols r) = deposit_of E r).
  { unfold deposit_of.
    by rewrite (lookup_total_correct _ _ _ (fill_missing_some cols r _ _ Hd)),
               (lookup_total_correct _ _ _ Hd). }
  apply balance_row_fixed. intros c Hc.
  assert (Hb : balance_row E (fill_missing cols r) !! c = balance_row E r !! c).
  { unfold balance_row, remaining_of. rewrite Hp, Hq.
    list_cases Hc; by simplify_map_eq. }
  rewrite Hb, H.
  destruct (r !! c) as [v|] eqn:Hv; [by apply fill_missing_some|].
  exfalso. rewrite <- H in Hv. unfold balance_row in Hv.
  list_cases Hc; by simplify_map_eq.
Qed.

Lemma concat_row_recomputed (E : Env) (df : DataFrame) (new_row : list (string * cell)) :
  Jewelry.recompute E df = Ok df ->
  balance_row E (list_to_map new_row) = list_to_map new_row ->
  Jewelry.recompute E (concat_row df new_row) = Ok (concat_row df new_row).
Proof.
  intros Hdf Hnew. apply jewelry_recompute_fixed in Hdf as [Hc Hr].
  apply jewelry_recompute_fixed. split.
  - intros c H. unfold concat_row. simpl. apply elem_of_app. left. by apply Hc.
  - intros r. rewrite concat_row_rows. intros H.
    apply elem_of_app in H as [H | H].
    + apply elem_of_map_row in H as (r0 & -> & H0). by apply balance_row_fill, Hr.
    + apply list_elem_of_singleton in H as ->. by apply balance_row_fill.
Qed.

Lemma jewelry_view_fixed (E : Env) (df : DataFrame) :
  Jewelry.recompute E df = Ok df -> Jewelry.recompute_view E df = Ok df.
Proof.
  intros H.
  pose proof (proj1 (jewelry_recompute_fixed E df) H) as [Hc _].
  rewrite jewelry_recompute_view_rows by (apply Hc; in_cols).
  rewrite <- H. symmetry. apply jewelry_recompute_rows; apply Hc; in_cols.
Qed.

(** X3.  In the generic variant, where an insert does not recompute, the
    values an insert handler computes for the new record are the recomputed
    ones when price and deposit are finite: if the recomputation leaves the
    stored collection unchanged, it also leaves unchanged the collection
    stored after submitting the custom or the repair form (accepted or
    rejected), both in the save path and at the head of the next view. *)
Theorem insert_keeps_recomputed (E : Env) (st : store) :
  Jewelry.recompute E (session_df st) = Ok (session_df st) ->
  (forall (f : Jewelry.custom_form) st' msgs,
     F64.is_finite (Jewelry.total_price f) = true ->
     F64.is_finite (Jewelry.deposit_paid f) = true ->
     Jewelry.add_custom E f st = Ok (st', msgs) ->
     Jewelry.recompute E (session_df st') = Ok (session_df st')
     /\ Jewelry.recompute_view E (session_df st') = Ok (session_df st'))
  /\ (forall (f : Jewelry.repair_form) st' msgs,
        F64.is_finite (Jewelry.rep_total_price f) = true ->
        F64.is_finite (Jewelry.rep_deposit_paid f) = true ->
        Jewelry.add_repair E f st = Ok (st', msgs) ->
        Jewelry.recompute E (session_df st') = Ok (session_df st')
        /\ Jewelry.recompute_view E (session_df st') = Ok (session_df st')).
Proof.
  intros Hst. split.
  - intros f st' msgs Ht Hd Hadd.
    assert (H : Jewelry.recompute E (session_df st') = Ok (session_df st'));
      [|split; [done|by apply jewelry_view_fixed]].
    unfold Jewelry.add_custom in Hadd.
    destruct (negb (str_truthy (strip (Jewelry.job_id f)))); [by injection Hadd as <- _|].
    destruct (negb (str_truthy (strip (Jewelry.client f)))); [by injection Hadd as <- _|].
    simpl in Hadd. injection Hadd as <- _. cbn [session_df].
    apply concat_row_recomputed; [done|].
    by apply (balance_row_new E _ (Jewelry.total_price f) (Jewelry.deposit_paid f)).
  - intros f st' msgs Ht Hd Hadd.
    assert (H : Jewelry.recompute E (session_df st') = Ok (session_df st'));
      [|split; [done|by apply jewelry_view_fixed]].
    unfold Jewelry.add_repair in Hadd.
    destruct (negb (str_truthy (strip (Jewelry.rep_job_id f))));
      [by injection Hadd as <- _|].
    destruct (negb (str_truthy (strip (Jewelry.rep_client f))));
      [by injection Hadd as <- _|].
    simpl in Hadd. injection Hadd as <- _. cbn [session_df].
    apply concat_row_recomputed; [done|].
    by apply (balance_row_new E _ (Jewelry.rep_total_price f)
                (Jewelry.rep_deposit_paid f)).
Qed.

Lemma jewelry_seed_recomputed (E : Env) (kind : string) :
  Jewelry.recompute E (Jewelry.load_or_init_csv E None kind).1
  = Ok (Jewelry.load_or_init_csv E None kind).1.
Proof.
  apply jewelry_recompute_fixed. unfold Jewelry.load_or_init_csv.
  destruct (String.eqb kind "custom"); cbn [fst]; split.
  - intros c Hc. list_cases Hc; in_cols.
  - intros r Hr. apply list_elem_of_singleton in Hr as ->.
    apply (balance_row_new E _ (F64.of_Z 1200) (F64.of_Z 200));
      [reflexivity|reflexivity|lookup_items..].
  - intros c Hc. list_cases Hc; in_cols.
  - intros r Hr. apply list_elem_of_singleton in Hr as ->.
    apply (balance_row_new E _ (F64.of_Z 120) F64.zero);
      [reflexivity|reflexivity|lookup_items..].
Qed.

Lemma insert_keeps_recomputed_witness :
  exists st',
    Jewelry.add_custom env0 (jewelry_form "C-7")
      {| session_df := Jewelry.custom_seed env0; csv_file := None |}
    = Ok (st', [st_success "Custom job added."])
    /\ length (rows (session_df st')) = 2
    /\ Jewelry.recompute_view env0 (session_df st') = Ok (session_df st').
Proof.
  eexists. split; [reflexivity|]. split; [reflexivity|].
  eapply (proj1 (insert_keeps_recomputed env0
                   {| session_df := Jewelry.custom_seed env0; csv_file := None |}
                   (jewelry_seed_recomputed env0 "custom"))
            (jewelry_form "C-7")).
  - reflexivity.
  - reflexivity.
  - reflexivity.
Defined.









(** ** The repair forms *)





(** ** What an insert leaves in place *)





(** ** The filters of jewelryapp.py *)

Lemma jewelry_filter_paid_spec (F : Jewelry.filter_spec) (df : DataFrame) :
  "Paid" ∈ columns df ->
  Jewelry.filter_paid F df = Ok (loc df (paid_selected (Jewelry.f_paid F))).
Proof.
  intros Ho. unfold Jewelry.filter_paid, paid_selected.
  destruct (String.eqb (Jewelry.f_paid F) "Paid").
  { by rewrite require_ok. }
  destruct (String.eqb (Jewelry.f_paid F) "Unpaid").
  { by rewrite require_ok. }
  by rewrite loc_true.
Qed.

Lemma jewelry_filter_search_spec (E : Env) (cs : list string)
      (F : Jewelry.filter_spec) (df : DataFrame) :
  (forall c, c ∈ cs -> c ∈ columns df) ->
  Jewelry.filter_search E cs F df
  = mask ← search_mask E cs (Jewelry.f_search F); Ok (loc df mask).
Proof.
  intros Hcs. unfold Jewelry.filter_search, search_mask, query_of.
  destruct (str_truthy (strip (Jewelry.f_search F))).
  2:{ rewrite bind_ok. by rewrite loc_true. }
  rewrite (mapM_require_ok df (take 1 cs)).
  2:{ intros c Hc. apply Hcs. by apply (subseteq_take 1 cs). }
  rewrite (mapM_require_ok df (drop 1 cs)).
  2:{ intros c Hc. apply Hcs. by apply (subseteq_drop 1 cs). }
  rewrite bind_ok.
  by destruct (compile E (lower (strip (Jewelry.f_search F)))) as [m|e].
Qed.

Lemma jewelry_filter_spec (E : Env) (F : Jewelry.filter_spec) (df : DataFrame)
      (cs : list string) :
  "Status" ∈ columns df -> "Paid" ∈ columns df ->
  (forall c, c ∈ cs -> c ∈ columns df) ->
  (_ ← require df "Status";
   let df_f := loc df (fun r => isin (Jewelry.f_status F) (r !!! "Status")) in
   df_f ← Jewelry.filter_paid F df_f;
   Jewelry.filter_search E cs F df_f)
  = mask ← search_mask E cs (Jewelry.f_search F);
    Ok (loc df (jewelry_keeps F mask)).
Proof.
  intros Hs Hp Hcs.
  rewrite require_ok by done. rewrite bind_ok. cbv zeta.
  rewrite jewelry_filter_paid_spec by done. rewrite bind_ok.
  rewrite jewelry_filter_search_spec by done.
  destruct (search_mask E cs (Jewelry.f_search F)) as [mask|e]; [|done].
  rewrite !bind_ok, !loc_loc. f_equal. apply loc_ext. intros r.
  unfold jewelry_keeps. by rewrite !andb_assoc.
Qed.





(** ** The views of the tabs *)

















(** ** The front desk tab *)














(** ** Histograms and the passes over the frames *)

Lemma jewelry_normalized (E : Env) (cols : list string) (l : list row) :
  "Total_Price" ∈ cols -> "Deposit_Paid" ∈ cols ->
  exists h : row -> row,
    fold_left (Jewelry.normalize_col E)
      ["Total_Price"; "Deposit_Paid"; "Remaining_Balance"]
      {| columns := cols; rows := l |}
    = {| columns := cols; rows := map (fun r => h (coerced_row E r)) l |}
    /\ forall x : row,
         h x !!! "Total_Price" = x !!! "Total_Price"
         /\ h x !!! "Deposit_Paid" = x !!! "Deposit_Paid"
         /\ forall v, <["Remaining_Balance" := v]> (h x) = <["Remaining_Balance" := v]> x.
Proof.
  intros Ht Hd. simpl.
  unfold Jewelry.normalize_col at 3. unfold has_col. simpl.
  rewrite bool_decide_eq_true_2 by done.
  unfold Jewelry.normalize_col at 2. unfold has_col, assign. simpl.
  rewrite (with_col_in _ _ Ht), bool_decide_eq_true_2 by done.
  rewrite (with_col_in _ _ Hd), map_map.
  unfold Jewelry.normalize_col, has_col, assign. simpl.
  case_bool_decide as Hr.
  - rewrite (with_col_in _ _ Hr), map_map.
    exists (fun x => <["Remaining_Balance" := coerce E "Remaining_Balance" x]> x).
    split.
    + f_equal. apply map_ext. intros r0. unfold coerced_row.
      by rewrite coerce_after_price.
    + intros x. rewrite !(lookup_total_insert_ne (M:=gmap string)) by done.
      split; [done|]. split; [done|]. intros v. by rewrite insert_insert_eq.
  - exists (fun x => x). split; [|done].
    f_equal. apply map_ext. intros r0. unfold coerced_row.
    by rewrite coerce_after_price.
Qed.

Lemma jewelry_analytics_rows (E : Env) (df : DataFrame) :
  "Total_Price" ∈ columns df -> "Deposit_Paid" ∈ columns df ->
  Jewelry.analytics_frame E df
  = Ok {| columns := with_col (columns df) "Remaining_Balance";
          rows := map (fun r => <["Remaining_Balance" := CNum (remaining_of E r)]>
                                  (coerced_row E r)) (rows df) |}.
Proof.
  intros Ht Hd. destruct df as [cols l]. simpl in *.
  unfold Jewelry.analytics_frame.
  destruct (jewelry_normalized E cols l Ht Hd) as (h & -> & Hh).
  rewrite !require_ok by done. rewrite !bind_ok.
  rewrite (assignM_map _ _ _ _ _ (fun r0 => CNum (remaining_of E r0))).
  - f_equal. f_equal. apply map_ext. intros r0. apply Hh.
  - intros r0 _. destruct (Hh (coerced_row E r0)) as (-> & -> & _).
    destruct (coerced_is_num E r0) as [-> ->]. reflexivity.
Qed.

Lemma jewelry_analytics_missing (E : Env) (df : DataFrame) :
  "Total_Price" ∉ columns df \/ "Deposit_Paid" ∉ columns df ->
  Jewelry.analytics_frame E df = Raise KeyError.
Proof.
  intros H. unfold Jewelry.analytics_frame. simpl.
  set (df3 := Jewelry.normalize_col E _ "Remaining_Balance").
  assert (Hcols : columns df3 = columns df).
  { unfold df3. by rewrite !normalize_col_columns. }
  destruct (decide ("Total_Price" ∈ columns df)) as [Ht | Ht].
  2:{ rewrite (require_raise df3 "Total_Price"); [done|by rewrite Hcols]. }
  destruct H as [H | H]; [exfalso; by apply H|].
  rewrite (require_ok df3 "Total_Price") by (by rewrite Hcols). rewrite bind_ok.
  rewrite (require_raise df3 "Deposit_Paid"); [done|by rewrite Hcols].
Qed.

Lemma filter_map_comm {A B} (p : B -> bool) (f : A -> B) (l : list A) :
  List.filter p (map f l) = map f (List.filter (fun x => p (f x)) l).
Proof.
  induction l as [|a l IH]; [done|]. simpl map. rewrite !filter_cons_if.
  destruct (p (f a)); simpl; by rewrite IH.
Qed.

(** A frame whose records are those of [df] rewritten outside the Status and
    Assigned_To columns, and that holds these two columns exactly when [df]
    does, has the histograms of [df]. *)
Lemma histograms_map (df : DataFrame) (cols' : list string) (f : row -> row)
      (stages : list string) :
  (forall c, c ∈ ["Status"; "Assigned_To"] -> c ∈ cols' <-> c ∈ columns df) ->
  (forall (r : row) c, c ∈ ["Status"; "Assigned_To"] -> f r !!! c = r !!! c) ->
  let df' := {| columns := cols'; rows := map f (rows df) |} in
  Rick.stage_counts stages df' = Rick.stage_counts stages df
  /\ Jewelry.stage_counts stages df' = Jewelry.stage_counts stages df
  /\ Rick.bench_load df' = Rick.bench_load df.
Proof.
  intros Hcols Hf df'.
  assert (Hreq : forall c p, c ∈ ["Status"; "Assigned_To"] ->
            require (loc df' p) c = require df c).
  { intros c p Hc. unfold require, has_col. simpl.
    destruct (decide (c ∈ columns df)) as [H | H].
    - rewrite !bool_decide_eq_true_2; [done..|]. by apply Hcols.
    - rewrite !bool_decide_eq_false_2; [done..|]. intros H'. by apply H, Hcols. }
  assert (Hst : col df' "Status" = col df "Status").
  { unfold col, df'. simpl. rewrite map_map. apply map_ext. intros r.
    apply Hf. in_cols. }
  assert (Hreq' : forall c, c ∈ ["Status"; "Assigned_To"] -> require df' c = require df c).
  { intros c Hc. rewrite <- (Hreq c (fun _ => true) Hc). by rewrite loc_true. }
  split; [|split].
  - unfold Rick.stage_counts. by rewrite Hreq', Hst by in_cols.
  - unfold Jewelry.stage_counts. by rewrite Hreq', Hst by in_cols.
  - unfold Rick.bench_load. rewrite Hreq' by in_cols.
    destruct (require df "Status"); [|done]. rewrite !bind_ok.
    rewrite Hreq by in_cols.
    change (require (loc df (fun r => negb (cell_eq_str "Completed" (r !!! "Status"))))
              "Assigned_To") with (require df "Assigned_To").
    destruct (require df "Assigned_To"); [|done]. rewrite !bind_ok.
    do 3 f_equal. unfold col, loc, df'. simpl.
    rewrite filter_map_comm, map_map.
    rewrite (filter_ext (fun x => negb (cell_eq_str "Completed" (f x !!! "Status")))
               (fun r => negb (cell_eq_str "Completed" (r !!! "Status")))).
    + apply map_ext. intros r. apply Hf. in_cols.
    + intros r. by rewrite Hf by in_cols.
Qed.

Lemma pass_histograms (df : DataFrame) (cols' : list string) (f : row -> row)
      (stages : list string) :
  (forall c, c ∈ columns df -> c ∈ cols') ->
  (forall c, c ∈ cols' -> c ∈ columns df \/ c ∈ written) ->
  (forall (r : row) c, c ∉ written -> f r !! c = r !! c) ->
  let df' := {| columns := cols'; rows := map f (rows df) |} in
  Rick.stage_counts stages df' = Rick.stage_counts stages df
  /\ Jewelry.stage_counts stages df' = Jewelry.stage_counts stages df
  /\ Rick.bench_load df' = Rick.bench_load df.
Proof.
  intros Hin Hout Hf. apply histograms_map.
  - intros c Hc. split; [|apply Hin].
    intros H. destruct (Hout c H) as [H' | H']; [done|].
    exfalso. revert H'. list_cases Hc; not_in_cols.
  - intros r c Hc. rewrite !lookup_total_alt, Hf; [done|].
    list_cases Hc; not_in_cols.
Qed.

Lemma analytics_row_other (E : Env) (r : row) (c : string) :
  c ∉ written ->
  (<["Remaining_Balance" := CNum (remaining_of E r)]> (coerced_row E r)) !! c = r !! c.
Proof.
  intros Hc. unfold coerced_row.
  rewrite !lookup_insert_ne; [done|intros <-; apply Hc; in_cols..].
Qed.

(** X12.  The histograms depend on the Status and Assigned_To columns only,
    which no pass over a frame writes: the stage histogram of either variant
    and the repair load by bench are the same on the output of a
    recomputation (save path or view, either date column, either variant) or
    of the numeric clean-up of the Analytics tab as on its input; so the
    chart drawn after an edit is saved is the chart of the edited frame, and
    the pipeline snapshot of the Analytics tab, on frames holding the price
    and deposit columns, consists of the stage histograms of the two session
    frames. *)
Theorem histograms_unchanged (E : Env) (df : DataFrame) (stages : list string) :
  (forall pass df',
     pass ∈ [Rick.recompute E "Due_Date"; Rick.recompute_view E "Due_Date";
             Rick.recompute E "Promised_Date"; Rick.recompute_view E "Promised_Date";
             Jewelry.recompute E; Jewelry.recompute_view E;
             Jewelry.analytics_frame E] ->
     pass df = Ok df' ->
     Rick.stage_counts stages df' = Rick.stage_counts stages df
     /\ Jewelry.stage_counts stages df' = Jewelry.stage_counts stages df
     /\ Rick.bench_load df' = Rick.bench_load df)
  /\ (forall date_col st st',
        date_col ∈ ["Due_Date"; "Promised_Date"] ->
        Rick.save_edit E date_col df st = Ok st' ->
        Rick.stage_counts stages (session_df st') = Rick.stage_counts stages df
        /\ Rick.bench_load (session_df st') = Rick.bench_load df)
  /\ (forall repair,
        (forall c, c ∈ ["Total_Price"; "Deposit_Paid"] ->
                   c ∈ columns df /\ c ∈ columns repair) ->
        Jewelry.pipeline_snapshot E df repair
        = (c_stage ← Jewelry.stage_counts Jewelry.CUSTOM_STATUSES df;
           r_stage ← Jewelry.stage_counts Jewelry.REPAIR_STATUSES repair;
           Ok (c_stage, r_stage))).
Proof.
  assert (Hrick : forall dc stages0 d, "Total_Price" ∈ columns d -> "Deposit_Paid" ∈ columns d ->
            let d' := {| columns := derived_cols (columns d);
                         rows := map (derived_row E dc) (rows d) |} in
            Rick.stage_counts stages0 d' = Rick.stage_counts stages0 d
            /\ Jewelry.stage_counts stages0 d' = Jewelry.stage_counts stages0 d
            /\ Rick.bench_load d' = Rick.bench_load d).
  { intros dc stages0 d _ _. apply pass_histograms.
    - intros c Hc. apply derived_cols_in. by left.
    - apply derived_cols_frame.
    - intros r c. apply derived_row_other. }
  assert (Hjew : forall stages0 d,
            let d' := {| columns := balance_cols (columns d);
                         rows := map (balance_row E) (rows d) |} in
            Rick.stage_counts stages0 d' = Rick.stage_counts stages0 d
            /\ Jewelry.stage_counts stages0 d' = Jewelry.stage_counts stages0 d
            /\ Rick.bench_load d' = Rick.bench_load d).
  { intros stages0 d. apply pass_histograms.
    - intros c Hc. apply balance_cols_in. by left.
    - apply balance_cols_frame.
    - intros r c. apply balance_row_other. }
  assert (Hana : forall stages0 d,
            let d' := {| columns := with_col (columns d) "Remaining_Balance";
                         rows := map (fun r => <["Remaining_Balance" :=
                                                   CNum (remaining_of E r)]>
                                                 (coerced_row E r)) (rows d) |} in
            Rick.stage_counts stages0 d' = Rick.stage_counts stages0 d
            /\ Jewelry.stage_counts stages0 d' = Jewelry.stage_counts stages0 d
            /\ Rick.bench_load d' = Rick.bench_load d).
  { intros stages0 d. apply pass_histograms.
    - intros c Hc. apply elem_of_with_col. by left.
    - intros c Hc. apply elem_of_with_col in Hc as [Hc | ->]; [by left|right; in_cols].
    - intros r c. apply analytics_row_other. }
  assert (Hcols : forall d, {"Total_Price" ∈ columns d /\ "Deposit_Paid" ∈ columns d}
                            + {"Total_Price" ∉ columns d \/ "Deposit_Paid" ∉ columns d}).
  { intros d. destruct (decide ("Total_Price" ∈ columns d)) as [Ht | Ht];
      [destruct (decide ("Deposit_Paid" ∈ columns d)) as [Hd | Hd]|]; auto. }
  split; [|split].
  - intros pass df' Hpass Hdf.
    destruct (Hcols df) as [[Ht Hd] | Hm].
    + list_cases Hpass;
        first [ rewrite rick_recompute_rows in Hdf by done
              | rewrite rick_recompute_view_rows in Hdf by done
              | rewrite jewelry_recompute_rows in Hdf by done
              | rewrite jewelry_recompute_view_rows in Hdf by done
              | rewrite jewelry_analytics_rows in Hdf by done ];
        injection Hdf as <-;
        first [ by apply Hrick | apply Hjew | apply Hana ].
    + exfalso. list_cases Hpass;
        first [ rewrite (rick_recompute_missing E _ df) in Hdf by done
              | rewrite (rick_recompute_view_missing E _ df) in Hdf by done
              | rewrite (jewelry_recompute_missing E df) in Hdf by done
              | rewrite (jewelry_recompute_view_missing E df) in Hdf by done
              | rewrite (jewelry_analytics_missing E df) in Hdf by done ];
        discriminate Hdf.
  - intros date_col st st' _ Hsave. unfold Rick.save_edit in Hsave.
    destruct (Hcols df) as [[Ht Hd] | Hm].
    + rewrite rick_recompute_rows in Hsave by done. rewrite bind_ok in Hsave.
      injection Hsave as <-. cbn [session_df].
      destruct (Hrick date_col stages df Ht Hd) as (H1 & _ & H3). by split.
    + by rewrite (rick_recompute_missing E date_col df) in Hsave.
  - intros repair Hc. unfold Jewelry.pipeline_snapshot.
    rewrite (jewelry_analytics_rows E df) by (apply Hc; in_cols).
    rewrite (jewelry_analytics_rows E repair) by (apply Hc; in_cols).
    rewrite !bind_ok.
    rewrite (proj1 (proj2 (Hana Jewelry.CUSTOM_STATUSES df))).
    by rewrite (proj1 (proj2 (Hana Jewelry.REPAIR_STATUSES repair))).
Qed.

Lemma histograms_unchanged_witness :
  exists st' hist,
    Rick.save_edit env0 "Promised_Date" two_repairs empty_store = Ok st'
    /\ Rick.stage_counts Rick.REPAIR_STATUSES two_repairs = Ok hist
    /\ Rick.stage_counts Rick.REPAIR_STATUSES (session_df st') = Ok hist
    /\ Rick.bench_load (session_df st') = Rick.bench_load two_repairs.
Proof.
  assert (Hs : exists st', Rick.save_edit env0 "Promised_Date" two_repairs empty_store
                           = Ok st').
  { unfold Rick.save_edit. rewrite rick_recompute_rows by in_cols. by eexists. }
  destruct Hs as [st' Hs].
  destruct (proj1 (proj2 (histograms_unchanged env0 two_repairs Rick.REPAIR_STATUSES))
              "Promised_Date" empty_store st') as [H1 H2]; [in_cols|exact Hs|].
  exists st'. eexists. split; [exact Hs|].
  split; [apply stage_counts_spec; in_cols|].
  split; [|exact H2]. rewrite H1. apply stage_counts_spec. in_cols.
Defined.

(** ** The overdue flag as days pass *)

Lemma date_ltb_le_trans (d t n : date) :
  date_ltb d t = true -> date_ltb n t = false -> date_ltb d n = true.
Proof.
  unfold date_ltb. destruct d as [y1 m1 d1], t as [y2 m2 d2], n as [y3 m3 d3]. simpl.
  rewrite !orb_true_iff, !orb_false_iff, !andb_true_iff, !andb_false_iff,
    !orb_true_iff, !orb_false_iff, !andb_true_iff, !andb_false_iff,
    !Z.ltb_lt, !Z.ltb_ge, !Z.eqb_eq, !Z.eqb_neq.
  lia.
Qed.

Lemma overdue_spec_later (E : Env) (now : date) (due status : string) :
  date_ltb now (today E) = false ->
  overdue_spec E due status = "Yes" -> overdue_spec (at_day E now) due status = "Yes".
Proof.
  intros Hle. unfold overdue_spec. simpl.
  destruct (String.eqb status "Completed"); [done|].
  destruct (str_truthy (strip due)); [|done].
  destruct (pd_to_datetime E due) as [d|e]; [|done].
  destruct (date_ltb d (today E)) eqn:Hd; [|done].
  by rewrite (date_ltb_le_trans d (today E) now).
Qed.

Lemma derived_row_at_day (E : Env) (now : date) (date_col : string) (r : row) :
  derived_row (at_day E now) date_col r
  = <["Overdue" := CStr (overdue_spec (at_day E now)
                           (str_of_cell E (row_get (balance_row E r) date_col (CStr "")))
                           (str_of_cell E (row_get (balance_row E r) "Status" (CStr ""))))]>
      (balance_row E r).
Proof. reflexivity. Qed.

(** X13.  The overdue flag only moves one way as days pass.  If the clock
    has not gone back, a date field and status that [is_overdue] marks "Yes"
    are still marked "Yes"; and recomputing the same frame on the later day
    succeeds whenever it did on the earlier one, with the same columns, the
    same records in the same order and the same cells outside Overdue, and
    with every record that was overdue still overdue. *)
Theorem overdue_over_time (E : Env) (now : date) :
  date_ltb now (today E) = false ->
  (forall due status,
     Rick.is_overdue E due status = Ok "Yes" ->
     Rick.is_overdue (at_day E now) due status = Ok "Yes")
  /\ (forall date_col df df1,
        Rick.recompute_view E date_col df = Ok df1 ->
        exists df2,
          Rick.recompute_view (at_day E now) date_col df = Ok df2
          /\ Rick.recompute (at_day E now) date_col df = Ok df2
          /\ columns df2 = columns df1
          /\ Forall2 overdue_kept (rows df1) (rows df2)).
Proof.
  intros Hle. split.
  - intros due status. rewrite !is_overdue_spec. intros [= H].
    by rewrite (overdue_spec_later E now due status Hle H).
  - intros dc df df1 H1.
    destruct (decide ("Total_Price" ∈ columns df /\ "Deposit_Paid" ∈ columns df))
      as [[Ht Hd] | Hm].
    2:{ rewrite (rick_recompute_view_missing E dc df) in H1; [done|].
        destruct (decide ("Total_Price" ∈ columns df)); [right|left]; tauto. }
    rewrite rick_recompute_view_rows in H1 by done. injection H1 as <-.
    eexists. split; [by apply rick_recompute_view_rows|].
    split; [by apply rick_recompute_rows|]. split; [reflexivity|]. simpl.
    induction (rows df) as [|r l IH]; [constructor|].
    simpl. constructor; [|exact IH].
    rewrite derived_row_at_day. unfold derived_row. cbv zeta. split.
    + intros c Hc. rewrite !lookup_insert_ne; [done|intros <-; apply Hc; in_cols..].
    + rewrite !lookup_insert_eq. intros [= H].
      by rewrite (overdue_spec_later E now _ _ Hle H).
Qed.

Lemma overdue_over_time_witness :
  Rick.is_overdue env0 "2026-03-09" "Casting" = Ok "Yes"
  /\ Rick.is_overdue (at_day env0 (mkDate 2026 4 1)) "2026-03-09" "Casting" = Ok "Yes".
Proof.
  split; [reflexivity|].
  apply (proj1 (overdue_over_time env0 (mkDate 2026 4 1) eq_refl)). reflexivity.
Defined.

(** ** When a filter raises *)

Lemma guarded_ext (g1 g2 : DataFrame -> result DataFrame) (P1 P2 : list string -> Prop)
      (bad : exn -> Prop) :
  (forall d, g1 d = g2 d) -> (forall cols, P1 cols <-> P2 cols) ->
  guarded g1 P1 bad -> guarded g2 P2 bad.
Proof.
  intros Hg HP H d. specialize (H d). rewrite <- Hg.
  destruct (g1 d); rewrite <- HP; exact H.
Qed.

Lemma guarded_comp (g1 g2 : DataFrame -> result DataFrame) (P1 P2 : list string -> Prop)
      (bad : exn -> Prop) :
  guarded g1 P1 bad -> guarded g2 P2 bad ->
  guarded (fun d => d' ← g1 d; g2 d') (fun cols => P1 cols /\ P2 cols) bad.
Proof.
  intros H1 H2 d. specialize (H1 d). destruct (g1 d) as [d1|e1]; simpl.
  - destruct H1 as [Hc HP1]. specialize (H2 d1).
    destruct (g2 d1) as [d2|e2]; rewrite Hc in H2.
    + destruct H2 as [Hc2 HP2]. split; [done|]. by split.
    + destruct H2 as [HP2 Hb]. split; [tauto|done].
  - destruct H1 as [HP1 Hb]. split; [tauto|done].
Qed.

Lemma guarded_select (c : string) (p : row -> bool) (bad : exn -> Prop) :
  bad KeyError ->
  guarded (fun d => _ ← require d c; Ok (loc d p)) (fun cols => c ∈ cols) bad.
Proof.
  intros Hb d. destruct (decide (c ∈ columns d)) as [H | H].
  - by rewrite require_ok.
  - by rewrite require_raise.
Qed.

Lemma guarded_selector (sel a b c : string) (bad : exn -> Prop) :
  bad KeyError ->
  guarded (fun df =>
    if String.eqb sel a then
      _ ← require df c; Ok (loc df (fun r => cell_eq_str "Yes" (r !!! c)))
    else if String.eqb sel b then
      _ ← require df c; Ok (loc df (fun r => cell_eq_str "No" (r !!! c)))
    else Ok df) (selector_needs sel a b c) bad.
Proof.
  intros Hb d. unfold selector_needs.
  destruct (String.eqb_spec sel a) as [Ha | Ha].
  { destruct (decide (c ∈ columns d)) as [H | H].
    - rewrite require_ok by done. simpl. tauto.
    - rewrite require_raise by done. simpl. tauto. }
  destruct (String.eqb_spec sel b) as [Hsb | Hsb].
  { destruct (decide (c ∈ columns d)) as [H | H].
    - rewrite require_ok by done. simpl. tauto.
    - rewrite require_raise by done. simpl. tauto. }
  split; [done|]. tauto.
Qed.

Lemma mapM_require_cases (d : DataFrame) (l : list string) :
  (mapM_result (require d) l = Ok (map (fun _ => tt) l)
   /\ forall c, c ∈ l -> c ∈ columns d)
  \/ (mapM_result (require d) l = Raise KeyError
      /\ ~ forall c, c ∈ l -> c ∈ columns d).
Proof.
  induction l as [|a l IH].
  - left. split; [done|]. intros c Hc. by apply elem_of_nil in Hc.
  - simpl. destruct (decide (a ∈ columns d)) as [Ha | Ha].
    + rewrite require_ok by done. rewrite bind_ok.
      destruct IH as [[-> Hl] | [-> Hl]].
      * left. split; [done|]. intros c Hc.
        apply elem_of_cons in Hc as [-> | Hc]; [done|by apply Hl].
      * right. split; [done|]. intros H. apply Hl. intros c Hc. apply H. by right.
    + rewrite require_raise by done. right. split; [done|].
      intros H. apply Ha, H. by left.
Qed.

Lemma guarded_search (E : Env) (cs : list string) (search : string) :
  guarded (fun df =>
    if str_truthy (strip search) then
      _ ← mapM_result (require df) (take 1 cs);
      m ← compile E (lower (strip search));
      _ ← mapM_result (require df) (drop 1 cs);
      Ok (loc df (fun r => existsb (fun c => contains E m c r) cs))
    else Ok df) (search_needs E cs search) (filter_error E search).
Proof.
  intros d. unfold search_needs, filter_error, query_of.
  destruct (str_truthy (strip search)) eqn:Hs; [|by split].
  assert (Hcs : forall c, c ∈ cs <-> c ∈ take 1 cs \/ c ∈ drop 1 cs).
  { intros c. rewrite <- elem_of_app. by rewrite take_drop. }
  destruct (mapM_require_cases d (take 1 cs)) as [[-> H1] | [-> H1]].
  2:{ simpl. split; [|by left]. intros H. apply H1. intros c Hc.
      apply (proj1 (H eq_refl)), Hcs. by left. }
  rewrite bind_ok. unfold compile.
  destruct (re_search E (lower (strip search))) as [m|] eqn:Hm.
  2:{ simpl. split; [|by right]. intros H. by apply (proj2 (H eq_refl)). }
  rewrite bind_ok.
  destruct (mapM_require_cases d (drop 1 cs)) as [[-> H3] | [-> H3]].
  - rewrite bind_ok. split; [done|]. intros _. split; [|done].
    intros c Hc. apply Hcs in Hc as [Hc | Hc]; [by apply H1|by apply H3].
  - simpl. split; [|by left]. intros H. apply H3. intros c Hc.
    apply (proj1 (H eq_refl)), Hcs. by right.
Qed.

(** X14.  When a filter raises.  Each of the four filters succeeds, keeping
    the columns of the frame, exactly when the frame has the Status column,
    the owner column (Rick variant), the selector's column if a choice other
    than All is made, and, for a query that is not blank, the searched
    columns and a query that compiles; a blank query needs neither.  When a
    filter raises, it raises a missing-column error or, only for a query
    that is not blank and does not compile, a pattern error. *)
Theorem filter_failures (E : Env) :
  (forall F : Rick.filter_spec,
     guarded (Rick.custom_filter E F)
       (fun cols =>
          "Status" ∈ cols /\ "Phase_Owner" ∈ cols
          /\ selector_needs (Rick.f_overdue F) "Only overdue" "Not overdue" "Overdue" cols
          /\ search_needs E ["Job_ID"; "Client"; "Item"] (Rick.f_search F) cols)
       (filter_error E (Rick.f_search F))
     /\ guarded (Rick.repair_filter E F)
          (fun cols =>
             "Status" ∈ cols /\ "Assigned_To" ∈ cols
             /\ selector_needs (Rick.f_overdue F) "Only overdue" "Not overdue"
                               "Overdue" cols
             /\ search_needs E ["Job_ID"; "Client"; "Item"; "Repair_Type"]
                             (Rick.f_search F) cols)
          (filter_error E (Rick.f_search F)))
  /\ (forall F : Jewelry.filter_spec,
        guarded (Jewelry.custom_filter E F)
          (fun cols =>
             "Status" ∈ cols
             /\ selector_needs (Jewelry.f_paid F) "Paid" "Unpaid" "Paid" cols
             /\ search_needs E ["Job_ID"; "Client"; "Item"] (Jewelry.f_search F) cols)
          (filter_error E (Jewelry.f_search F))
        /\ guarded (Jewelry.repair_filter E F)
             (fun cols =>
                "Status" ∈ cols
                /\ selector_needs (Jewelry.f_paid F) "Paid" "Unpaid" "Paid" cols
                /\ search_needs E ["Job_ID"; "Client"; "Item"; "Repair_Type"]
                                (Jewelry.f_search F) cols)
             (filter_error E (Jewelry.f_search F))).
Proof.
  assert (Hk : forall s, filter_error E s KeyError) by (intros s; by left).
  split; intros F; split.
  - eapply guarded_ext;
      [| | exact (guarded_comp _ _ _ _ _
                    (guarded_select "Status"
                       (fun r => isin (Rick.f_status F) (r !!! "Status")) _ (Hk _))
                    (guarded_comp _ _ _ _ _
                       (guarded_select "Phase_Owner"
                          (fun r => isin (Rick.f_owner F) (r !!! "Phase_Owner")) _ (Hk _))
                       (guarded_comp _ _ _ _ _
                          (guarded_selector (Rick.f_overdue F) "Only overdue"
                             "Not overdue" "Overdue" _ (Hk _))
                          (guarded_search E ["Job_ID"; "Client"; "Item"]
                             (Rick.f_search F)))))].
    + intros df. unfold Rick.custom_filter.
      destruct (require df "Status"); [|done]. rewrite !bind_ok. cbv zeta.
      destruct (require _ "Phase_Owner"); [|done]. by rewrite !bind_ok.
    + intros cols. simpl. tauto.
  - eapply guarded_ext;
      [| | exact (guarded_comp _ _ _ _ _
                    (guarded_select "Status"
                       (fun r => isin (Rick.f_status F) (r !!! "Status")) _ (Hk _))
                    (guarded_comp _ _ _ _ _
                       (guarded_select "Assigned_To"
                          (fun r => isin (Rick.f_owner F) (r !!! "Assigned_To")) _ (Hk _))
                       (guarded_comp _ _ _ _ _
                          (guarded_selector (Rick.f_overdue F) "Only overdue"
                             "Not overdue" "Overdue" _ (Hk _))
                          (guarded_search E ["Job_ID"; "Client"; "Item"; "Repair_Type"]
                             (Rick.f_search F)))))].
    + intros df. unfold Rick.repair_filter.
      destruct (require df "Status"); [|done]. rewrite !bind_ok. cbv zeta.
      destruct (require _ "Assigned_To"); [|done]. by rewrite !bind_ok.
    + intros cols. simpl. tauto.
  - eapply guarded_ext;
      [| | exact (guarded_comp _ _ _ _ _
                    (guarded_select "Status"
                       (fun r => isin (Jewelry.f_status F) (r !!! "Status")) _ (Hk _))
                    (guarded_comp _ _ _ _ _
                       (guarded_selector (Jewelry.f_paid F) "Paid" "Unpaid" "Paid"
                          _ (Hk _))
                       (guarded_search E ["Job_ID"; "Client"; "Item"]
                          (Jewelry.f_search F))))].
    + intros df. unfold Jewelry.custom_filter.
      destruct (require df "Status"); [|done]. by rewrite !bind_ok.
    + intros cols. simpl. tauto.
  - eapply guarded_ext;
      [| | exact (guarded_comp _ _ _ _ _
                    (guarded_select "Status"
                       (fun r => isin (Jewelry.f_status F) (r !!! "Status")) _ (Hk _))
                    (guarded_comp _ _ _ _ _
                       (guarded_selector (Jewelry.f_paid F) "Paid" "Unpaid" "Paid"
                          _ (Hk _))
                       (guarded_search E ["Job_ID"; "Client"; "Item"; "Repair_Type"]
                          (Jewelry.f_search F))))].
    + intros df. unfold Jewelry.repair_filter.
      destruct (require df "Status"); [|done]. by rewrite !bind_ok.
    + intros cols. simpl. tauto.
Qed.

(** ** The editable tables *)

Lemma ensure_cols_spec (df : DataFrame) (cols : list string) :
  exists g : row -> row,
    rows (ensure_cols df cols) = map g (rows df)
    /\ (forall c, c ∈ columns (ensure_cols df cols) <-> c ∈ columns df \/ c ∈ cols)
    /\ forall (r : row) c,
         g r !! c = if bool_decide (c ∈ columns df) then r !! c
                    else if bool_decide (c ∈ cols) then Some (CStr "")
                    else r !! c.
Proof.
  revert df. induction cols as [|a l IH]; intros df.
  - exists (fun r => r). split; [by rewrite map_id|]. split.
    + intros c. simpl. rewrite elem_of_nil. tauto.
    + intros r c. case_bool_decide; [done|].
      rewrite bool_decide_eq_false_2; [done|]. apply not_elem_of_nil.
  - unfold ensure_cols. simpl. fold (ensure_cols (if has_col df a then df
                                 else assign df a (fun _ => CStr "")) l).
    unfold has_col. case_bool_decide as Ha.
    + destruct (IH df) as (g & Hr & Hc & Hg). exists g.
      split; [done|]. split.
      * intros c. rewrite Hc, elem_of_cons.
        split; [tauto|]. intros [H | [-> | H]]; tauto.
      * intros r c. rewrite Hg. case_bool_decide as H1; [done|].
        assert (Hne : c <> a) by (intros ->; done).
        repeat case_bool_decide; try done.
        -- exfalso. apply H0. by right.
        -- exfalso. apply elem_of_cons in H0 as [? | ?]; done.
    + destruct (IH (assign df a (fun _ => CStr ""))) as (g & Hr & Hc & Hg).
      exists (fun r => g (<[a := CStr ""]> r)). split; [|split].
      * rewrite Hr. unfold assign. simpl. by rewrite map_map.
      * intros c. rewrite Hc. unfold assign. simpl.
        rewrite elem_of_with_col, elem_of_cons. tauto.
      * intros r c. rewrite Hg. unfold assign. simpl.
        destruct (decide (c = a)) as [-> | Hne].
        -- rewrite bool_decide_eq_true_2 by (apply elem_of_with_col; by right).
           rewrite lookup_insert_eq.
           rewrite (bool_decide_eq_false_2 (a ∈ columns df)) by done.
           by rewrite bool_decide_eq_true_2 by left.
        -- rewrite lookup_insert_ne by done.
           destruct (decide (c ∈ columns df)) as [H1 | H1].
           ++ rewrite bool_decide_eq_true_2 by (apply elem_of_with_col; by left).
              by rewrite bool_decide_eq_true_2.
           ++ rewrite bool_decide_eq_false_2.
              2:{ intros H. apply elem_of_with_col in H as [H | H]; done. }
              rewrite (bool_decide_eq_false_2 (c ∈ columns df)) by done.
              destruct (decide (c ∈ l)) as [H2 | H2].
              ** rewrite !bool_decide_eq_true_2; [done|by right|done].
              ** rewrite !bool_decide_eq_false_2; [done| |done].
                 intros H. apply elem_of_cons in H as [H | H]; done.
Qed.

Lemma ensure_cols_id (df : DataFrame) (cols : list string) :
  (forall c, c ∈ cols -> c ∈ columns df) -> ensure_cols df cols = df.
Proof.
  induction cols as [|a l IH]; intros H; [done|].
  unfold ensure_cols. simpl. unfold has_col.
  rewrite bool_decide_eq_true_2 by (apply H; left).
  apply IH. intros c Hc. apply H. by right.
Qed.

Lemma select_ensure (df : DataFrame) (cols : list string) :
  exists g : row -> row,
    select_cols (ensure_cols df cols) cols
    = Ok {| columns := cols; rows := map (fun r => restrict cols (g r)) (rows df) |}
    /\ forall (r : row) c,
         c ∈ cols ->
         restrict cols (g r) !! c = if bool_decide (c ∈ columns df) then r !! c
                                    else Some (CStr "").
Proof.
  destruct (ensure_cols_spec df cols) as (g & Hr & Hc & Hg). exists g. split.
  - unfold select_cols. rewrite (mapM_require_ok _ cols).
    + rewrite bind_ok, Hr, map_map. reflexivity.
    + intros c H. apply Hc. by right.
  - intros r c H. specialize (Hg r c).
    rewrite (bool_decide_eq_true_2 (c ∈ cols)) in Hg by done.
    rewrite <- Hg. unfold restrict.
    destruct (g r !! c) as [v|] eqn:Hv.
    + by apply map_lookup_filter_Some.
    + apply map_lookup_filter_None. by left.
Qed.

Lemma restrict_id (cols : list string) (r : row) :
  (forall c v, r !! c = Some v -> c ∈ cols) -> restrict cols r = r.
Proof.
  intros H. unfold restrict. apply map_filter_id. intros c v Hv. simpl. by eapply H.
Qed.

Lemma restrict_keys (cols : list string) (r : row) (c : string) (v : cell) :
  restrict cols r !! c = Some v -> c ∈ cols.
Proof. unfold restrict. intros H. by apply map_lookup_filter_Some in H as [_ H]. Qed.

Lemma derived_row_keys (E : Env) (date_col : string) (cols : list string) (r : row)
      (c : string) (v : cell) :
  (forall c', c' ∈ written -> c' ∈ cols) ->
  derived_row E date_col (restrict cols r) !! c = Some v -> c ∈ cols.
Proof.
  intros Hw H. destruct (decide (c ∈ written)) as [Hc | Hc]; [by apply Hw|].
  rewrite derived_row_other in H by done. by eapply restrict_keys.
Qed.

Lemma balance_row_keys (E : Env) (cols : list string) (r : row)
      (c : string) (v : cell) :
  (forall c', c' ∈ ["Total_Price"; "Deposit_Paid"; "Remaining_Balance"; "Paid"] ->
              c' ∈ cols) ->
  balance_row E (restrict cols r) !! c = Some v -> c ∈ cols.
Proof.
  intros Hw H.
  destruct (decide (c ∈ ["Total_Price"; "Deposit_Paid"; "Remaining_Balance"; "Paid"]))
    as [Hc | Hc]; [by apply Hw|].
  unfold balance_row in H.
  rewrite !lookup_insert_ne in H by (intros <-; apply Hc; in_cols).
  by eapply restrict_keys.
Qed.

Lemma table_kept_intro (cols : list string) (df : DataFrame) (cols' : list string)
      (g f : row -> row) :
  (forall (r : row) c, c ∈ cols ->
     restrict cols (g r) !! c = if bool_decide (c ∈ columns df) then r !! c
                                else Some (CStr "")) ->
  (forall (r : row) c, c ∉ written -> f r !! c = r !! c) ->
  table_kept cols df
    {| columns := cols'; rows := map (fun r => f (restrict cols (g r))) (rows df) |}.
Proof.
  intros Hg Hf. split; [simpl; by rewrite length_map|].
  intros i r Hi. exists (f (restrict cols (g r))). simpl. split.
  - by rewrite (list_lookup_fmap (fun r => f (restrict cols (g r)))), Hi.
  - intros c Hc Hw. rewrite Hf by done. by apply Hg.
Qed.

(** X15.  The editable table of a tab of app_rick.py and the save that
    follows it, on any frame and whatever the user edits (an edit keeps the
    columns of the table).  The step never raises; the collection it stores
    has exactly the columns of the table, in the table's order (any other
    column of the session is dropped), as many records as the edited table,
    each with its derived values recomputed, and it is written to the file.
    When nothing is edited, every record keeps, in the columns of the table
    that no recomputation writes, the cell it had (the empty text for a
    column the frame lacked); the stored collection is then left unchanged by
    the recomputation at the head of the next view, and showing it in the
    table again with no edit stores the same collection. *)
Theorem rick_edit_table_spec (E : Env) (edit : DataFrame -> DataFrame)
        (df : DataFrame) (st : store) (date_col : string) (cols : list string) :
  (date_col = "Due_Date" /\ cols = Rick.custom_cols)
  \/ (date_col = "Promised_Date" /\ cols = Rick.repair_cols) ->
  (forall d, columns (edit d) = columns d) ->
  exists st' shown,
    select_cols (ensure_cols df cols) cols = Ok shown
    /\ Rick.edit_table E date_col cols edit df st = Ok st'
    /\ columns (session_df st') = cols
    /\ length (rows (session_df st')) = length (rows (edit shown))
    /\ csv_file st' = Some (csv_roundtrip E (session_df st'))
    /\ (forall r, r ∈ rows (session_df st') -> derived_consistent E date_col r)
    /\ ((forall d, edit d = d) ->
        table_kept cols df (session_df st')
        /\ Rick.recompute_view E date_col (session_df st') = Ok (session_df st')
        /\ Rick.edit_table E date_col cols edit (session_df st') st' = Ok st').
Proof.
  intros Hcase Hedit.
  assert (Hdc : date_col ∈ ["Due_Date"; "Promised_Date"]).
  { destruct Hcase as [[-> _] | [-> _]]; in_cols. }
  assert (Hw : forall c, c ∈ written -> c ∈ cols).
  { intros c Hc. unfold written in Hc.
    destruct Hcase as [[_ ->] | [_ ->]]; list_cases Hc; in_cols. }
  assert (Hfix : derived_cols cols = cols).
  { apply derived_cols_fixed. repeat split; apply Hw; in_cols. }
  assert (Hsave : forall s edited, columns edited = cols ->
            Rick.save_edit E date_col edited s
            = Ok {| session_df := {| columns := cols;
                                     rows := map (derived_row E date_col) (rows edited) |};
                    csv_file := Some (csv_roundtrip E
                                  {| columns := cols;
                                     rows := map (derived_row E date_col)
                                                 (rows edited) |}) |}).
  { intros s edited He. unfold Rick.save_edit.
    rewrite rick_recompute_rows by (rewrite He; apply Hw; in_cols).
    by rewrite He, Hfix. }
  destruct (select_ensure df cols) as (g & Hsel & Hg).
  eexists. eexists. split; [exact Hsel|].
  unfold Rick.edit_table. cbv zeta. rewrite Hsel, bind_ok.
  rewrite Hsave by (by rewrite Hedit).
  split; [reflexivity|]. cbn [session_df csv_file columns rows].
  split; [reflexivity|]. split; [by rewrite length_map|]. split; [reflexivity|].
  split.
  { intros r Hr. apply elem_of_map_row in Hr as (r0 & -> & _).
    by apply derived_row_consistent. }
  intros Hid. rewrite Hid. cbn [rows]. rewrite map_map.
  set (S' := {| columns := cols;
                rows := map (fun x => derived_row E date_col (restrict cols (g x)))
                            (rows df) |}).
  assert (Hrows : forall r, r ∈ rows S' ->
            derived_row E date_col r = r /\ restrict cols r = r).
  { intros r Hr. apply elem_of_map_row in Hr as (r0 & -> & _). split.
    - apply derived_row_idemp. by list_cases Hdc.
    - apply restrict_id. intros c v. by apply derived_row_keys. }
  split; [|split].
  - apply table_kept_intro; [exact Hg|]. intros r c. apply derived_row_other.
  - rewrite rick_recompute_view_rows by (apply Hw; in_cols).
    change (columns S') with cols. rewrite Hfix.
    assert (Hm : map (derived_row E date_col) (rows S') = rows S').
    { apply map_fixed. intros r Hr. apply (Hrows r Hr). }
    by rewrite Hm.
  - unfold Rick.edit_table. cbv zeta. rewrite (ensure_cols_id S' cols) by done.
    unfold select_cols. rewrite (mapM_require_ok S' cols) by done.
    rewrite !bind_ok. rewrite Hsave by (by rewrite Hedit).
    rewrite Hid. cbn [rows].
    assert (Hm : map (derived_row E date_col)
                   (map (fun r : row => filter (fun kv : string * cell => kv.1 ∈ cols) r)
                        (rows S'))
                 = rows S').
    { rewrite map_map. apply map_fixed. intros r Hr.
      destruct (Hrows r Hr) as [H1 H2]. unfold restrict in H2. by rewrite H2. }
    by rewrite Hm.
Qed.

Lemma rick_edit_table_spec_witness :
  exists st',
    Rick.edit_table env0 "Due_Date" Rick.custom_cols (fun d => d) three_jobs empty_store
    = Ok st'
    /\ columns (session_df st') = Rick.custom_cols
    /\ table_kept Rick.custom_cols three_jobs (session_df st')
    /\ Rick.edit_table env0 "Due_Date" Rick.custom_cols (fun d => d) (session_df st') st'
       = Ok st'.
Proof.
  destruct (rick_edit_table_spec env0 (fun d => d) three_jobs empty_store
              "Due_Date" Rick.custom_cols (or_introl (conj eq_refl eq_refl))
              (fun d => eq_refl))
    as (st' & shown & _ & Hrun & Hcols & _ & _ & _ & Hid).
  destruct (Hid (fun d => eq_refl)) as (Hkept & _ & Hagain).
  exists st'. split; [exact Hrun|]. split; [exact Hcols|].
  split; [exact Hkept|exact Hagain].
Defined.

Lemma jewelry_save_edit_rows (E : Env) (cols : list string) (edited : DataFrame)
      (s : store) :
  (forall c, c ∈ ["Total_Price"; "Deposit_Paid"; "Remaining_Balance"; "Paid"] ->
             c ∈ cols) ->
  columns edited = cols ->
  Jewelry.save_edit E edited s
  = Ok {| session_df := {| columns := cols;
                           rows := map (balance_row E) (rows edited) |};
          csv_file := Some (csv_roundtrip E
                        {| columns := cols;
                           rows := map (balance_row E) (rows edited) |}) |}.
Proof.
  intros Hw He. unfold Jewelry.save_edit.
  rewrite jewelry_recompute_rows by (rewrite He; apply Hw; in_cols).
  rewrite He. rewrite (proj2 (balance_cols_fixed cols)); [done|].
  split; apply Hw; in_cols.
Qed.

(** X16.  The editable table of a tab of jewelryapp.py and the save that
    follows it, on any session frame and whatever the user edits (an edit
    keeps the columns of the table).  The step never raises; the collection
    it stores has exactly the columns of the table, in the table's order (any
    other column of the session is dropped), as many records as the edited
    table, each with remaining balance and paid flag recomputed, and it is
    written to the file.  When nothing is edited, every record keeps, in the
    columns of the table that no recomputation writes, the cell it had (the
    empty text for a column the session lacked); the stored collection is
    then left unchanged by the recomputation at the head of the next view,
    and showing it in the table again with no edit stores the same
    collection. *)
Theorem jewelry_edit_table_spec (E : Env) (edit : DataFrame -> DataFrame)
        (st : store) (cols : list string) :
  cols = Jewelry.custom_editable_cols \/ cols = Jewelry.repair_editable_cols ->
  (forall d, columns (edit d) = columns d) ->
  exists st' shown,
    select_cols (ensure_cols (session_df st) cols) cols = Ok shown
    /\ Jewelry.edit_table E cols edit st = Ok st'
    /\ columns (session_df st') = cols
    /\ length (rows (session_df st')) = length (rows (edit shown))
    /\ csv_file st' = Some (csv_roundtrip E (session_df st'))
    /\ (forall r, r ∈ rows (session_df st') -> balance_consistent r)
    /\ ((forall d, edit d = d) ->
        table_kept cols (session_df st) (session_df st')
        /\ Jewelry.recompute_view E (session_df st') = Ok (session_df st')
        /\ Jewelry.edit_table E cols edit st' = Ok st').
Proof.
  intros Hcase Hedit.
  assert (Hw : forall c, c ∈ ["Total_Price"; "Deposit_Paid"; "Remaining_Balance"; "Paid"] ->
                         c ∈ cols).
  { intros c Hc. destruct Hcase as [-> | ->]; list_cases Hc; in_cols. }
  destruct (select_ensure (session_df st) cols) as (g & Hsel & Hg).
  eexists. eexists. split; [exact Hsel|].
  unfold Jewelry.edit_table. cbv zeta. cbn [session_df]. rewrite Hsel, bind_ok.
  rewrite (jewelry_save_edit_rows E cols) by (done || by rewrite Hedit).
  split; [reflexivity|]. cbn [session_df csv_file columns rows].
  split; [reflexivity|]. split; [by rewrite length_map|]. split; [reflexivity|].
  split.
  { intros r Hr. apply elem_of_map_row in Hr as (r0 & -> & _).
    apply balance_row_consistent. }
  intros Hid. rewrite Hid. cbn [rows]. rewrite map_map.
  set (S' := {| columns := cols;
                rows := map (fun x => balance_row E (restrict cols (g x)))
                            (rows (session_df st)) |}).
  assert (Hrows : forall r, r ∈ rows S' -> balance_row E r = r /\ restrict cols r = r).
  { intros r Hr. apply elem_of_map_row in Hr as (r0 & -> & _). split.
    - apply balance_row_idemp.
    - apply restrict_id. intros c v. by apply balance_row_keys. }
  split; [|split].
  - apply table_kept_intro; [exact Hg|]. intros r c. apply balance_row_other.
  - rewrite jewelry_recompute_view_rows by (apply Hw; in_cols).
    change (columns S') with cols.
    rewrite (proj2 (balance_cols_fixed cols)) by (split; apply Hw; in_cols).
    assert (Hm : map (balance_row E) (rows S') = rows S').
    { apply map_fixed. intros r Hr. apply (Hrows r Hr). }
    by rewrite Hm.
  - rewrite (ensure_cols_id S' cols) by done.
    unfold select_cols. rewrite (mapM_require_ok S' cols) by done.
    rewrite !bind_ok.
    rewrite (jewelry_save_edit_rows E cols) by (done || by rewrite Hedit).
    rewrite Hid. cbn [rows].
    assert (Hm : map (balance_row E)
                   (map (fun r : row => filter (fun kv : string * cell => kv.1 ∈ cols) r)
                        (rows S'))
                 = rows S').
    { rewrite map_map. apply map_fixed. intros r Hr.
      destruct (Hrows r Hr) as [H1 H2]. unfold restrict in H2. by rewrite H2. }
    by rewrite Hm.
Qed.

Lemma jewelry_edit_table_spec_witness :
  exists st',
    Jewelry.edit_table env0 Jewelry.repair_editable_cols (fun d => d)
      {| session_df := two_repairs; csv_file := None |} = Ok st'
    /\ columns (session_df st') = Jewelry.repair_editable_cols
    /\ table_kept Jewelry.repair_editable_cols two_repairs (session_df st')
    /\ Jewelry.edit_table env0 Jewelry.repair_editable_cols (fun d => d) st' = Ok st'.
Proof.
  destruct (jewelry_edit_table_spec env0 (fun d => d)
              {| session_df := two_repairs; csv_file := None |}
              Jewelry.repair_editable_cols (or_intror eq_refl) (fun d => eq_refl))
    as (st' & shown & _ & Hrun & Hcols & _ & _ & _ & Hid).
  destruct (Hid (fun d => eq_refl)) as (Hkept & _ & Hagain).
  exists st'. split; [exact Hrun|]. split; [exact Hcols|].
  split; [exact Hkept|exact Hagain].
Defined.

(** ** A run of a tab *)

(** X17.  The sidebar filters of a tab decide what its view shows and
    nothing else.  In both variants and for both tabs, a run of the tab
    returns the view of the session frame under the filters, and two runs
    from the same store with the same edit, under any two filter settings
    that do not raise, store the same collection, write the same file and
    draw the same chart below the table. *)
Theorem tab_run_filters (E : Env) (edit : DataFrame -> DataFrame) (st : store) :
  (forall F1 F2 st1 v1 h1 st2 v2 h2,
     Rick.custom_tab E F1 edit st = Ok (st1, v1, h1) ->
     Rick.custom_tab E F2 edit st = Ok (st2, v2, h2) ->
     Rick.custom_view E F1 (session_df st) = Ok v1 /\ st1 = st2 /\ h1 = h2)
  /\ (forall F1 F2 st1 v1 h1 st2 v2 h2,
        Rick.repair_tab E F1 edit st = Ok (st1, v1, h1) ->
        Rick.repair_tab E F2 edit st = Ok (st2, v2, h2) ->
        Rick.repair_view E F1 (session_df st) = Ok v1 /\ st1 = st2 /\ h1 = h2)
  /\ (forall F1 F2 st1 v1 h1 st2 v2 h2,
        Jewelry.custom_tab E F1 edit st = Ok (st1, v1, h1) ->
        Jewelry.custom_tab E F2 edit st = Ok (st2, v2, h2) ->
        Jewelry.custom_view E F1 (session_df st) = Ok v1 /\ st1 = st2 /\ h1 = h2)
  /\ (forall F1 F2 st1 v1 h1 st2 v2 h2,
        Jewelry.repair_tab E F1 edit st = Ok (st1, v1, h1) ->
        Jewelry.repair_tab E F2 edit st = Ok (st2, v2, h2) ->
        Jewelry.repair_view E F1 (session_df st) = Ok v1 /\ st1 = st2 /\ h1 = h2).
Proof.
  split; [|split; [|split]]; intros F1 F2 st1 v1 h1 st2 v2 h2.
  - unfold Rick.custom_tab, Rick.custom_view.
    destruct (Rick.recompute_view E "Due_Date" (session_df st)) as [df|]; [|done].
    rewrite !bind_ok.
    destruct (Rick.custom_filter E F1 df) as [f1|]; [|done].
    destruct (Rick.custom_filter E F2 df) as [f2|]; [|done]. rewrite !bind_ok.
    destruct (Rick.open_count f1) as [n1|]; [|done].
    destruct (Rick.open_count f2) as [n2|]; [|done]. rewrite !bind_ok.
    destruct (Rick.overdue_count f1) as [o1|]; [|done].
    destruct (Rick.overdue_count f2) as [o2|]; [|done]. rewrite !bind_ok.
    destruct (Rick.edit_table E "Due_Date" Rick.custom_cols edit df st) as [s'|]; [|done].
    rewrite !bind_ok.
    destruct (Rick.stage_counts Rick.CUSTOM_STATUSES (session_df s')) as [h|]; [|done].
    rewrite !bind_ok. by intros [= <- <- <-] [= <- _ <-].
  - unfold Rick.repair_tab, Rick.repair_view.
    destruct (Rick.recompute_view E "Promised_Date" (session_df st)) as [df|]; [|done].
    rewrite !bind_ok.
    destruct (Rick.repair_filter E F1 df) as [f1|]; [|done].
    destruct (Rick.repair_filter E F2 df) as [f2|]; [|done]. rewrite !bind_ok.
    destruct (Rick.open_count f1) as [n1|]; [|done].
    destruct (Rick.open_count f2) as [n2|]; [|done]. rewrite !bind_ok.
    destruct (Rick.overdue_count f1) as [o1|]; [|done].
    destruct (Rick.overdue_count f2) as [o2|]; [|done]. rewrite !bind_ok.
    destruct (Rick.edit_table E "Promised_Date" Rick.repair_cols edit df st) as [s'|];
      [|done].
    rewrite !bind_ok.
    destruct (Rick.bench_load (session_df s')) as [h|]; [|done].
    rewrite !bind_ok. by intros [= <- <- <-] [= <- _ <-].
  - unfold Jewelry.custom_tab, Jewelry.custom_view.
    destruct (Jewelry.recompute_view E (session_df st)) as [df|]; [|done].
    rewrite !bind_ok.
    destruct (Jewelry.custom_filter E F1 df) as [f1|]; [|done].
    destruct (Jewelry.custom_filter E F2 df) as [f2|]; [|done]. rewrite !bind_ok.
    destruct (Jewelry.open_count f1) as [n1|]; [|done].
    destruct (Jewelry.open_count f2) as [n2|]; [|done]. rewrite !bind_ok.
    destruct (Jewelry.completed_count f1) as [o1|]; [|done].
    destruct (Jewelry.completed_count f2) as [o2|]; [|done]. rewrite !bind_ok.
    destruct (Jewelry.edit_table E Jewelry.custom_editable_cols edit st) as [s'|]; [|done].
    rewrite !bind_ok.
    destruct (Jewelry.stage_counts Jewelry.CUSTOM_STATUSES (session_df s')) as [h|];
      [|done].
    rewrite !bind_ok. by intros [= <- <- <-] [= <- _ <-].
  - unfold Jewelry.repair_tab, Jewelry.repair_view.
    destruct (Jewelry.recompute_view E (session_df st)) as [df|]; [|done].
    rewrite !bind_ok.
    destruct (Jewelry.repair_filter E F1 df) as [f1|]; [|done].
    destruct (Jewelry.repair_filter E F2 df) as [f2|]; [|done]. rewrite !bind_ok.
    destruct (Jewelry.open_count f1) as [n1|]; [|done].
    destruct (Jewelry.open_count f2) as [n2|]; [|done]. rewrite !bind_ok.
    destruct (Jewelry.completed_count f1) as [o1|]; [|done].
    destruct (Jewelry.completed_count f2) as [o2|]; [|done]. rewrite !bind_ok.
    destruct (Jewelry.edit_table E Jewelry.repair_editable_cols edit st) as [s'|]; [|done].
    rewrite !bind_ok.
    destruct (Jewelry.stage_counts Jewelry.REPAIR_STATUSES (session_df s')) as [h|];
      [|done].
    rewrite !bind_ok. by intros [= <- <- <-] [= <- _ <-].
Qed.

Lemma tab_run_filters_witness :
  exists st1 v1 h1 st2 v2 h2,
    Rick.repair_tab env0 all_repairs (fun d => d)
      {| session_df := two_repairs; csv_file := None |} = Ok (st1, v1, h1)
    /\ Rick.repair_tab env0 (with_overdue all_repairs "Only overdue") (fun d => d)
         {| session_df := two_repairs; csv_file := None |} = Ok (st2, v2, h2)
    /\ st1 = st2 /\ h1 = h2 /\ v1.2 = 1 /\ length (rows v1.1.1) = 2
    /\ length (rows v2.1.1) = 1.
Proof.
  assert (H1 : exists x, Rick.repair_tab env0 all_repairs (fun d => d)
                           {| session_df := two_repairs; csv_file := None |} = Ok x
                         /\ x.1.2.2 = 1 /\ length (rows x.1.2.1.1) = 2).
  { eexists. split; [vm_compute; reflexivity|]. split; reflexivity. }
  assert (H2 : exists x, Rick.repair_tab env0 (with_overdue all_repairs "Only overdue")
                           (fun d => d)
                           {| session_df := two_repairs; csv_file := None |} = Ok x
                         /\ length (rows x.1.2.1.1) = 1).
  { eexists. split; [vm_compute; reflexivity|]. reflexivity. }
  destruct H1 as ([[st1 v1] h1] & H1 & Hn & Hl1).
  destruct H2 as ([[st2 v2] h2] & H2 & Hl2).
  destruct (proj1 (proj2 (tab_run_filters env0 (fun d => d)
                            {| session_df := two_repairs; csv_file := None |}))
              _ _ _ _ _ _ _ _ H1 H2) as (_ & Hs & Hh).
  exists st1, v1, h1, st2, v2, h2.
  split; [exact H1|]. split; [exact H2|]. split; [exact Hs|]. split; [exact Hh|].
  split; [exact Hn|]. split; [exact Hl1|exact Hl2].
Defined.

Lemma search_mask_ok (E : Env) (cs : list string) (search : string) :
  compiles E search -> exists mask, search_mask E cs search = Ok mask.
Proof.
  unfold compiles, search_mask, compile. intros H.
  destruct (str_truthy (strip search)); [|by eexists].
  destruct (re_search E (query_of search)) as [m|]; [by eexists|].
  by destruct (H eq_refl).
Qed.

Lemma derived_histograms (E : Env) (date_col : string) (d : DataFrame)
      (stages : list string) :
  let d' := {| columns := derived_cols (columns d);
               rows := map (derived_row E date_col) (rows d) |} in
  Rick.stage_counts stages d' = Rick.stage_counts stages d
  /\ Jewelry.stage_counts stages d' = Jewelry.stage_counts stages d
  /\ Rick.bench_load d' = Rick.bench_load d.
Proof.
  apply pass_histograms.
  - intros c Hc. apply derived_cols_in. by left.
  - apply derived_cols_frame.
  - intros r c. apply derived_row_other.
Qed.

Lemma balance_histograms (E : Env) (d : DataFrame) (stages : list string) :
  let d' := {| columns := balance_cols (columns d);
               rows := map (balance_row E) (rows d) |} in
  Rick.stage_counts stages d' = Rick.stage_counts stages d
  /\ Jewelry.stage_counts stages d' = Jewelry.stage_counts stages d
  /\ Rick.bench_load d' = Rick.bench_load d.
Proof.
  apply pass_histograms.
  - intros c Hc. apply balance_cols_in. by left.
  - apply balance_cols_frame.
  - intros r c. apply balance_row_other.
Qed.

Lemma rick_edit_table_ok (E : Env) (date_col : string) (cols : list string)
      (edit : DataFrame -> DataFrame) (df : DataFrame) (st : store) :
  (forall c, c ∈ written -> c ∈ cols) ->
  (forall d, columns (edit d) = columns d) ->
  exists shown,
    select_cols (ensure_cols df cols) cols = Ok shown
    /\ columns (edit shown) = cols
    /\ Rick.edit_table E date_col cols edit df st
       = Ok {| session_df := {| columns := derived_cols (columns (edit shown));
                                rows := map (derived_row E date_col)
                                            (rows (edit shown)) |};
               csv_file := Some (csv_roundtrip E
                             {| columns := derived_cols (columns (edit shown));
                                rows := map (derived_row E date_col)
                                            (rows (edit shown)) |}) |}.
Proof.
  intros Hw Hedit. destruct (select_ensure df cols) as (g & Hsel & _).
  eexists. split; [exact Hsel|]. split; [by rewrite Hedit|].
  unfold Rick.edit_table. cbv zeta. rewrite Hsel, bind_ok. unfold Rick.save_edit.
  rewrite rick_recompute_rows; [done|rewrite Hedit; apply Hw; in_cols..].
Qed.

Lemma jewelry_edit_table_ok (E : Env) (cols : list string)
      (edit : DataFrame -> DataFrame) (st : store) :
  "Total_Price" ∈ cols -> "Deposit_Paid" ∈ cols ->
  (forall d, columns (edit d) = columns d) ->
  exists shown,
    select_cols (ensure_cols (session_df st) cols) cols = Ok shown
    /\ columns (edit shown) = cols
    /\ Jewelry.edit_table E cols edit st
       = Ok {| session_df := {| columns := balance_cols (columns (edit shown));
                                rows := map (balance_row E) (rows (edit shown)) |};
               csv_file := Some (csv_roundtrip E
                             {| columns := balance_cols (columns (edit shown));
                                rows := map (balance_row E)
                                            (rows (edit shown)) |}) |}.
Proof.
  intros Ht Hd Hedit. destruct (select_ensure (session_df st) cols) as (g & Hsel & _).
  eexists. split; [exact Hsel|]. split; [by rewrite Hedit|].
  unfold Jewelry.edit_table. cbv zeta. cbn [session_df]. rewrite Hsel, bind_ok.
  unfold Jewelry.save_edit.
  rewrite jewelry_recompute_rows; [done|by rewrite Hedit..].
Qed.

(** X18.  A run of a tab succeeds whenever the session frame holds the
    columns its view reads and the query is blank or compiles, whatever the
    user edits in the table (an edit keeps the columns of the table): the
    editable table, the save and the chart below it never raise.  The chart
    drawn below the table (pipeline view, repair load by bench, stage view)
    is the chart of the table as edited, so an edited status or assignee
    shows in it in the same run. *)
Theorem tab_run_succeeds (E : Env) (edit : DataFrame -> DataFrame) (st : store) :
  (forall d, columns (edit d) = columns d) ->
  (forall F : Rick.filter_spec,
     compiles E (Rick.f_search F) ->
     ((forall c, c ∈ ["Total_Price"; "Deposit_Paid"; "Status"; "Phase_Owner"; "Job_ID";
                      "Client"; "Item"] -> c ∈ columns (session_df st)) ->
      exists st' v h df shown,
        Rick.custom_tab E F edit st = Ok (st', v, h)
        /\ Rick.recompute_view E "Due_Date" (session_df st) = Ok df
        /\ select_cols (ensure_cols df Rick.custom_cols) Rick.custom_cols = Ok shown
        /\ Rick.stage_counts Rick.CUSTOM_STATUSES (edit shown) = Ok h)
     /\ ((forall c, c ∈ ["Total_Price"; "Deposit_Paid"; "Status"; "Assigned_To";
                         "Job_ID"; "Client"; "Item"; "Repair_Type"] ->
                    c ∈ columns (session_df st)) ->
         exists st' v h df shown,
           Rick.repair_tab E F edit st = Ok (st', v, h)
           /\ Rick.recompute_view E "Promised_Date" (session_df st) = Ok df
           /\ select_cols (ensure_cols df Rick.repair_cols) Rick.repair_cols = Ok shown
           /\ Rick.bench_load (edit shown) = Ok h))
  /\ (forall F : Jewelry.filter_spec,
        compiles E (Jewelry.f_search F) ->
        ((forall c, c ∈ ["Total_Price"; "Deposit_Paid"; "Status"; "Job_ID"; "Client";
                         "Item"] -> c ∈ columns (session_df st)) ->
         exists st' v h shown,
           Jewelry.custom_tab E F edit st = Ok (st', v, h)
           /\ select_cols (ensure_cols (session_df st) Jewelry.custom_editable_cols)
                Jewelry.custom_editable_cols = Ok shown
           /\ Jewelry.stage_counts Jewelry.CUSTOM_STATUSES (edit shown) = Ok h)
        /\ ((forall c, c ∈ ["Total_Price"; "Deposit_Paid"; "Status"; "Job_ID"; "Client";
                            "Item"; "Repair_Type"] -> c ∈ columns (session_df st)) ->
            exists st' v h shown,
              Jewelry.repair_tab E F edit st = Ok (st', v, h)
              /\ select_cols (ensure_cols (session_df st) Jewelry.repair_editable_cols)
                   Jewelry.repair_editable_cols = Ok shown
              /\ Jewelry.stage_counts Jewelry.REPAIR_STATUSES (edit shown) = Ok h)).
Proof.
  intros Hedit.
  assert (Hframe : forall d : DataFrame,
            {| columns := columns d; rows := rows d |} = d) by (by intros []).
  split; intros F Hq; split; intros Hc.
  - destruct (search_mask_ok E ["Job_ID"; "Client"; "Item"] _ Hq) as [mask Hm].
    unfold Rick.custom_tab.
    rewrite rick_recompute_view_rows by (apply Hc; in_cols). rewrite bind_ok.
    set (C := {| columns := derived_cols (columns (session_df st));
                 rows := map (derived_row E "Due_Date") (rows (session_df st)) |}).
    assert (HC : forall c, c ∈ columns (session_df st)
                           \/ c ∈ ["Remaining_Balance"; "Paid"; "Overdue"] ->
                           c ∈ columns C) by apply derived_cols_in.
    assert (Hf : Rick.custom_filter E F C
                 = Ok (loc C (rick_keeps F "Phase_Owner" mask))).
    { unfold Rick.custom_filter.
      etrans; [apply (rick_filter_spec E F C "Phase_Owner" ["Job_ID"; "Client"; "Item"])
              |by rewrite Hm];
        [apply HC; left; apply Hc; in_cols..|apply HC; right; in_cols|].
      intros c H. apply HC. left. apply Hc. list_cases H; in_cols. }
    rewrite Hf, !bind_ok. unfold Rick.open_count, Rick.overdue_count.
    rewrite (require_ok _ "Status") by (apply HC; left; apply Hc; in_cols).
    rewrite (require_ok _ "Overdue") by (apply HC; right; in_cols).
    rewrite !bind_ok.
    destruct (rick_edit_table_ok E "Due_Date" Rick.custom_cols edit C st)
      as (shown & Hsel & Hcols & ->); [|exact Hedit|].
    { intros c H. unfold written in H. list_cases H; in_cols. }
    rewrite bind_ok. cbn [session_df].
    rewrite (proj1 (derived_histograms E "Due_Date" (edit shown) _)).
    destruct (stage_counts_spec Rick.CUSTOM_STATUSES (edit shown)) as [Hh _].
    { rewrite Hcols. in_cols. }
    rewrite Hh, bind_ok. do 5 eexists. split; [reflexivity|].
    split; [reflexivity|]. split; [exact Hsel|exact Hh].
  - destruct (search_mask_ok E ["Job_ID"; "Client"; "Item"; "Repair_Type"] _ Hq)
      as [mask Hm].
    unfold Rick.repair_tab.
    rewrite rick_recompute_view_rows by (apply Hc; in_cols). rewrite bind_ok.
    set (C := {| columns := derived_cols (columns (session_df st));
                 rows := map (derived_row E "Promised_Date") (rows (session_df st)) |}).
    assert (HC : forall c, c ∈ columns (session_df st)
                           \/ c ∈ ["Remaining_Balance"; "Paid"; "Overdue"] ->
                           c ∈ columns C) by apply derived_cols_in.
    assert (Hf : Rick.repair_filter E F C
                 = Ok (loc C (rick_keeps F "Assigned_To" mask))).
    { unfold Rick.repair_filter.
      etrans; [apply (rick_filter_spec E F C "Assigned_To"
                        ["Job_ID"; "Client"; "Item"; "Repair_Type"])
              |by rewrite Hm];
        [apply HC; left; apply Hc; in_cols..|apply HC; right; in_cols|].
      intros c H. apply HC. left. apply Hc. list_cases H; in_cols. }
    rewrite Hf, !bind_ok. unfold Rick.open_count, Rick.overdue_count.
    rewrite (require_ok _ "Status") by (apply HC; left; apply Hc; in_cols).
    rewrite (require_ok _ "Overdue") by (apply HC; right; in_cols).
    rewrite !bind_ok.
    destruct (rick_edit_table_ok E "Promised_Date" Rick.repair_cols edit C st)
      as (shown & Hsel & Hcols & ->); [|exact Hedit|].
    { intros c H. unfold written in H. list_cases H; in_cols. }
    rewrite bind_ok. cbn [session_df].
    rewrite (proj2 (proj2 (derived_histograms E "Promised_Date" (edit shown) []))).
    destruct (Rick.bench_load (edit shown)) as [h|e] eqn:Hb.
    + rewrite bind_ok. do 5 eexists. split; [reflexivity|].
      split; [reflexivity|]. split; [exact Hsel|exact Hb].
    + exfalso. unfold Rick.bench_load in Hb.
      rewrite (require_ok _ "Status") in Hb by (rewrite Hcols; in_cols).
      rewrite bind_ok in Hb.
      rewrite (require_ok _ "Assigned_To") in Hb by (simpl; rewrite Hcols; in_cols).
      by rewrite bind_ok in Hb.
  - destruct (search_mask_ok E ["Job_ID"; "Client"; "Item"] _ Hq) as [mask Hm].
    unfold Jewelry.custom_tab.
    rewrite jewelry_recompute_view_rows by (apply Hc; in_cols). rewrite bind_ok.
    set (C := {| columns := balance_cols (columns (session_df st));
                 rows := map (balance_row E) (rows (session_df st)) |}).
    assert (HC : forall c, c ∈ columns (session_df st)
                           \/ c ∈ ["Remaining_Balance"; "Paid"] ->
                           c ∈ columns C) by apply balance_cols_in.
    assert (Hf : Jewelry.custom_filter E F C = Ok (loc C (jewelry_keeps F mask))).
    { unfold Jewelry.custom_filter.
      etrans; [apply (jewelry_filter_spec E F C ["Job_ID"; "Client"; "Item"])
              |by rewrite Hm];
        [apply HC; left; apply Hc; in_cols|apply HC; right; in_cols|].
      intros c H. apply HC. left. apply Hc. list_cases H; in_cols. }
    rewrite Hf, !bind_ok. unfold Jewelry.open_count, Jewelry.completed_count.
    rewrite !(require_ok _ "Status") by (apply HC; left; apply Hc; in_cols).
    rewrite !bind_ok.
    destruct (jewelry_edit_table_ok E Jewelry.custom_editable_cols edit st)
      as (shown & Hsel & Hcols & ->); [in_cols|in_cols|exact Hedit|].
    rewrite bind_ok. cbn [session_df].
    rewrite (proj1 (proj2 (balance_histograms E (edit shown) _))).
    destruct (stage_counts_spec Jewelry.CUSTOM_STATUSES (edit shown)) as [Hh Hj].
    { rewrite Hcols. in_cols. }
    rewrite Hj, Hh, bind_ok. do 4 eexists. split; [reflexivity|].
    split; [exact Hsel|]. by rewrite Hj.
  - destruct (search_mask_ok E ["Job_ID"; "Client"; "Item"; "Repair_Type"] _ Hq)
      as [mask Hm].
    unfold Jewelry.repair_tab.
    rewrite jewelry_recompute_view_rows by (apply Hc; in_cols). rewrite bind_ok.
    set (C := {| columns := balance_cols (columns (session_df st));
                 rows := map (balance_row E) (rows (session_df st)) |}).
    assert (HC : forall c, c ∈ columns (session_df st)
                           \/ c ∈ ["Remaining_Balance"; "Paid"] ->
                           c ∈ columns C) by apply balance_cols_in.
    assert (Hf : Jewelry.repair_filter E F C = Ok (loc C (jewelry_keeps F mask))).
    { unfold Jewelry.repair_filter.
      etrans; [apply (jewelry_filter_spec E F C
                        ["Job_ID"; "Client"; "Item"; "Repair_Type"])
              |by rewrite Hm];
        [apply HC; left; apply Hc; in_cols|apply HC; right; in_cols|].
      intros c H. apply HC. left. apply Hc. list_cases H; in_cols. }
    rewrite Hf, !bind_ok. unfold Jewelry.open_count, Jewelry.completed_count.
    rewrite !(require_ok _ "Status") by (apply HC; left; apply Hc; in_cols).
    rewrite !bind_ok.
    destruct (jewelry_edit_table_ok E Jewelry.repair_editable_cols edit st)
      as (shown & Hsel & Hcols & ->); [in_cols|in_cols|exact Hedit|].
    rewrite bind_ok. cbn [session_df].
    rewrite (proj1 (proj2 (balance_histograms E (edit shown) _))).
    destruct (stage_counts_spec Jewelry.REPAIR_STATUSES (edit shown)) as [Hh Hj].
    { rewrite Hcols. in_cols. }
    rewrite Hj, Hh, bind_ok. do 4 eexists. split; [reflexivity|].
    split; [exact Hsel|]. by rewrite Hj.
Qed.

Lemma tab_run_succeeds_witness :
  compiles env0 (Rick.f_search (searching ""))
  /\ exists st' v h,
       Rick.custom_tab env0 (searching "") (fun d => d)
         {| session_df := three_jobs; csv_file := None |} = Ok (st', v, h).
Proof.
  assert (Hq : compiles env0 (Rick.f_search (searching ""))) by (intros H; discriminate H).
  assert (Hc : forall c, c ∈ ["Total_Price"; "Deposit_Paid"; "Status"; "Phase_Owner";
                              "Job_ID"; "Client"; "Item"] ->
                         c ∈ columns (session_df {| session_df := three_jobs;
                                                    csv_file := None |})).
  { intros c H. list_cases H; in_cols. }
  split; [exact Hq|].
  destruct (proj1 (proj1 (tab_run_succeeds env0 (fun d => d)
                            {| session_df := three_jobs; csv_file := None |}
                            (fun d => eq_refl)) (searching "") Hq) Hc)
    as (st' & v & h & _ & _ & Hrun & _).
  exists st', v, h. exact Hrun.
Defined.
